(** * Proofly MCP server: the analysis-session protocol of [server.js]

    A shallow embedding of the tool handlers of [src/server.js]
    ([handleAnalyzeImage], [handleAnalyzeImageUrl], [handleCheckSessionStatus],
    [handleGetFaceDetails]) and of their dispatcher, of [getVerdict] and of
    the text renderer [formatResultsToHumanReadable], with the properties
    the specification states about them.

    Conventions of the embedding:
    - JSON data exchanged with the remote service and with the tool caller
      is a [JsVal]; a JavaScript number is a [JsNumber], an IEEE double held
      as its exact rational value (or NaN, +Infinity, -Infinity);
    - the handlers run in the monad [M]: they thread the log of the network
      calls and sleeps they perform, and they return, throw a [JsError], or
      stop at a JavaScript coercion the embedding does not cover ([Stuck]);
    - text built with template literals is a list of [Chunk]s; what is
      produced by a builtin ([JSON.stringify], [toFixed], an interpolated
      value) stays a symbolic chunk, made by an operation that throws when
      the value cannot be converted to a primitive ([interp], [percent]);
    - what [logInfo] and [logError] write to the console is left out; a
      call of [logInfo] is kept where its template converts a value that no
      earlier line has converted, since that conversion can throw. *)

From Stdlib Require Import Bool Arith ZArith QArith Lia List String Ascii.
From Stdlib Require Import PrimFloat SpecFloat FloatOps.
Import ListNotations.
Open Scope string_scope.
Set Warnings "-register-all".

(** ** JavaScript values *)

(** A double: NaN, an infinity, or a finite value given exactly. *)
Inductive JsNumber : Type :=
| NaN
| Infinity (negative : bool)
| Finite (q : Q).

(** A value of JSON, or [undefined]. An object lists its own properties,
    each key once. *)
Inductive JsVal : Type :=
| JUndefined
| JNull
| JBool (b : bool)
| JNum (n : JsNumber)
| JStr (s : string)
| JArr (items : list JsVal)
| JObj (props : list (string * JsVal)).

Definition Qltb (x y : Q) : bool :=
  (Qnum x * QDen y <? Qnum y * QDen x)%Z.

(** [a < b] on numbers; false as soon as one side is NaN. *)
Definition num_lt (a b : JsNumber) : bool :=
  match a, b with
  | NaN, _ | _, NaN => false
  | Finite x, Finite y => Qltb x y
  | Infinity true, Infinity true => false
  | Infinity true, _ => true
  | _, Infinity true => false
  | Infinity false, _ => false
  | Finite _, Infinity false => true
  end.

Definition num_eq (a b : JsNumber) : bool :=
  match a, b with
  | Finite x, Finite y => Qeq_bool x y
  | Infinity s, Infinity t => Bool.eqb s t
  | _, _ => false
  end.

Definition num_gt (a b : JsNumber) : bool := num_lt b a.
Definition num_ge (a b : JsNumber) : bool := num_lt b a || num_eq a b.

Definition num_of_nat (n : nat) : JsNumber := Finite (inject_Z (Z.of_nat n)).

(** The value of the double with integer significand [m] and exponent [e]. *)
Definition dyadic (m e : Z) : Q := inject_Z m * Qpower 2 e.

(** The literals [0.8] and [0.2] of [getVerdict] denote the doubles nearest
    to 4/5 and 1/5. *)
Definition lit_0_8 : JsNumber := Finite (dyadic 7205759403792794 (-53)).
Definition lit_0_2 : JsNumber := Finite (dyadic 7205759403792794 (-55)).

(** ToBoolean. *)
Definition truthy (v : JsVal) : bool :=
  match v with
  | JUndefined | JNull => false
  | JBool b => b
  | JNum NaN => false
  | JNum (Infinity _) => true
  | JNum (Finite q) => negb (Qeq_bool q 0)
  | JStr s => negb (String.eqb s "")
  | JArr _ | JObj _ => true
  end.

(** [a || b]. *)
Definition js_or (a b : JsVal) : JsVal := if truthy a then a else b.

(** [v === 'lit'] for a string literal. *)
Definition is_str (v : JsVal) (lit : string) : bool :=
  match v with
  | JStr s => String.eqb s lit
  | _ => false
  end.

Fixpoint lookup (k : string) (props : list (string * JsVal)) : JsVal :=
  match props with
  | [] => JUndefined
  | (k', v) :: rest => if String.eqb k k' then v else lookup k rest
  end.

(** ToNumber on the operands whose conversion needs no parsing; a string,
    an array or an object gives [None]. *)
Definition to_number (v : JsVal) : option JsNumber :=
  match v with
  | JUndefined => Some NaN
  | JNull => Some (Finite 0)
  | JBool b => Some (Finite (if b then 1 else 0))
  | JNum n => Some n
  | JStr _ | JArr _ | JObj _ => None
  end.

(** [typeof v === 'number']. *)
Definition is_number (v : JsVal) : bool :=
  match v with JNum _ => true | _ => false end.

(** The index an array is read at for the key [n]: a non-negative
    integer, or nothing. *)
Definition array_index (n : JsNumber) : option nat :=
  match n with
  | Finite q =>
      if ((0 <=? Qnum q) && (Qnum q mod QDen q =? 0))%Z
      then Some (Z.to_nat (Qnum q / QDen q))
      else None
  | _ => None
  end.

(** Whether [v] can be turned into a primitive, as a template literal
    [`${v}`] and an arithmetic operand [v * 100] need it. The conversion of
    an object calls its [toString] (its [valueOf], inherited, gives the
    object back). No value here is a function, so an object that has a
    property of its own named [toString] has one that cannot be called, and
    the conversion throws a TypeError. An array converts by joining its
    elements, each converted in turn, [undefined] and [null] set aside. *)
Fixpoint printable (v : JsVal) : bool :=
  match v with
  | JObj props => negb (existsb (fun kv => String.eqb (fst kv) "toString") props)
  | JArr items =>
      forallb (fun x => match x with
                        | JUndefined | JNull => true
                        | _ => printable x
                        end) items
  | _ => true
  end.

(** ** Strings *)

(** [s.split(c)] for a one-character separator: never the empty list. *)
Fixpoint split_on (c : ascii) (s : string) : list string :=
  match s with
  | EmptyString => [""]
  | String a rest =>
      if Ascii.eqb a c then "" :: split_on c rest
      else match split_on c rest with
           | [] => [String a ""]
           | h :: t => String a h :: t
           end
  end.

(** [xs[i]] on an array of strings. *)
Definition str_at (xs : list string) (i : nat) : JsVal :=
  match nth_error xs i with
  | Some s => JStr s
  | None => JUndefined
  end.

(** ** Text, errors and outcomes *)

(** The codes [server.js] gives its errors. It reads them off the
    [ErrorCode] of the SDK, which has a member [InvalidParams] and none
    named [NotFound], [ServerError], [InvalidTool] or [INTERNAL_ERROR]:
    reading a member that is not there gives [undefined], so these four
    names stand for one and the same code. *)
Inductive ErrorCode : Type :=
| InvalidParams
| NoSuchCode.                         (* undefined *)

Definition NotFound : ErrorCode := NoSuchCode.
Definition ServerError : ErrorCode := NoSuchCode.
Definition InvalidTool : ErrorCode := NoSuchCode.
Definition INTERNAL_ERROR : ErrorCode := NoSuchCode.

(** A piece of a template literal. *)
Inductive Chunk : Type :=
| Lit (s : string)                    (* literal text *)
| Interp (v : JsVal)                  (* ${v} *)
| PlusOne (v : JsVal)                 (* ${v + 1} *)
| Percent (v : JsVal)                 (* ${(v * 100).toFixed(2)} *)
| PercentRest (v : JsVal)             (* ${(100 - v * 100).toFixed(2)} *)
| Stringify (v : JsVal)               (* JSON.stringify(v, null, 2) *)
| FaceImageUrl (base : string) (path : JsVal)
      (* `${base}${path}`, its first 'ai./' replaced by 'ai/' *)
| RuntimeText (what : string)         (* the message of a runtime TypeError *)
| McpMessage (code : ErrorCode) (msg : list Chunk).
      (* the message the SDK gives an McpError *)

Definition Text : Type := list Chunk.

(** The errors thrown. A [TypeError] carries a description of the failed
    operation, not the wording of the engine. *)
Inductive JsError : Type :=
| Error (msg : Text)                                   (* new Error(msg) *)
| TypeError (what : string)                            (* raised by the runtime *)
| AxiosError (response_status : option nat) (msg : Text) (* a rejected request *)
| McpError (code : ErrorCode) (msg : Text).            (* new McpError(code, msg) *)

(** [error.message]. *)
Definition error_message (e : JsError) : Text :=
  match e with
  | Error msg => msg
  | TypeError what => [RuntimeText what]
  | AxiosError _ msg => msg
  | McpError code msg => [McpMessage code msg]
  end.

(** [error.response && error.response.status === 404]. *)
Definition is_http_404 (e : JsError) : bool :=
  match e with
  | AxiosError (Some st) _ => Nat.eqb st 404
  | _ => false
  end.

(** [error instanceof McpError]. *)
Definition is_mcp_error (e : JsError) : bool :=
  match e with McpError _ _ => true | _ => false end.

Inductive Outcome (A : Type) : Type :=
| Return (a : A)
| Throw (e : JsError)
| Stuck (why : string)      (* a coercion outside the embedding *)
| OutOfFuel.                (* the loop's fuel ran out *)
Arguments Return {A} a.
Arguments Throw {A} e.
Arguments Stuck {A} why.
Arguments OutOfFuel {A}.

(** ** The remote service and the network log *)

Record Config : Type := {
  baseUrl : string;
  maxRetries : nat;
  retryInterval : nat
}.

(** [PROOFLY_CONFIG]; its [apiKey] is only ever logged. *)
Definition PROOFLY_CONFIG : Config :=
  {| baseUrl := "https://api.proofly.ai"; maxRetries := 60; retryInterval := 2000 |}.

Inductive Reply : Type :=
| Responds (data : JsVal)
| Rejects (response_status : option nat) (msg : Text).

(** What the other side answers during one tool call: the k-th status
    query (k = 0, 1, ...) gets [status_reply k]. *)
Record Remote : Type := {
  upload_reply : Reply;               (* POST /api/upload *)
  status_reply : nat -> Reply;        (* GET /api/{uuid}/status *)
  result_reply : Reply;               (* GET /api/{uuid} *)
  image_reply : Reply;                (* GET imageUrl; the data is the body *)
  image_content_type : JsVal          (* its content-type header *)
}.

Inductive Bytes : Type :=
| FromBase64 (s : string)             (* Buffer.from(s, 'base64') *)
| FromBody (data : JsVal).            (* Buffer.from(response.data) *)

Inductive ContentType : Type :=
| ByExtension (filename : string)     (* getContentTypeFromFilename(filename) *)
| Declared (v : JsVal).

Record FormFile : Type := {
  file_bytes : Bytes;
  file_name : string;
  file_type : ContentType
}.

Inductive Event : Type :=
| Sleep (ms : nat)
| PostUpload (file : FormFile)
| GetStatus (uuid : JsVal)
| GetResult (uuid : JsVal)
| GetImage (url : string).

(** The calls made so far, latest first. *)
Definition Log : Type := list Event.

Definition is_status_query (e : Event) : bool :=
  match e with GetStatus _ => true | _ => false end.

Definition is_result_fetch (e : Event) : bool :=
  match e with GetResult _ => true | _ => false end.

Definition is_network_call (e : Event) : bool :=
  match e with Sleep _ => false | _ => true end.

Definition status_queries (l : Log) : nat := List.length (filter is_status_query l).
Definition result_fetches (l : Log) : nat := List.length (filter is_result_fetch l).
Definition network_calls (l : Log) : nat := List.length (filter is_network_call l).

(** ** The monad of the handlers *)

Definition M (A : Type) : Type := Log -> Outcome A * Log.

Definition ret {A} (a : A) : M A := fun l => (Return a, l).
Definition throw {A} (e : JsError) : M A := fun l => (Throw e, l).
Definition stuck {A} (why : string) : M A := fun l => (Stuck why, l).
Definition out_of_fuel {A} : M A := fun l => (OutOfFuel, l).

Definition bind {A B} (m : M A) (k : A -> M B) : M B :=
  fun l =>
    match m l with
    | (Return a, l') => k a l'
    | (Throw e, l') => (Throw e, l')
    | (Stuck why, l') => (Stuck why, l')
    | (OutOfFuel, l') => (OutOfFuel, l')
    end.

(** [try { m } catch (error) { handler }]. *)
Definition try_catch {A} (m : M A) (handler : JsError -> M A) : M A :=
  fun l =>
    match m l with
    | (Throw e, l') => handler e l'
    | r => r
    end.

Definition lift {A} (o : Outcome A) : M A := fun l => (o, l).

Declare Scope js_scope.
Delimit Scope js_scope with js.
Notation "x <- m ;; k" := (bind m (fun x => k))
  (at level 61, m at next level, right associativity) : js_scope.
Notation "m ;; k" := (bind m (fun _ => k))
  (at level 61, right associativity) : js_scope.
Open Scope js_scope.

Definition emit (e : Event) : M unit := fun l => (Return tt, e :: l).

Definition answer (r : Reply) : M JsVal :=
  match r with
  | Responds data => ret data
  | Rejects st msg => throw (AxiosError st msg)
  end.

(** [v.k] for the property names the handlers read ([status], [faces],
    [length], ...): a TypeError on [undefined] and [null], the property of
    an object, the length of an array, [undefined] on other primitives. *)
Definition read_prop (v : JsVal) (k : string) : Outcome JsVal :=
  match v with
  | JUndefined | JNull => Throw (TypeError ("Cannot read property " ++ k))
  | JObj props => Return (lookup k props)
  | JArr items =>
      if String.eqb k "length" then Return (JNum (num_of_nat (List.length items)))
      else Return JUndefined
  | JStr _ =>
      if String.eqb k "length" then Stuck "length of a string" else Return JUndefined
  | JBool _ | JNum _ => Return JUndefined
  end.

Definition get_prop (v : JsVal) (k : string) : M JsVal := lift (read_prop v k).

(** [const { k = dflt } = v]. *)
Definition get_prop_default (v : JsVal) (k : string) (dflt : JsVal) : M JsVal :=
  x <- get_prop v k ;;
  ret (match x with JUndefined => dflt | _ => x end).

(** ToNumber, where the embedding has it. *)
Definition number_of (v : JsVal) : M JsNumber :=
  match to_number v with
  | Some n => ret n
  | None => stuck "ToNumber of a string or an object"
  end.

(** The TypeError of a conversion that fails. *)
Definition cannot_convert : JsError :=
  TypeError "Cannot convert object to primitive value".

(** The pieces of a template literal that convert a value: [`${v}`],
    [`${(v * 100).toFixed(2)}`], [`${(100 - v * 100).toFixed(2)}`] and
    [`${base}${path}`] with its repair. Each throws when [v] cannot be
    converted. *)
Definition interp (v : JsVal) : M Chunk :=
  if printable v then ret (Interp v) else throw cannot_convert.

Definition percent (v : JsVal) : M Chunk :=
  if printable v then ret (Percent v) else throw cannot_convert.

Definition percent_rest (v : JsVal) : M Chunk :=
  if printable v then ret (PercentRest v) else throw cannot_convert.

Definition face_image_url (base : string) (path : JsVal) : M Chunk :=
  if printable path then ret (FaceImageUrl base path) else throw cannot_convert.

(** [logInfo(`... ${v} ...`)]: the template is evaluated before the line
    is written, and the line itself is not kept. Only the calls whose
    template holds a value that was not converted before are modelled. *)
Definition logInfo (v : JsVal) : M unit :=
  _ <- interp v ;; ret tt.

(** ** [getVerdict] (lines 61-70) *)

Definition getVerdict (probability : JsVal) : Outcome string :=
  match probability with
  | JNull | JUndefined => Return "Uncertain (no score)"
  | _ =>
      match to_number probability with
      | None => Stuck "ToNumber of a string or an object"
      | Some p =>
          if num_gt p lit_0_8 then Return "Likely Real"
          else if num_lt p lit_0_2 then Return "Likely Fake"
          else Return "Uncertain"
      end
  end.

(** ** Rendering *)

Definition newline : string := String (ascii_of_nat 10) "".
Definition dquote : string := String (ascii_of_nat 34) "".
Definition NL : Chunk := Lit newline.

Definition is_undefined (v : JsVal) : bool :=
  match v with JUndefined => true | _ => false end.

Definition is_null (v : JsVal) : bool :=
  match v with JNull => true | _ => false end.

(** The values [i] takes in [for (let i = 1; i <= 10; i++)]. *)
Definition model_numbers : list string :=
  ["1"; "2"; "3"; "4"; "5"; "6"; "7"; "8"; "9"; "10"].

Section Handlers.

Variable cfg : Config.
Variable srv : Remote.

(** The loop over [is_real_model_${i}] (lines 98-102, 532-536). *)
Fixpoint model_lines (face : JsVal) (numbers : list string) : M Text :=
  match numbers with
  | [] => ret []
  | i :: rest =>
      v <- get_prop face ("is_real_model_" ++ i) ;;
      line <- (if is_undefined v then ret []
               else p <- percent v ;;
                    ret [Lit "  - Model "; Lit i; Lit ": "; p; Lit "%"; NL]) ;;
      more <- model_lines face rest ;;
      ret (line ++ more)%list
  end.

(** The lines written for one face. Lines 90-110 of
    [formatResultsToHumanReadable] and lines 525-544 of
    [handleGetFaceDetails] are the same text, apart from the header line
    each writes before them. *)
Definition face_lines (face : JsVal) : M Text :=
  ansamble <- get_prop face "ansamble" ;;
  faceVerdict <- lift (getVerdict ansamble) ;;
  probability <- (if is_undefined ansamble || is_null ansamble then ret []
                  else real <- percent ansamble ;;
                       fake <- percent_rest ansamble ;;
                       ret [Lit ("* Probability " ++ dquote ++ "real" ++ dquote ++ ": ");
                            real;
                            Lit ("%, " ++ dquote ++ "fake" ++ dquote ++ ": ");
                            fake; Lit "%"; NL]) ;;
  model1 <- get_prop face "is_real_model_1" ;;
  models <- (if is_undefined model1 then ret []
             else ms <- model_lines face model_numbers ;;
                  ret ([Lit "* Individual model results:"; NL] ++ ms)%list) ;;
  face_path <- get_prop face "face_path" ;;
  address <- (if truthy face_path
              then url <- face_image_url (baseUrl cfg) face_path ;;
                   ret [Lit "* Face image URL: "; url; NL]
              else ret []) ;;
  ret ([Lit "* Verdict: **"; Lit faceVerdict; Lit "**"; NL]
       ++ probability ++ models ++ address)%list.

(** [result.faces.forEach((face, index) => ...)] (lines 89-112). *)
Fixpoint face_blocks (faces : list JsVal) (index : nat) : M Text :=
  match faces with
  | [] => ret []
  | face :: rest =>
      body <- face_lines face ;;
      more <- face_blocks rest (S index) ;;
      ret ([Lit "**Face "; PlusOne (JNum (num_of_nat index)); Lit ":**"; NL]
           ++ body ++ [NL] ++ more)%list
  end.

(** [formatResultsToHumanReadable] (lines 73-122). *)
Definition formatResultsToHumanReadable (result : JsVal) : M Text :=
  if negb (truthy result) then ret [Lit "Error: No result to format."]
  else
    uuid <- get_prop result "uuid" ;;
    session <- interp (js_or uuid (JStr "N/A")) ;;
    sha256 <- get_prop result "sha256" ;;
    hash <- (if truthy sha256
             then h <- interp sha256 ;; ret [Lit "* SHA256 hash: "; h; NL]
             else ret []) ;;
    status <- get_prop result "status" ;;
    state <- interp (js_or status (JStr "N/A")) ;;
    message <- get_prop result "message" ;;
    faces <- get_prop result "faces" ;;
    body <-
      (if truthy message
          && (is_str status "no_faces_found" || is_str status "no faces found")
       then m <- interp message ;; ret [Lit "* Message: "; m; NL]
       else
         some_faces <-
           (if truthy faces
            then len <- get_prop faces "length" ;;
                 n <- number_of len ;;
                 ret (num_gt n (Finite 0))
            else ret false) ;;
         if some_faces : bool then
           total_faces <- get_prop result "total_faces" ;;
           len <- get_prop faces "length" ;;
           count <- interp (js_or total_faces len) ;;
           blocks <-
             match faces with
             | JArr items => face_blocks items 0
             | _ => throw (TypeError "result.faces.forEach is not a function")
             end ;;
           ret ([Lit "* Faces detected: "; count; NL; NL] ++ blocks)%list
         else if is_str status "done" || is_str status "completed"
         then ret [Lit "* No faces detected in the image"; NL; NL]
         else if negb (truthy message)
         then ret [Lit "* No specific face data available or an issue occurred during processing.";
                   NL; NL]
         else ret []) ;;
    ret ([Lit "**Image Analysis Results:**"; NL;
          Lit "* Session UUID: "; session; NL]
         ++ hash
         ++ [Lit "* Status: "; state; NL]
         ++ body
         ++ [Lit "For unlimited speed access and additional features, register at check.proofly.ai";
             NL])%list.

(** ** Network calls *)

Definition sleep (ms : nat) : M unit := emit (Sleep ms).

(** [axios.post(`${baseUrl}/api/upload`, formData, ...)]. *)
Definition axios_post_upload (file : FormFile) : M JsVal :=
  emit (PostUpload file) ;; answer (upload_reply srv).

(** [axios.get(`${baseUrl}/api/${uuid}/status`)]: the reply is the one for
    the number of status queries made before. *)
Definition axios_get_status (uuid : JsVal) : M JsVal :=
  fun l => (emit (GetStatus uuid) ;; answer (status_reply srv (status_queries l))) l.

(** [axios.get(`${baseUrl}/api/${uuid}`)]. *)
Definition axios_get_result (uuid : JsVal) : M JsVal :=
  emit (GetResult uuid) ;; answer (result_reply srv).

(** [axios.get(imageUrl, { responseType: 'arraybuffer' })]. *)
Definition axios_get_image (url : string) : M JsVal :=
  emit (GetImage url) ;; answer (image_reply srv).

(** ** Upload, poll, settle (lines 288-348 and, the same text, 386-446) *)

Record PollState : Type := {
  status : JsVal;
  attempts : nat;
  analysisResult : JsVal
}.

(** [let status = 'in progress'; let attempts = 0; let analysisResult;] *)
Definition poll_start : PollState :=
  {| status := JStr "in progress"; attempts := 0; analysisResult := JUndefined |}.

(** The condition of the [while] (lines 306, 404). *)
Definition keeps_polling (status : JsVal) : bool :=
  is_str status "in progress" || is_str status "processing" || is_str status "pending".

(** The [while] loop (lines 306-319, 404-417); [fuel] bounds its
    iterations. The identifier [uuid] was converted when line 300 (398)
    logged it, before the loop; the status is converted when line 315 (413)
    logs it. *)
Fixpoint poll_loop (fuel : nat) (uuid : JsVal) (st : PollState) : M PollState :=
  if keeps_polling (status st) then
    match fuel with
    | O => out_of_fuel
    | S fuel' =>
        if (maxRetries cfg <=? attempts st)%nat
        then throw (Error [Lit "Maximum retry attempts reached for status check."])
        else
          sleep (retryInterval cfg) ;;
          data <- axios_get_status uuid ;;
          status' <- get_prop data "status" ;;
          logInfo status' ;;
          result <- get_prop data "result" ;;
          poll_loop fuel' uuid
            {| status := status';
               attempts := S (attempts st);
               analysisResult := if truthy result then result else analysisResult st |}
    end
  else ret st.

(** The result made up when the service reports no faces (lines 324-330). *)
Definition no_faces_result (uuid : JsVal) : JsVal :=
  JObj [("uuid", uuid);
        ("status", JStr "no_faces_found");
        ("message", JStr "No faces detected in the image.");
        ("faces", JArr []);
        ("total_faces", JNum (Finite 0))].

(** After the loop (lines 321-340, 419-438). Line 332 converts the last
    status once more; the identifier in the address of line 338 was
    converted at line 300. *)
Definition settle (uuid : JsVal) (st : PollState) : M JsVal :=
  r <- (if negb (is_str (status st) "done")
           && negb (is_str (status st) "completed")
           && negb (truthy (analysisResult st))
        then
          if is_str (status st) "no_faces_found" || is_str (status st) "no faces found"
          then ret (no_faces_result uuid)
          else
            last <- interp (status st) ;;
            throw (Error [Lit "Analysis did not complete successfully. Last status: ";
                          last])
        else ret (analysisResult st)) ;;
  if negb (truthy r) then axios_get_result uuid else ret r.

(** Lines 302-340: the session from the first status query to its result. *)
Definition poll_and_settle (uuid : JsVal) : M JsVal :=
  st <- poll_loop (S (maxRetries cfg)) uuid poll_start ;;
  settle uuid st.

(** Lines 344-348, 442-446. *)
Definition render_result (format analysisResult : JsVal) : M Text :=
  if is_str format "json" then ret [Stringify analysisResult]
  else formatResultsToHumanReadable analysisResult.

(** Lines 288-348 and 386-446: upload the file, follow the session, render. *)
Definition upload_and_analyze (file : FormFile) (format : JsVal) : M Text :=
  data <- axios_post_upload file ;;
  uuid <- get_prop data "uuid" ;;
  if negb (truthy uuid)
  then throw (Error [Lit "No session UUID returned from Proofly API after upload"])
  else
    logInfo uuid ;;
    analysisResult <- poll_and_settle uuid ;;
    render_result format analysisResult.

(** ** The tool handlers *)

(** Lines 274-278: drop a data-URI header. The outcome of
    [imageBase64.split(',')[1]] is [undefined] when there is no comma. *)
Definition strip_data_uri (imageBase64 : string) : JsVal :=
  if prefix "data:image" imageBase64
  then str_at (split_on ","%char imageBase64) 1
  else JStr imageBase64.

(** [Buffer.from(actualImageBase64, 'base64')] (line 279). *)
Definition buffer_from_base64 (actualImageBase64 : JsVal) : M Bytes :=
  match actualImageBase64 with
  | JStr b => ret (FromBase64 b)
  | _ => throw (TypeError "Buffer.from: the first argument is not a string")
  end.

(** The catch blocks of the two analyze handlers (lines 350-357, 448-455). *)
Definition rethrow_as_server_error {A} (prefix : string) (error : JsError) : M A :=
  throw (McpError ServerError (Lit prefix :: error_message error)).

(** [handleAnalyzeImage] (lines 262-358). *)
Definition handleAnalyzeImage (params : JsVal) : M Text :=
  imageBase64 <- get_prop params "imageBase64" ;;
  filename <- get_prop params "filename" ;;
  format <- get_prop_default params "format" (JStr "text") ;;
  if negb (truthy imageBase64) || negb (truthy filename)
  then throw (McpError InvalidParams [Lit "Missing imageBase64 or filename parameter"])
  else
    try_catch
      (actualImageBase64 <-
         match imageBase64 with
         | JStr s => ret (strip_data_uri s)
         | _ => throw (TypeError "imageBase64.startsWith is not a function")
         end ;;
       imageBuffer <- buffer_from_base64 actualImageBase64 ;;
       match filename with
       | JStr f =>
           upload_and_analyze
             {| file_bytes := imageBuffer; file_name := f; file_type := ByExtension f |}
             format
       | _ => throw (TypeError "filename.split is not a function")
       end)
      (rethrow_as_server_error "Failed to analyze image: ").

(** Line 377-378: the last path segment of the URL, up to a question mark. *)
Definition originalFilename (imageUrl : string) : string :=
  let urlParts := split_on "/"%char imageUrl in
  let name := hd "" (split_on "?"%char (last urlParts "")) in
  if String.eqb name "" then "image.jpg" else name.

(** [handleAnalyzeImageUrl] (lines 360-456). *)
Definition handleAnalyzeImageUrl (params : JsVal) : M Text :=
  imageUrl <- get_prop params "imageUrl" ;;
  format <- get_prop_default params "format" (JStr "text") ;;
  if negb (truthy imageUrl)
  then throw (McpError InvalidParams [Lit "Missing imageUrl parameter"])
  else
    try_catch
      (match imageUrl with
       | JStr url =>
           body <- axios_get_image url ;;
           upload_and_analyze
             {| file_bytes := FromBody body;
                file_name := originalFilename url;
                file_type := Declared (js_or (image_content_type srv)
                                             (JStr "application/octet-stream")) |}
             format
       | _ => stuck "axios.get of a URL that is not a string"
       end)
      (rethrow_as_server_error "Failed to analyze image URL: ").

(** [handleCheckSessionStatus] (lines 458-498). Line 467 logs the
    identifier inside the [try]; the later templates that hold it (lines
    476, 494) convert it again, which cannot fail any more. *)
Definition handleCheckSessionStatus (params : JsVal) : M Text :=
  sessionUuid <- get_prop params "sessionUuid" ;;
  format <- get_prop_default params "format" (JStr "text") ;;
  if negb (truthy sessionUuid)
  then throw (McpError InvalidParams [Lit "Missing sessionUuid parameter"])
  else
    try_catch
      (logInfo sessionUuid ;;
       statusData <- axios_get_status sessionUuid ;;
       if is_str format "json" then ret [Stringify statusData]
       else
         st <- get_prop statusData "status" ;;
         state <- interp (js_or st (JStr "N/A")) ;;
         message <- get_prop statusData "message" ;;
         note <- (if truthy message
                  then m <- interp message ;; ret [Lit "* Message: "; m; NL]
                  else ret []) ;;
         result <- get_prop statusData "result" ;;
         ret ([Lit "**Session Status for "; Interp sessionUuid; Lit ":**"; NL;
               Lit "* Status: "; state; NL]
              ++ note
              ++ (if truthy result then [Lit "* Result available: Yes"; NL] else []))%list)
      (fun error =>
         if is_http_404 error
         then throw (McpError NotFound
                       [Lit "Session with UUID "; Interp sessionUuid; Lit " not found."])
         else throw (McpError ServerError
                       (Lit "Failed to check session status: " :: error_message error))).

(** [faceIndex < 0], read once [faceIndex] is known to be a number. *)
Definition below_zero (faceIndex : JsVal) : bool :=
  match faceIndex with
  | JNum n => num_lt n (Finite 0)
  | _ => false
  end.

(** [faces[faceIndex]] for a number [faceIndex]. *)
Definition element_at (faces : JsVal) (faceIndex : JsVal) : M JsVal :=
  match faces with
  | JUndefined | JNull => throw (TypeError "Cannot read property of faces")
  | JArr items =>
      n <- number_of faceIndex ;;
      ret (match array_index n with
           | Some i => nth i items JUndefined
           | None => JUndefined
           end)
  | JObj _ | JStr _ => stuck "property key made from a number"
  | JBool _ | JNum _ => ret JUndefined
  end.

(** The message of line 515. *)
Definition face_not_found (faceIndex sessionUuid total : JsVal) : Text :=
  [Lit "Face with index "; Interp faceIndex; Lit " not found in session ";
   Interp sessionUuid; Lit ". Total faces: "; Interp total; Lit "."].

(** The header line of the face-detail text (line 524). *)
Definition face_details_header (faceIndex sessionUuid : JsVal) : Text :=
  [Lit "**Details for Face "; PlusOne faceIndex; Lit " (Session: ";
   Interp sessionUuid; Lit "):**"; NL].

(** The [try] block of [handleGetFaceDetails] (lines 509-546). Line 509
    logs the identifier. The templates of lines 515 and 524 hold the
    identifier again, the index, which the validation has shown to be a
    number, and the length that line 514 has compared as a number. *)
Definition face_details (sessionUuid faceIndex format : JsVal) : M Text :=
  logInfo sessionUuid ;;
  analysisResult <- axios_get_result sessionUuid ;;
  faces <- get_prop analysisResult "faces" ;;
  (if negb (truthy faces)
   then throw (McpError NotFound
                 (face_not_found faceIndex sessionUuid (JNum (Finite 0))))
   else
     len <- get_prop faces "length" ;;
     i <- number_of faceIndex ;;
     n <- number_of len ;;
     if num_ge i n
     then throw (McpError NotFound (face_not_found faceIndex sessionUuid len))
     else ret tt) ;;
  specificFace <- element_at faces faceIndex ;;
  if is_str format "json" then ret [Stringify specificFace]
  else
    body <- face_lines specificFace ;;
    ret (face_details_header faceIndex sessionUuid ++ body)%list.

(** The [catch] block of [handleGetFaceDetails] (lines 548-558). *)
Definition face_details_catch (sessionUuid : JsVal) (error : JsError) : M Text :=
  if is_http_404 error
  then throw (McpError NotFound
                [Lit "Session with UUID "; Interp sessionUuid;
                 Lit " not found when fetching face details."])
  else throw (McpError ServerError
                (Lit "Failed to get face details: " :: error_message error)).

(** [handleGetFaceDetails] (lines 500-559). *)
Definition handleGetFaceDetails (params : JsVal) : M Text :=
  sessionUuid <- get_prop params "sessionUuid" ;;
  faceIndex <- get_prop params "faceIndex" ;;
  format <- get_prop_default params "format" (JStr "text") ;;
  if negb (truthy sessionUuid) || negb (is_number faceIndex) || below_zero faceIndex
  then throw (McpError InvalidParams
                [Lit "Missing or invalid sessionUuid or faceIndex parameter"])
  else
    try_catch
      (face_details sessionUuid faceIndex format)
      (face_details_catch sessionUuid).

(** The [CallToolRequestSchema] handler (lines 238-259). Line 239 logs
    the name before the [try] is entered; lines 252 and 257 convert it
    again. *)
Definition callTool (name args : JsVal) : M Text :=
  logInfo name ;;
  try_catch
    (if is_str name "analyze-image" then handleAnalyzeImage args
     else if is_str name "analyze" then handleAnalyzeImageUrl args
     else if is_str name "check-session-status" then handleCheckSessionStatus args
     else if is_str name "get-face-details" then handleGetFaceDetails args
     else throw (McpError InvalidTool [Lit "Unknown tool: "; Interp name]))
    (fun error =>
       if is_mcp_error error then throw error
       else throw (McpError INTERNAL_ERROR
                     ([Lit "Failed to execute tool "; Interp name; Lit ": "]
                      ++ error_message error)%list)).

End Handlers.

(** ** Vocabulary of the statements *)

(** The scores of the models and the path of the image of a face can be
    converted: the scores count only when [is_real_model_1] is there. *)
Definition face_converts (props : list (string * JsVal)) : bool :=
  (is_undefined (lookup "is_real_model_1" props)
   || forallb (fun i => printable (lookup ("is_real_model_" ++ i) props)) model_numbers)
  && (negb (truthy (lookup "face_path" props)) || printable (lookup "face_path" props)).


(** A service that answers the result query with [res]. *)
Definition serving_result (srv : Remote) (res : JsVal) : Remote :=
  {| upload_reply := upload_reply srv;
     status_reply := status_reply srv;
     result_reply := Responds res;
     image_reply := image_reply srv;
     image_content_type := image_content_type srv |}.

(** What one status reply gives the loop: its [status] and [result]. *)
Definition reply_fields (r : Reply) : option (JsVal * JsVal) :=
  match r with
  | Responds data =>
      match read_prop data "status", read_prop data "result" with
      | Return s, Return res => Some (s, res)
      | _, _ => None
      end
  | Rejects _ _ => None
  end.

(** The k-th status reply arrives and reports a status the loop goes on with. *)
Definition polls_at (srv : Remote) (k : nat) : bool :=
  match reply_fields (status_reply srv k) with
  | Some (s, _) => keeps_polling s
  | None => false
  end.

(** The state after an iteration that read [s] and [res] (lines 311-318). *)
Definition next_state (st : PollState) (s res : JsVal) : PollState :=
  {| status := s;
     attempts := S (attempts st);
     analysisResult := if truthy res then res else analysisResult st |}.

(** The log after one more iteration of the loop: a sleep, then a query. *)
Definition after_query (cfg : Config) (uuid : JsVal) (l : Log) : Log :=
  GetStatus uuid :: Sleep (retryInterval cfg) :: l.

(** The log after [n] more iterations of the loop. *)
Fixpoint polled_log (cfg : Config) (uuid : JsVal) (n : nat) (l : Log) : Log :=
  match n with
  | O => l
  | S n' => after_query cfg uuid (polled_log cfg uuid n' l)
  end.

Definition max_retries_error : JsError :=
  Error [Lit "Maximum retry attempts reached for status check."].

Definition incomplete_error (last_status : JsVal) : JsError :=
  Error [Lit "Analysis did not complete successfully. Last status: "; Interp last_status].

Definition is_no_faces (s : JsVal) : bool :=
  is_str s "no_faces_found" || is_str s "no faces found".

Definition is_done (s : JsVal) : bool :=
  is_str s "done" || is_str s "completed".

(** Only sleeps and status queries. *)
Definition polling_events (l : Log) : bool :=
  forallb (fun e => match e with Sleep _ | GetStatus _ => true | _ => false end) l.

(** A computation that leaves the log as it is. *)
Definition silent {A} (m : M A) : Prop := forall l, snd (m l) = l.

(** [format] as the handlers destructure it, with its default. *)
Definition format_of (props : list (string * JsVal)) : JsVal :=
  match lookup "format" props with
  | JUndefined => JStr "text"
  | _ => lookup "format" props
  end.

(** [params] is a call of analyze-image that passes validation and
    decoding: it uploads [file] and renders in [format]. *)
Definition image_call (params : JsVal) (file : FormFile) (format : JsVal) : Prop :=
  exists props s b f,
    params = JObj props /\
    lookup "imageBase64" props = JStr s /\ s <> "" /\
    strip_data_uri s = JStr b /\
    lookup "filename" props = JStr f /\ f <> "" /\
    file = {| file_bytes := FromBase64 b; file_name := f; file_type := ByExtension f |} /\
    format = format_of props.

(** [params] is a call of analyze whose image at [url] is downloaded: it
    uploads [file] and renders in [format]. *)
Definition url_call (srv : Remote) (params : JsVal) (url : string)
    (file : FormFile) (format : JsVal) : Prop :=
  exists props body,
    params = JObj props /\
    lookup "imageUrl" props = JStr url /\ url <> "" /\
    image_reply srv = Responds body /\
    file = {| file_bytes := FromBody body;
              file_name := originalFilename url;
              file_type := Declared (js_or (image_content_type srv)
                                           (JStr "application/octet-stream")) |} /\
    format = format_of props.

(** The upload is answered with the session identifier [uuid]. *)
Definition session_opened (srv : Remote) (uuid : JsVal) : Prop :=
  exists data,
    upload_reply srv = Responds data /\
    read_prop data "uuid" = Return uuid /\
    truthy uuid = true.

(** The text written for the made-up no-faces result. *)
Definition no_faces_text (uuid : JsVal) : Text :=
  [Lit "**Image Analysis Results:**"; NL;
   Lit "* Session UUID: "; Interp (js_or uuid (JStr "N/A")); NL;
   Lit "* Status: "; Interp (JStr "no_faces_found"); NL;
   Lit "* Message: "; Interp (JStr "No faces detected in the image."); NL;
   Lit "For unlimited speed access and additional features, register at check.proofly.ai";
   NL].

(** No comma in [s]. *)
Definition comma_free (s : string) : bool :=
  forallb (fun c => negb (Ascii.eqb c ","%char)) (list_ascii_of_string s).

(** The characters of base64 text: letters, digits, [+ / =] and the
    URL-safe [- _]. *)
Definition base64_char (c : ascii) : bool :=
  let n := nat_of_ascii c in
  ((65 <=? n) && (n <=? 90) || (97 <=? n) && (n <=? 122) || (48 <=? n) && (n <=? 57)
   || (n =? 43) || (n =? 47) || (n =? 61) || (n =? 45) || (n =? 95))%nat.

Definition base64_text (s : string) : bool :=
  forallb base64_char (list_ascii_of_string s).

Definition invalid_face_params : JsError :=
  McpError InvalidParams [Lit "Missing or invalid sessionUuid or faceIndex parameter"].

(** ** Sample data *)

(** A face scored 0.875 and a stored result holding it. *)
Definition sample_face : JsVal := JObj [("ansamble", JNum (Finite (7 # 8)))].

Definition sample_result : JsVal :=
  JObj [("uuid", JStr "abc"); ("status", JStr "done"); ("faces", JArr [sample_face])].

Definition no_reply : Reply := Rejects None [Lit "Network Error"].

(** A service that knows the session "abc" and its result. *)
Definition sample_store : Remote :=
  {| upload_reply := no_reply;
     status_reply := fun _ => no_reply;
     result_reply := Responds sample_result;
     image_reply := no_reply;
     image_content_type := JUndefined |}.

Definition face_request (faceIndex format : JsVal) : JsVal :=
  JObj [("sessionUuid", JStr "abc"); ("faceIndex", faceIndex); ("format", format)].

Definition status_only (s : string) : JsVal := JObj [("status", JStr s)].

(** A service that accepts the upload as session "abc" and then reports
    the status [s] without a result, whenever asked. *)
Definition reporting (s : string) : Remote :=
  {| upload_reply := Responds (JObj [("uuid", JStr "abc")]);
     status_reply := fun _ => Responds (status_only s);
     result_reply := Responds sample_result;
     image_reply := Responds (JStr "bytes");
     image_content_type := JStr "image/png" |}.

(** The scenario of C8: the upload opens the session "abc"; the status is
    'processing' twice, then 'done' with the result [embedded]. *)
Definition scenario (embedded : JsVal) : Remote :=
  {| upload_reply := Responds (JObj [("uuid", JStr "abc")]);
     status_reply := fun k =>
       match k with
       | O | S O => Responds (status_only "processing")
       | _ => Responds (JObj [("status", JStr "done"); ("result", embedded)])
       end;
     result_reply := no_reply;
     image_reply := no_reply;
     image_content_type := JUndefined |}.

Definition image_request (imageBase64 : string) (format : JsVal) : JsVal :=
  JObj [("imageBase64", JStr imageBase64); ("filename", JStr "a.png"); ("format", format)].

Definition sample_url : string := "https://example.com/pics/a.png?x=1".

Definition url_request (format : JsVal) : JsVal :=
  JObj [("imageUrl", JStr sample_url); ("format", format)].

Definition sample_file : FormFile :=
  {| file_bytes := FromBase64 "AAAA"; file_name := "a.png"; file_type := ByExtension "a.png" |}.

Definition sample_url_file : FormFile :=
  {| file_bytes := FromBody (JStr "bytes"); file_name := "a.png";
     file_type := Declared (JStr "image/png") |}.

(** The loop's state after one reply with the status [s] and no result. *)
Definition stopped_at (s : string) : PollState :=
  {| status := JStr s; attempts := 1; analysisResult := JUndefined |}.

Definition one_poll (before : Log) : Log :=
  GetStatus (JStr "abc") :: Sleep 2000 :: before.

Definition three_polls (before : Log) : Log := one_poll (one_poll (one_poll before)).

(** ** Further code of [server.js] *)

(** [toLowerCase] on a character: the letters A-Z are the only ones that
    it turns into a letter a-z, so the only ones that matter to a lookup
    among keys written in a-z. *)
Definition lower_ascii (c : ascii) : ascii :=
  let n := nat_of_ascii c in
  if ((65 <=? n) && (n <=? 90))%nat then ascii_of_nat (n + 32) else c.

Fixpoint toLowerCase (s : string) : string :=
  match s with
  | EmptyString => EmptyString
  | String c rest => String (lower_ascii c) (toLowerCase rest)
  end.

(** The object literal [contentTypes] (lines 47-56). *)
Definition contentTypes : list (string * string) :=
  [("jpg", "image/jpeg"); ("jpeg", "image/jpeg"); ("png", "image/png");
   ("gif", "image/gif"); ("webp", "image/webp"); ("bmp", "image/bmp");
   ("tiff", "image/tiff"); ("tif", "image/tiff")].

Fixpoint own_property (k : string) (table : list (string * string)) : option string :=
  match table with
  | [] => None
  | (k', v) :: rest => if String.eqb k k' then Some v else own_property k rest
  end.

(** What [contentTypes[extension] || 'application/octet-stream'] gives: a
    string, or, for the two lower-case names every object inherits
    ([constructor], [__proto__]), the inherited member. *)
Inductive TypeFound : Type :=
| Mime (s : string)
| Inherited (member : string).

(** [getContentTypeFromFilename] (lines 45-58). *)
Definition getContentTypeFromFilename (filename : string) : TypeFound :=
  let extension := toLowerCase (last (split_on "."%char filename) "") in
  match own_property extension contentTypes with
  | Some m => Mime m
  | None =>
      if String.eqb extension "constructor" || String.eqb extension "__proto__"
      then Inherited extension
      else Mime "application/octet-stream"
  end.

(** [s.startsWith(pat)], [s.includes(pat)] and [s.replace(pat, rep)] for a
    string pattern: the first occurrence is the one replaced. *)
Fixpoint starts_with (pat s : string) : bool :=
  match pat with
  | EmptyString => true
  | String p pat' =>
      match s with
      | EmptyString => false
      | String a s' => Ascii.eqb p a && starts_with pat' s'
      end
  end.

Fixpoint skip (n : nat) (s : string) : string :=
  match n, s with
  | S n', String _ s' => skip n' s'
  | _, _ => s
  end.

Fixpoint includes (pat s : string) : bool :=
  starts_with pat s
  || match s with
     | EmptyString => false
     | String _ s' => includes pat s'
     end.

Fixpoint replace_first (pat rep s : string) : string :=
  if starts_with pat s then rep ++ skip (String.length pat) s
  else match s with
       | EmptyString => EmptyString
       | String a s' => String a (replace_first pat rep s')
       end.

(** The address of a face image (lines 105-108, 539-542) when [face_path]
    is a string: what the chunk [FaceImageUrl base (JStr face_path)]
    stands for. *)
Definition faceImageUrl (base face_path : string) : string :=
  let url := base ++ face_path in
  if includes "ai./" url then replace_first "ai./" "ai/" url else url.

(** [getPackageVersion] (lines 15-25). [package_json] is what reading and
    parsing [package.json] gives: [None] when either throws. *)
Definition getPackageVersion (package_json : option JsVal) : JsVal :=
  match package_json with
  | Some packageJson =>
      match read_prop packageJson "version" with
      | Return version => js_or version (JStr "unknown")
      | _ => JStr "unknown"
      end
  | None => JStr "unknown"
  end.

(** One entry of the [tools] array (lines 183-234): its name, the
    properties of its input schema with their types, and the required
    ones. The descriptions are left out. *)
Record Tool : Type := {
  tool_name : string;
  tool_properties : list (string * string);
  tool_required : list string
}.

Definition tools : list Tool :=
  [{| tool_name := "analyze-image";
      tool_properties := [("imageBase64", "string"); ("filename", "string");
                          ("format", "string")];
      tool_required := ["imageBase64"; "filename"] |};
   {| tool_name := "analyze";
      tool_properties := [("imageUrl", "string"); ("format", "string")];
      tool_required := ["imageUrl"] |};
   {| tool_name := "check-session-status";
      tool_properties := [("sessionUuid", "string"); ("format", "string")];
      tool_required := ["sessionUuid"] |};
   {| tool_name := "get-face-details";
      tool_properties := [("sessionUuid", "string"); ("faceIndex", "number");
                          ("format", "string")];
      tool_required := ["sessionUuid"; "faceIndex"] |}].

(** The character [c] does not occur in [s]. *)
Definition free_of (c : ascii) (s : string) : bool :=
  forallb (fun a => negb (Ascii.eqb a c)) (list_ascii_of_string s).

(** The values [getContentTypeFromFilename] can give. *)
Definition content_types : list TypeFound :=
  [Mime "image/jpeg"; Mime "image/png"; Mime "image/gif"; Mime "image/webp";
   Mime "image/bmp"; Mime "image/tiff"; Mime "application/octet-stream";
   Inherited "constructor"; Inherited "__proto__"].

(** [v] is [undefined] or [null]. *)
Definition is_nullish (v : JsVal) : bool :=
  match v with JUndefined | JNull => true | _ => false end.

(** The names of the listed tools, as the dispatcher receives them. *)
Definition tool_names : list JsVal := map (fun t => JStr (tool_name t)) tools.

(** The texts the errors of the four handlers start with (lines 270, 356,
    369, 454, 463, 494, 496, 505, 555, 557). *)
Definition handler_messages : list string :=
  ["Missing imageBase64 or filename parameter"; "Failed to analyze image: ";
   "Missing imageUrl parameter"; "Failed to analyze image URL: ";
   "Missing sessionUuid parameter"; "Session with UUID ";
   "Failed to check session status: ";
   "Missing or invalid sessionUuid or faceIndex parameter";
   "Failed to get face details: "].

(** An [McpError] made by one of the handlers. *)
Definition from_handler (e : JsError) : Prop :=
  exists code msg rest,
    e = McpError code (Lit msg :: rest) /\ In msg handler_messages.

(** The text an error message starts with. *)
Definition starts_as (msg : Text) (lit : string) : Prop :=
  exists rest, msg = Lit lit :: rest.

(** A computation that makes no request and ends, with a value or an
    error. *)
Definition settles {A} (m : M A) : Prop :=
  forall l, exists o,
    m l = (o, l) /\ (forall why, o <> Stuck why) /\ o <> OutOfFuel.

(** A service that knows no session: every request is answered 404. *)
Definition not_found_reply : Reply :=
  Rejects (Some 404%nat) [Lit "Request failed with status code 404"].

Definition unknown_session : Remote :=
  {| upload_reply := not_found_reply;
     status_reply := fun _ => not_found_reply;
     result_reply := not_found_reply;
     image_reply := not_found_reply;
     image_content_type := JUndefined |}.

Definition status_request (format : JsVal) : JsVal :=
  JObj [("sessionUuid", JStr "abc"); ("format", format)].

(** The errors of the two catch blocks that look at the HTTP status
    (lines 493-496 and 554-557). *)
Definition session_not_found (sessionUuid : JsVal) : JsError :=
  McpError NotFound [Lit "Session with UUID "; Interp sessionUuid; Lit " not found."].

Definition session_not_found_for_face (sessionUuid : JsVal) : JsError :=
  McpError NotFound [Lit "Session with UUID "; Interp sessionUuid;
                     Lit " not found when fetching face details."].

(** A service that opens the session "abc", reports 'processing' once and
    has lost the session at the second status query. *)
Definition dropping : Remote :=
  {| upload_reply := Responds (JObj [("uuid", JStr "abc")]);
     status_reply := fun k =>
       match k with
       | O => Responds (status_only "processing")
       | _ => not_found_reply
       end;
     result_reply := not_found_reply;
     image_reply := not_found_reply;
     image_content_type := JUndefined |}.

(** The embedded result the loop holds after the status replies number
    [base], ..., [base + n - 1], when it held [held] before them: each
    truthy [result] takes the place of the one held (lines 316-318). *)
Fixpoint held_result (srv : Remote) (base n : nat) (held : JsVal) : JsVal :=
  match n with
  | O => held
  | S n' =>
      match reply_fields (status_reply srv (base + n')) with
      | Some (_, res) => if truthy res then res else held_result srv base n' held
      | None => held_result srv base n' held
      end
  end.

(** A service that hands out a result while still 'processing' and then
    reports 'failed'. *)
Definition early_result : Remote :=
  {| upload_reply := Responds (JObj [("uuid", JStr "abc")]);
     status_reply := fun k =>
       match k with
       | O => Responds (JObj [("status", JStr "processing"); ("result", sample_result)])
       | _ => Responds (status_only "failed")
       end;
     result_reply := not_found_reply;
     image_reply := not_found_reply;
     image_content_type := JUndefined |}.

(** The requests an analyze call makes once the image is at hand: the
    upload, [n] rounds of sleeping and asking for the status, then [tail]. *)
Definition session_log (cfg : Config) (uuid : JsVal) (file : FormFile)
    (n : nat) (tail before : Log) : Log :=
  (tail ++ polled_log cfg uuid n (PostUpload file :: before))%list.

(** What a rendered text shows: the values behind its [${... + 1}] and
    its [${(... * 100).toFixed(2)}] pieces, in the order of the text. *)
Definition plus_ones (t : Text) : list JsVal :=
  flat_map (fun c => match c with PlusOne v => [v] | _ => [] end) t.

Definition percents (t : Text) : list JsVal :=
  flat_map (fun c => match c with Percent v => [v] | _ => [] end) t.

(** A face the embedding can score: an object whose [ansamble] is not a
    string, an array or an object. *)
Definition scorable (face : JsVal) : bool :=
  match face with
  | JObj props =>
      match getVerdict (lookup "ansamble" props) with
      | Return _ => true
      | _ => false
      end
  | _ => false
  end.

(** The values of [is_real_model_1], ..., [is_real_model_10] that are there. *)
Definition model_scores (props : list (string * JsVal)) (numbers : list string) : list JsVal :=
  filter (fun v => negb (is_undefined v))
    (map (fun i => lookup ("is_real_model_" ++ i) props) numbers).

(** A face the renderer can write: one it can score, whose model scores
    and image path convert to text. *)
Definition writable (face : JsVal) : bool :=
  scorable face
  && match face with
     | JObj props => face_converts props
     | _ => false
     end.

(** The fields of a result that the renderer writes outside the faces
    convert to text. *)
Definition result_converts (props : list (string * JsVal)) : bool :=
  printable (lookup "uuid" props) && printable (lookup "sha256" props)
  && printable (lookup "status" props) && printable (lookup "message" props)
  && printable (lookup "total_faces" props).

(** A stored result whose only face is [null]. *)
Definition null_face_store : Remote :=
  serving_result sample_store (JObj [("faces", JArr [JNull])]).

(** * Properties *)

Open Scope list_scope.
Open Scope nat_scope.

(** ** Numbers *)

Lemma Qltb_lt (x y : Q) : Qltb x y = true <-> (x < y)%Q.
Proof. unfold Qltb, Qlt. apply Z.ltb_lt. Qed.





(** ** The monad *)

Lemma bind_return {A B} (m : M A) (k : A -> M B) (a : A) (l l' : Log) :
  m l = (Return a, l') -> bind m k l = k a l'.
Proof. unfold bind. intros ->. reflexivity. Qed.

Lemma bind_throw {A B} (m : M A) (k : A -> M B) (e : JsError) (l l' : Log) :
  m l = (Throw e, l') -> bind m k l = (Throw e, l').
Proof. unfold bind. intros ->. reflexivity. Qed.

Lemma try_catch_return {A} (m : M A) (h : JsError -> M A) (a : A) (l l' : Log) :
  m l = (Return a, l') -> try_catch m h l = (Return a, l').
Proof. unfold try_catch. intros ->. reflexivity. Qed.

Lemma try_catch_throw {A} (m : M A) (h : JsError -> M A) (e : JsError) (l l' : Log) :
  m l = (Throw e, l') -> try_catch m h l = h e l'.
Proof. unfold try_catch. intros ->. reflexivity. Qed.

Lemma interp_printable (v : JsVal) (l : Log) :
  printable v = true -> interp v l = (Return (Interp v), l).
Proof. unfold interp. intros ->. reflexivity. Qed.

Lemma percent_printable (v : JsVal) (l : Log) :
  printable v = true -> percent v l = (Return (Percent v), l).
Proof. unfold percent. intros ->. reflexivity. Qed.

Lemma percent_rest_printable (v : JsVal) (l : Log) :
  printable v = true -> percent_rest v l = (Return (PercentRest v), l).
Proof. unfold percent_rest. intros ->. reflexivity. Qed.

Lemma face_image_url_printable (base : string) (v : JsVal) (l : Log) :
  printable v = true -> face_image_url base v l = (Return (FaceImageUrl base v), l).
Proof. unfold face_image_url. intros ->. reflexivity. Qed.

Lemma logInfo_printable (v : JsVal) (l : Log) :
  printable v = true -> logInfo v l = (Return tt, l).
Proof. unfold logInfo, interp, bind. intros ->. reflexivity. Qed.

Lemma logInfo_unprintable (v : JsVal) (l : Log) :
  printable v = false -> logInfo v l = (Throw cannot_convert, l).
Proof. unfold logInfo, interp, bind. intros ->. reflexivity. Qed.

Lemma js_or_printable (a b : JsVal) :
  printable a = true -> printable b = true -> printable (js_or a b) = true.
Proof. unfold js_or. destruct (truthy a); auto. Qed.

(** A value [getVerdict] has scored can be converted. *)
Lemma getVerdict_printable (a : JsVal) (v : string) :
  getVerdict a = Return v -> printable a = true.
Proof. destruct a; try reflexivity; discriminate. Qed.

(** Reading a property of an object never fails. *)
Lemma get_prop_obj (props : list (string * JsVal)) (k : string) (l : Log) :
  get_prop (JObj props) k l = (Return (lookup k props), l).
Proof. reflexivity. Qed.

Lemma read_prop_fuel (v : JsVal) (k : string) : read_prop v k <> OutOfFuel.
Proof.
  destruct v; simpl; try discriminate;
    destruct (String.eqb k "length"); discriminate.
Qed.

(** ** C3: the verdict *)







(** ** The poll loop *)

Section PollLoop.

Variable cfg : Config.
Variable srv : Remote.
Variable uuid : JsVal.

(** One turn of the loop, spelled out. *)
Lemma poll_loop_step (fuel : nat) (st : PollState) (l : Log) :
  poll_loop cfg srv (S fuel) uuid st l
  = if keeps_polling (status st) then
      if (maxRetries cfg <=? attempts st)%nat then (Throw max_retries_error, l)
      else
        match status_reply srv (status_queries l) with
        | Rejects c m => (Throw (AxiosError c m), after_query cfg uuid l)
        | Responds data =>
            match read_prop data "status" with
            | Return s =>
                if printable s then
                  match read_prop data "result" with
                  | Return res =>
                      poll_loop cfg srv fuel uuid (next_state st s res) (after_query cfg uuid l)
                  | Throw e => (Throw e, after_query cfg uuid l)
                  | Stuck w => (Stuck w, after_query cfg uuid l)
                  | OutOfFuel => (OutOfFuel, after_query cfg uuid l)
                  end
                else (Throw cannot_convert, after_query cfg uuid l)
            | Throw e => (Throw e, after_query cfg uuid l)
            | Stuck w => (Stuck w, after_query cfg uuid l)
            | OutOfFuel => (OutOfFuel, after_query cfg uuid l)
            end
        end
    else (Return st, l).
Proof.
  simpl. destruct (keeps_polling (status st)); [| reflexivity].
  destruct (maxRetries cfg <=? attempts st)%nat; [reflexivity |].
  cbv beta iota delta [bind sleep emit axios_get_status answer get_prop lift after_query].
  change (status_queries (Sleep (retryInterval cfg) :: l)) with (status_queries l).
  destruct (status_reply srv (status_queries l)) as [data | c m]; [| reflexivity].
  cbv beta iota delta [ret].
  destruct (read_prop data "status") as [s | | |]; try reflexivity.
  unfold logInfo, interp, bind.
  destruct (printable s); reflexivity.
Qed.

Lemma keeps_polling_printable (s : JsVal) :
  keeps_polling s = true -> printable s = true.
Proof. destruct s; try reflexivity; discriminate. Qed.

Lemma poll_loop_next (fuel : nat) (st : PollState) (l : Log) (s res : JsVal) :
  keeps_polling (status st) = true ->
  attempts st < maxRetries cfg ->
  reply_fields (status_reply srv (status_queries l)) = Some (s, res) ->
  printable s = true ->
  poll_loop cfg srv (S fuel) uuid st l
  = poll_loop cfg srv fuel uuid (next_state st s res) (after_query cfg uuid l).
Proof.
  intros Hk Ha Hr Hs. rewrite poll_loop_step, Hk.
  apply Nat.leb_gt in Ha. rewrite Ha.
  unfold reply_fields in Hr.
  destruct (status_reply srv (status_queries l)) as [data | c m]; [| discriminate].
  destruct (read_prop data "status") as [s' | | |]; try discriminate.
  destruct (read_prop data "result") as [res' | | |]; try discriminate.
  injection Hr as -> ->. rewrite Hs. reflexivity.
Qed.

Lemma poll_loop_exit (fuel : nat) (st : PollState) (l : Log) :
  keeps_polling (status st) = false ->
  poll_loop cfg srv fuel uuid st l = (Return st, l).
Proof. intros H. destruct fuel; simpl; rewrite H; reflexivity. Qed.

(** The loop only adds sleeps and status queries to the log. *)
Lemma poll_loop_log (fuel : nat) :
  forall st l, exists o extra,
    poll_loop cfg srv fuel uuid st l = (o, extra ++ l)%list /\
    polling_events extra = true.
Proof.
  induction fuel as [| fuel IH]; intros st l.
  - simpl. destruct (keeps_polling (status st));
      eexists; exists []; split; reflexivity.
  - rewrite poll_loop_step.
    destruct (keeps_polling (status st));
      [| eexists; exists []; split; reflexivity].
    destruct (maxRetries cfg <=? attempts st)%nat;
      [eexists; exists []; split; reflexivity |].
    assert (forall o : Outcome PollState, exists o' extra,
               (o, after_query cfg uuid l) = (o', extra ++ l)%list /\ polling_events extra = true)
      as Stop.
    { intros o. exists o, [GetStatus uuid; Sleep (retryInterval cfg)].
      split; reflexivity. }
    destruct (status_reply srv (status_queries l)) as [data | c m]; [| apply Stop].
    destruct (read_prop data "status") as [s | | |]; try apply Stop.
    destruct (printable s); [| apply Stop].
    destruct (read_prop data "result") as [res | | |]; try apply Stop.
    destruct (IH (next_state st s res) (after_query cfg uuid l)) as (o & extra & E & P).
    exists o, (extra ++ [GetStatus uuid; Sleep (retryInterval cfg)])%list.
    split.
    + rewrite E. unfold after_query. rewrite <- app_assoc. reflexivity.
    + unfold polling_events in *. rewrite forallb_app, P. reflexivity.
Qed.

Lemma polling_events_counts (extra l : Log) :
  polling_events extra = true ->
  result_fetches (extra ++ l) = result_fetches l.
Proof.
  unfold result_fetches, polling_events. intros H.
  induction extra as [| e extra IH]; [reflexivity |].
  simpl in H. apply andb_true_iff in H as [He H].
  destruct e; try discriminate; simpl; auto.
Qed.

(** With fuel beyond the attempts that remain, the fuel never runs out. *)
Lemma poll_loop_fuel (fuel : nat) :
  forall st l, maxRetries cfg - attempts st < fuel ->
    fst (poll_loop cfg srv fuel uuid st l) <> OutOfFuel.
Proof.
  induction fuel as [| fuel IH]; intros st l Hf; [lia |].
  rewrite poll_loop_step.
  destruct (keeps_polling (status st)); [| discriminate].
  destruct (maxRetries cfg <=? attempts st)%nat eqn:E; [discriminate |].
  apply Nat.leb_gt in E.
  destruct (status_reply srv (status_queries l)) as [data | c m]; [| discriminate].
  destruct (read_prop data "status") as [s | | |] eqn:Es; try discriminate;
    [| exfalso; exact (read_prop_fuel _ _ Es)].
  destruct (printable s); [| discriminate].
  destruct (read_prop data "result") as [res | | |] eqn:Er; try discriminate;
    [| exfalso; exact (read_prop_fuel _ _ Er)].
  apply IH. simpl. lia.
Qed.

Lemma polled_log_shift (n : nat) (l : Log) :
  polled_log cfg uuid n (after_query cfg uuid l) = after_query cfg uuid (polled_log cfg uuid n l).
Proof.
  induction n as [| n IH]; simpl; [reflexivity |].
  rewrite IH. reflexivity.
Qed.

Lemma status_queries_polled (n : nat) (l : Log) :
  status_queries (polled_log cfg uuid n l) = status_queries l + n.
Proof.
  induction n as [| n IH]; simpl.
  - lia.
  - unfold status_queries in *. simpl. rewrite IH. lia.
Qed.

Lemma result_fetches_polled (n : nat) (l : Log) :
  result_fetches (polled_log cfg uuid n l) = result_fetches l.
Proof.
  induction n as [| n IH]; simpl.
  - reflexivity.
  - unfold result_fetches in *. simpl. exact IH.
Qed.

(** [n] replies in a row that keep the loop going. *)
Lemma poll_loop_polls (n : nat) :
  forall fuel st l,
    keeps_polling (status st) = true ->
    attempts st + n <= maxRetries cfg ->
    (forall i, i < n -> polls_at srv (status_queries l + i) = true) ->
    exists st',
      poll_loop cfg srv (n + fuel) uuid st l
      = poll_loop cfg srv fuel uuid st' (polled_log cfg uuid n l) /\
      keeps_polling (status st') = true /\
      attempts st' = attempts st + n.
Proof.
  induction n as [| n IH]; intros fuel st l Hk Ha Hp.
  - exists st. simpl. repeat split; auto.
  - change (S n + fuel) with (S (n + fuel)). rewrite poll_loop_step, Hk.
    destruct (maxRetries cfg <=? attempts st)%nat eqn:E;
      [apply Nat.leb_le in E; lia |].
    pose proof (Hp 0 ltac:(lia)) as H0. rewrite Nat.add_0_r in H0.
    unfold polls_at, reply_fields in H0.
    destruct (status_reply srv (status_queries l)) as [data | c m]; [| discriminate].
    destruct (read_prop data "status") as [s | | |]; try discriminate.
    destruct (read_prop data "result") as [res | | |]; try discriminate.
    rewrite (keeps_polling_printable s H0).
    destruct (IH fuel (next_state st s res) (after_query cfg uuid l)) as (st' & E' & K' & A').
    + exact H0.
    + simpl. lia.
    + intros i Hi. specialize (Hp (S i) ltac:(lia)).
      replace (status_queries (after_query cfg uuid l) + i) with (status_queries l + S i);
        [exact Hp |].
      unfold after_query, status_queries. simpl. lia.
    + exists st'. split; [| split; [exact K' |]].
      * rewrite E', polled_log_shift. reflexivity.
      * rewrite A'. simpl. lia.
Qed.

End PollLoop.

(** ** C1: when the loop goes on *)

Lemma keeps_polling_iff (v : JsVal) :
  keeps_polling v = true
  <-> v = JStr "in progress" \/ v = JStr "processing" \/ v = JStr "pending".
Proof.
  unfold keeps_polling, is_str. split.
  - destruct v; try discriminate.
    rewrite !orb_true_iff, !String.eqb_eq.
    intros [[-> | ->] | ->]; auto.
  - intros [-> | [-> | ->]]; reflexivity.
Qed.

Lemma poll_loop_queries_first
    (cfg : Config) (srv : Remote) (uuid : JsVal) (fuel : nat) (st : PollState) (l : Log) :
  keeps_polling (status st) = true ->
  attempts st < maxRetries cfg ->
  exists o extra,
    poll_loop cfg srv (S fuel) uuid st l
    = (o, extra ++ GetStatus uuid :: Sleep (retryInterval cfg) :: l).
Proof.
  intros Hk Ha. rewrite poll_loop_step, Hk.
  destruct (maxRetries cfg <=? attempts st) eqn:E; [apply Nat.leb_le in E; lia |].
  assert (forall o : Outcome PollState, exists o' extra,
             (o, GetStatus uuid :: Sleep (retryInterval cfg) :: l)
             = (o', extra ++ GetStatus uuid :: Sleep (retryInterval cfg) :: l))
    as Stop by (intros o; exists o, []; reflexivity).
  destruct (status_reply srv (status_queries l)) as [data | c m]; [| apply Stop].
  destruct (read_prop data "status") as [s | | |]; try apply Stop.
  destruct (printable s); [| apply Stop].
  destruct (read_prop data "result") as [res | | |]; try apply Stop.
  destruct (poll_loop_log cfg srv uuid fuel (next_state st s res)
              (GetStatus uuid :: Sleep (retryInterval cfg) :: l)) as (o & extra & E' & _).
  exists o, extra. exact E'.
Qed.

(** C1 (as amended). The loop goes on exactly while the status is one of
    the strings 'in progress', 'processing', 'pending'. With such a status
    and attempts left, it sleeps for the retry interval and then queries
    the status again; with such a status and no attempt left it throws;
    with any other status, recognised or not, it ends at once, without
    sleeping or querying. *)
Theorem C1_polling_condition
    (cfg : Config) (srv : Remote) (uuid : JsVal) (fuel : nat) (st : PollState) (l : Log) :
  (keeps_polling (status st) = true
   <-> status st = JStr "in progress" \/ status st = JStr "processing"
       \/ status st = JStr "pending") /\
  (if keeps_polling (status st)
   then if attempts st <? maxRetries cfg
        then exists o extra,
               poll_loop cfg srv (S fuel) uuid st l
               = (o, extra ++ GetStatus uuid :: Sleep (retryInterval cfg) :: l)
        else poll_loop cfg srv (S fuel) uuid st l = (Throw max_retries_error, l)
   else poll_loop cfg srv fuel uuid st l = (Return st, l)).
Proof.
  split; [apply keeps_polling_iff |].
  destruct (keeps_polling (status st)) eqn:Hk.
  - destruct (attempts st <? maxRetries cfg) eqn:Ha.
    + apply Nat.ltb_lt in Ha. apply poll_loop_queries_first; assumption.
    + apply Nat.ltb_ge in Ha. rewrite poll_loop_step, Hk.
      apply Nat.leb_le in Ha. rewrite Ha. reflexivity.
  - apply poll_loop_exit. exact Hk.
Qed.

(** C1, the claim as stated fails: the status 'in_progress' and an
    unrecognised status such as 'queued' do not keep the loop going. Told
    'in_progress' (or 'queued') by the first status reply, the analyze
    handlers make no second query and fail. *)
Lemma C1_counterexample :
  keeps_polling (JStr "in_progress") = false /\
  keeps_polling (JStr "queued") = false /\
  handleAnalyzeImage PROOFLY_CONFIG (reporting "in_progress")
    (image_request "AAAA" (JStr "json")) []
  = (Throw (McpError ServerError
              [Lit "Failed to analyze image: ";
               Lit "Analysis did not complete successfully. Last status: ";
               Interp (JStr "in_progress")]),
     [GetStatus (JStr "abc"); Sleep 2000; PostUpload sample_file]) /\
  handleAnalyzeImageUrl PROOFLY_CONFIG (reporting "queued") (url_request (JStr "json")) []
  = (Throw (McpError ServerError
              [Lit "Failed to analyze image URL: ";
               Lit "Analysis did not complete successfully. Last status: ";
               Interp (JStr "queued")]),
     [GetStatus (JStr "abc"); Sleep 2000; PostUpload sample_url_file; GetImage sample_url]).
Proof. repeat split; vm_compute; reflexivity. Qed.

(** ** From a tool call to the poll loop *)

Lemma truthy_str (s : string) : s <> "" -> truthy (JStr s) = true.
Proof.
  intros H. simpl. destruct (String.eqb s "") eqn:E; [| reflexivity].
  apply String.eqb_eq in E. contradiction.
Qed.

Lemma get_prop_default_obj (props : list (string * JsVal)) (l : Log) :
  get_prop_default (JObj props) "format" (JStr "text") l = (Return (format_of props), l).
Proof. reflexivity. Qed.

Section Entry.

Variable cfg : Config.
Variable srv : Remote.

Lemma upload_and_analyze_runs (file : FormFile) (format uuid : JsVal) (l : Log) :
  session_opened srv uuid ->
  printable uuid = true ->
  upload_and_analyze cfg srv file format l
  = bind (poll_and_settle cfg srv uuid) (render_result cfg format) (PostUpload file :: l).
Proof.
  intros (data & Hu & Hp & Ht) Hn. unfold upload_and_analyze.
  erewrite bind_return
    by (unfold axios_post_upload, bind, emit, answer; rewrite Hu; reflexivity).
  erewrite bind_return by (unfold get_prop, lift; rewrite Hp; reflexivity).
  rewrite Ht. change (negb true) with false. cbv iota.
  erewrite bind_return by (apply logInfo_printable; exact Hn).
  reflexivity.
Qed.

(** An identifier that cannot be converted stops the call at line 300
    (398), when it is logged: nothing is asked about the session. *)
Lemma upload_and_analyze_unnamed (file : FormFile) (format uuid : JsVal) (l : Log) :
  session_opened srv uuid ->
  printable uuid = false ->
  upload_and_analyze cfg srv file format l = (Throw cannot_convert, PostUpload file :: l).
Proof.
  intros (data & Hu & Hp & Ht) Hn. unfold upload_and_analyze.
  erewrite bind_return
    by (unfold axios_post_upload, bind, emit, answer; rewrite Hu; reflexivity).
  erewrite bind_return by (unfold get_prop, lift; rewrite Hp; reflexivity).
  rewrite Ht. change (negb true) with false. cbv iota.
  apply bind_throw. apply logInfo_unprintable. exact Hn.
Qed.

Lemma handleAnalyzeImage_runs (params : JsVal) (file : FormFile) (format : JsVal) (l : Log) :
  image_call params file format ->
  handleAnalyzeImage cfg srv params l
  = try_catch (upload_and_analyze cfg srv file format)
      (rethrow_as_server_error "Failed to analyze image: ") l.
Proof.
  intros (props & s & b & f & -> & Hs & Hs0 & Hb & Hf & Hf0 & -> & ->).
  unfold handleAnalyzeImage.
  erewrite bind_return by apply get_prop_obj.
  erewrite bind_return by apply get_prop_obj.
  erewrite bind_return by apply get_prop_default_obj.
  rewrite Hs, Hf, !truthy_str by assumption.
  change (negb true || negb true) with false.
  unfold try_catch. cbv beta iota.
  erewrite bind_return by reflexivity.
  rewrite Hb.
  erewrite bind_return by reflexivity.
  reflexivity.
Qed.

Lemma handleAnalyzeImageUrl_runs
    (params : JsVal) (url : string) (file : FormFile) (format : JsVal) (l : Log) :
  url_call srv params url file format ->
  handleAnalyzeImageUrl cfg srv params l
  = try_catch (upload_and_analyze cfg srv file format)
      (rethrow_as_server_error "Failed to analyze image URL: ") (GetImage url :: l).
Proof.
  intros (props & body & -> & Hu & Hu0 & Hb & -> & ->).
  unfold handleAnalyzeImageUrl.
  erewrite bind_return by apply get_prop_obj.
  erewrite bind_return by apply get_prop_default_obj.
  rewrite Hu, truthy_str by assumption.
  change (negb true) with false.
  unfold try_catch. cbv beta iota.
  erewrite bind_return
    by (unfold axios_get_image, bind, emit, answer; rewrite Hb; reflexivity).
  reflexivity.
Qed.

(** Once the loop has ended in the state [st], what is left of either
    analyze handler is [settle], the rendering, and the catch block. *)
Lemma analyze_after_poll
    (prefix : string) (file : FormFile) (format uuid : JsVal) (st : PollState) (l l' : Log) :
  session_opened srv uuid ->
  printable uuid = true ->
  poll_loop cfg srv (S (maxRetries cfg)) uuid poll_start (PostUpload file :: l)
  = (Return st, l') ->
  try_catch (upload_and_analyze cfg srv file format) (rethrow_as_server_error prefix) l
  = try_catch (bind (settle srv uuid st) (render_result cfg format))
      (rethrow_as_server_error prefix) l'.
Proof.
  intros Ho Hn Hp. unfold try_catch.
  rewrite (upload_and_analyze_runs _ _ _ _ Ho Hn).
  unfold poll_and_settle.
  unfold bind at 1 2. rewrite Hp. reflexivity.
Qed.

End Entry.

(** ** After the loop *)

Lemma is_str_eq (v : JsVal) (lit : string) : is_str v lit = true -> v = JStr lit.
Proof.
  destruct v; simpl; try discriminate.
  intros H. apply String.eqb_eq in H. congruence.
Qed.

Lemma no_faces_not_done (s : JsVal) : is_no_faces s = true -> is_done s = false.
Proof.
  unfold is_no_faces. intros H. apply orb_true_iff in H.
  destruct H as [H | H]; apply is_str_eq in H; subst; reflexivity.
Qed.

Section Settle.

Variable srv : Remote.
Variable uuid : JsVal.

Lemma settle_incomplete (st : PollState) (l : Log) :
  printable (status st) = true ->
  is_done (status st) = false ->
  is_no_faces (status st) = false ->
  truthy (analysisResult st) = false ->
  settle srv uuid st l = (Throw (incomplete_error (status st)), l).
Proof.
  unfold is_done, is_no_faces, settle. intros Hp Hd Hn Ht.
  apply orb_false_iff in Hd as [Hd Hc].
  rewrite Hd, Hc, Ht, Hn. unfold interp. rewrite Hp. reflexivity.
Qed.

Lemma settle_no_faces (st : PollState) (l : Log) :
  is_no_faces (status st) = true ->
  truthy (analysisResult st) = false ->
  settle srv uuid st l = (Return (no_faces_result uuid), l).
Proof.
  intros Hn Ht. pose proof (no_faces_not_done _ Hn) as Hd.
  unfold is_done, is_no_faces, settle in *.
  apply orb_false_iff in Hd as [Hd Hc].
  rewrite Hd, Hc, Ht, Hn. reflexivity.
Qed.

Lemma settle_fetch (st : PollState) (l : Log) :
  is_done (status st) = true ->
  truthy (analysisResult st) = false ->
  settle srv uuid st l = axios_get_result srv uuid l.
Proof.
  unfold is_done, settle. intros Hd Ht.
  assert (negb (is_str (status st) "done") && negb (is_str (status st) "completed")
          = false) as ->.
  { apply orb_true_iff in Hd as [-> | ->]; [reflexivity | apply andb_false_r]. }
  simpl andb. cbv iota.
  erewrite bind_return by reflexivity.
  rewrite Ht. reflexivity.
Qed.

Lemma settle_captured (st : PollState) (l : Log) :
  truthy (analysisResult st) = true ->
  settle srv uuid st l = (Return (analysisResult st), l).
Proof.
  unfold settle. intros Ht. rewrite Ht, !andb_false_r.
  erewrite bind_return by reflexivity.
  rewrite Ht. reflexivity.
Qed.

End Settle.

Lemma render_no_faces (cfg : Config) (format uuid : JsVal) (l : Log) :
  printable uuid = true ->
  render_result cfg format (no_faces_result uuid) l
  = (Return (if is_str format "json" then [Stringify (no_faces_result uuid)]
             else no_faces_text uuid), l).
Proof.
  intros Hn. unfold render_result. destruct (is_str format "json"); [reflexivity |].
  unfold formatResultsToHumanReadable.
  change (negb (truthy (no_faces_result uuid))) with false. cbv iota.
  erewrite bind_return by reflexivity.
  erewrite bind_return
    by (apply interp_printable; apply js_or_printable; [exact Hn | reflexivity]).
  reflexivity.
Qed.

Section AfterPoll.

Variable cfg : Config.
Variable srv : Remote.

Lemma image_handler_after_poll
    (params : JsVal) (file : FormFile) (format uuid : JsVal) (st : PollState) (l l' : Log) :
  session_opened srv uuid ->
  printable uuid = true ->
  image_call params file format ->
  poll_loop cfg srv (S (maxRetries cfg)) uuid poll_start (PostUpload file :: l)
  = (Return st, l') ->
  handleAnalyzeImage cfg srv params l
  = try_catch (bind (settle srv uuid st) (render_result cfg format))
      (rethrow_as_server_error "Failed to analyze image: ") l'.
Proof.
  intros Ho Hn Hc Hp. rewrite (handleAnalyzeImage_runs _ _ _ _ _ _ Hc).
  eapply analyze_after_poll; eassumption.
Qed.

Lemma url_handler_after_poll
    (params : JsVal) (url : string) (file : FormFile) (format uuid : JsVal)
    (st : PollState) (l l' : Log) :
  session_opened srv uuid ->
  printable uuid = true ->
  url_call srv params url file format ->
  poll_loop cfg srv (S (maxRetries cfg)) uuid poll_start (PostUpload file :: GetImage url :: l)
  = (Return st, l') ->
  handleAnalyzeImageUrl cfg srv params l
  = try_catch (bind (settle srv uuid st) (render_result cfg format))
      (rethrow_as_server_error "Failed to analyze image URL: ") l'.
Proof.
  intros Ho Hn Hc Hp. rewrite (handleAnalyzeImageUrl_runs _ _ _ _ _ _ _ Hc).
  eapply analyze_after_poll; eassumption.
Qed.

End AfterPoll.

(** ** Rendering makes no network call *)

Lemma silent_bind {A B} (m : M A) (k : A -> M B) :
  silent m -> (forall a, silent (k a)) -> silent (bind m k).
Proof.
  intros Hm Hk l. unfold bind. specialize (Hm l).
  destruct (m l) as [[a | e | w |] l1]; simpl in Hm; subst; try reflexivity.
  apply Hk.
Qed.

Lemma silent_ret {A} (a : A) : silent (ret a).
Proof. intros l. reflexivity. Qed.

Lemma silent_throw {A} (e : JsError) : silent (@throw A e).
Proof. intros l. reflexivity. Qed.

Lemma silent_lift {A} (o : Outcome A) : silent (lift o).
Proof. intros l. reflexivity. Qed.

Lemma silent_get_prop (v : JsVal) (k : string) : silent (get_prop v k).
Proof. apply silent_lift. Qed.

Lemma silent_number_of (v : JsVal) : silent (number_of v).
Proof. unfold number_of. destruct (to_number v); intros l; reflexivity. Qed.

Lemma silent_try_catch {A} (m : M A) (h : JsError -> M A) :
  silent m -> (forall e, silent (h e)) -> silent (try_catch m h).
Proof.
  intros Hm Hh l. unfold try_catch. specialize (Hm l).
  destruct (m l) as [[a | e | w |] l1]; simpl in Hm; subst; try reflexivity.
  apply Hh.
Qed.

Lemma silent_interp (v : JsVal) : silent (interp v).
Proof. unfold interp. destruct (printable v); intros l; reflexivity. Qed.

Lemma silent_percent (v : JsVal) : silent (percent v).
Proof. unfold percent. destruct (printable v); intros l; reflexivity. Qed.

Lemma silent_percent_rest (v : JsVal) : silent (percent_rest v).
Proof. unfold percent_rest. destruct (printable v); intros l; reflexivity. Qed.

Lemma silent_face_image_url (base : string) (v : JsVal) : silent (face_image_url base v).
Proof. unfold face_image_url. destruct (printable v); intros l; reflexivity. Qed.

Lemma silent_logInfo (v : JsVal) : silent (logInfo v).
Proof. unfold logInfo, interp, bind. destruct (printable v); intros l; reflexivity. Qed.

Create HintDb silent.
#[local] Hint Resolve silent_ret silent_throw silent_lift silent_get_prop
  silent_number_of silent_interp silent_percent silent_percent_rest
  silent_face_image_url silent_logInfo : silent.

Ltac silent_steps :=
  repeat first
    [ apply silent_bind; [| intros ?]
    | solve [auto with silent]
    | match goal with
      | |- silent (if ?c then _ else _) => destruct c
      end ].

Lemma silent_model_lines (face : JsVal) (numbers : list string) :
  silent (model_lines face numbers).
Proof.
  induction numbers as [| i rest IH]; simpl; [auto with silent |].
  silent_steps.
Qed.

Lemma silent_face_lines (cfg : Config) (face : JsVal) : silent (face_lines cfg face).
Proof.
  unfold face_lines. silent_steps; try apply silent_model_lines.
Qed.

Lemma silent_face_blocks (cfg : Config) (faces : list JsVal) :
  forall index, silent (face_blocks cfg faces index).
Proof.
  induction faces as [| face rest IH]; intros index; simpl; [auto with silent |].
  silent_steps; auto using silent_face_lines.
Qed.

Lemma silent_formatResultsToHumanReadable (cfg : Config) (result : JsVal) :
  silent (formatResultsToHumanReadable cfg result).
Proof.
  unfold formatResultsToHumanReadable. silent_steps.
  all: try match goal with |- silent (match ?f with _ => _ end) => destruct f end.
  all: auto using silent_face_blocks with silent.
Qed.

Lemma silent_render_result (cfg : Config) (format r : JsVal) :
  silent (render_result cfg format r).
Proof.
  unfold render_result. destruct (is_str format "json"); [auto with silent |].
  apply silent_formatResultsToHumanReadable.
Qed.

Lemma silent_rendering (cfg : Config) (prefix : string) (format r : JsVal) :
  silent (try_catch (render_result cfg format r) (rethrow_as_server_error prefix)).
Proof.
  apply silent_try_catch; [apply silent_render_result |].
  intros e. apply silent_throw.
Qed.

(** ** C4: a status that is neither done nor no-faces *)

(** The status the loop ends with has been converted by line 315, or is
    the one it started with. *)
Lemma poll_loop_status_printable
    (cfg : Config) (srv : Remote) (uuid : JsVal) (fuel : nat) :
  forall st l st' l',
    printable (status st) = true ->
    poll_loop cfg srv fuel uuid st l = (Return st', l') ->
    printable (status st') = true.
Proof.
  induction fuel as [| fuel IH]; intros st l st' l' Hp H.
  - simpl in H. destruct (keeps_polling (status st)); [discriminate |].
    injection H as <- _. exact Hp.
  - rewrite poll_loop_step in H.
    destruct (keeps_polling (status st)); [| injection H as <- _; exact Hp].
    destruct (maxRetries cfg <=? attempts st); [discriminate |].
    destruct (status_reply srv (status_queries l)) as [data | c m]; [| discriminate].
    destruct (read_prop data "status") as [s | | |]; try discriminate.
    destruct (printable s) eqn:Hs; [| discriminate].
    destruct (read_prop data "result") as [res | | |]; try discriminate.
    exact (IH (next_state st s res) _ _ _ Hs H).
Qed.

(** C4. When the loop has ended with a status that is not 'done', not
    'completed' and not a no-faces spelling, and no embedded result was
    captured, [settle] throws the error that carries this last status, and
    so both analyze handlers fail, with that message behind their prefix,
    instead of returning a result. The session identifier and the status
    are values that convert to text, as the strings of the service do: the
    call would have ended when it logged them otherwise, and the loop has
    not ended with a status that does not. *)
Theorem C4_incomplete_analysis
    (cfg : Config) (srv : Remote) (uuid : JsVal) (st : PollState) :
  session_opened srv uuid ->
  printable uuid = true ->
  is_done (status st) = false ->
  is_no_faces (status st) = false ->
  truthy (analysisResult st) = false ->
  (printable (status st) = true ->
   forall l, settle srv uuid st l = (Throw (incomplete_error (status st)), l)) /\
  (forall params file format l l',
      image_call params file format ->
      poll_loop cfg srv (S (maxRetries cfg)) uuid poll_start (PostUpload file :: l)
      = (Return st, l') ->
      handleAnalyzeImage cfg srv params l
      = (Throw (McpError ServerError
                  [Lit "Failed to analyze image: ";
                   Lit "Analysis did not complete successfully. Last status: ";
                   Interp (status st)]), l')) /\
  (forall params url file format l l',
      url_call srv params url file format ->
      poll_loop cfg srv (S (maxRetries cfg)) uuid poll_start
        (PostUpload file :: GetImage url :: l)
      = (Return st, l') ->
      handleAnalyzeImageUrl cfg srv params l
      = (Throw (McpError ServerError
                  [Lit "Failed to analyze image URL: ";
                   Lit "Analysis did not complete successfully. Last status: ";
                   Interp (status st)]), l')).
Proof.
  intros Ho Hu Hd Hn Ht.
  pose proof (fun Hp l => settle_incomplete srv uuid st l Hp Hd Hn Ht) as Hs.
  split; [exact Hs |]. split.
  - intros params file format l l' Hc Hp.
    pose proof (poll_loop_status_printable _ _ _ _ poll_start _ _ _ eq_refl Hp) as Hst.
    rewrite (image_handler_after_poll cfg srv _ _ _ _ _ _ _ Ho Hu Hc Hp).
    erewrite try_catch_throw by (erewrite bind_throw by (apply Hs; exact Hst); reflexivity).
    reflexivity.
  - intros params url file format l l' Hc Hp.
    pose proof (poll_loop_status_printable _ _ _ _ poll_start _ _ _ eq_refl Hp) as Hst.
    rewrite (url_handler_after_poll cfg srv _ _ _ _ _ _ _ _ Ho Hu Hc Hp).
    erewrite try_catch_throw by (erewrite bind_throw by (apply Hs; exact Hst); reflexivity).
    reflexivity.
Qed.

Lemma sample_session (s : string) : session_opened (reporting s) (JStr "abc").
Proof. eexists. repeat split. Defined.

Lemma sample_image_call (format : JsVal) :
  image_call (image_request "AAAA" format) sample_file
    (match format with JUndefined => JStr "text" | _ => format end).
Proof.
  exists [("imageBase64", JStr "AAAA"); ("filename", JStr "a.png"); ("format", format)],
    "AAAA"%string, "AAAA"%string, "a.png"%string.
  repeat split; discriminate.
Defined.

Lemma sample_url_call (s : string) (format : JsVal) :
  url_call (reporting s) (url_request format) sample_url sample_url_file
    (match format with JUndefined => JStr "text" | _ => format end).
Proof.
  exists [("imageUrl", JStr sample_url); ("format", format)], (JStr "bytes").
  repeat split; discriminate.
Defined.

Lemma C4_witness :
  handleAnalyzeImage PROOFLY_CONFIG (reporting "failed") (image_request "AAAA" (JStr "json")) []
  = (Throw (McpError ServerError
              [Lit "Failed to analyze image: ";
               Lit "Analysis did not complete successfully. Last status: ";
               Interp (JStr "failed")]),
     one_poll [PostUpload sample_file]) /\
  handleAnalyzeImageUrl PROOFLY_CONFIG (reporting "failed") (url_request (JStr "text")) []
  = (Throw (McpError ServerError
              [Lit "Failed to analyze image URL: ";
               Lit "Analysis did not complete successfully. Last status: ";
               Interp (JStr "failed")]),
     one_poll [PostUpload sample_url_file; GetImage sample_url]).
Proof.
  destruct (C4_incomplete_analysis PROOFLY_CONFIG (reporting "failed") (JStr "abc")
              (stopped_at "failed") (sample_session "failed")
              eq_refl eq_refl eq_refl eq_refl) as (_ & Himg & Hurl).
  split.
  - apply (Himg (image_request "AAAA" (JStr "json")) sample_file (JStr "json") []).
    + apply (sample_image_call (JStr "json")).
    + vm_compute. reflexivity.
  - apply (Hurl (url_request (JStr "text")) sample_url sample_url_file (JStr "text") []).
    + apply (sample_url_call _ (JStr "text")).
    + vm_compute. reflexivity.
Defined.

(** ** C5: no faces *)

(** C5. When the loop has ended with the status 'no_faces_found' (or
    'no faces found') and no embedded result was captured, [settle] returns,
    without any further network call, the made-up result whose status is
    'no_faces_found', whose faces are the empty array and whose message is
    'No faces detected in the image.'; both analyze handlers return its
    rendering instead of throwing. The session identifier is a value that
    converts to text, as a string does: the call would have ended when it
    logged it otherwise. *)
Theorem C5_no_faces_result
    (cfg : Config) (srv : Remote) (uuid : JsVal) (st : PollState) :
  session_opened srv uuid ->
  printable uuid = true ->
  is_no_faces (status st) = true ->
  truthy (analysisResult st) = false ->
  (forall l, settle srv uuid st l = (Return (no_faces_result uuid), l)) /\
  read_prop (no_faces_result uuid) "status" = Return (JStr "no_faces_found") /\
  read_prop (no_faces_result uuid) "faces" = Return (JArr []) /\
  read_prop (no_faces_result uuid) "message"
  = Return (JStr "No faces detected in the image.") /\
  (forall params file format l l',
      image_call params file format ->
      poll_loop cfg srv (S (maxRetries cfg)) uuid poll_start (PostUpload file :: l)
      = (Return st, l') ->
      handleAnalyzeImage cfg srv params l
      = (Return (if is_str format "json" then [Stringify (no_faces_result uuid)]
                 else no_faces_text uuid), l')) /\
  (forall params url file format l l',
      url_call srv params url file format ->
      poll_loop cfg srv (S (maxRetries cfg)) uuid poll_start
        (PostUpload file :: GetImage url :: l)
      = (Return st, l') ->
      handleAnalyzeImageUrl cfg srv params l
      = (Return (if is_str format "json" then [Stringify (no_faces_result uuid)]
                 else no_faces_text uuid), l')).
Proof.
  intros Ho Hu Hn Ht.
  pose proof (fun l => settle_no_faces srv uuid st l Hn Ht) as Hs.
  split; [exact Hs |].
  repeat (split; [reflexivity |]). split.
  - intros params file format l l' Hc Hp.
    rewrite (image_handler_after_poll cfg srv _ _ _ _ _ _ _ Ho Hu Hc Hp).
    apply try_catch_return.
    erewrite bind_return by apply Hs. apply render_no_faces. exact Hu.
  - intros params url file format l l' Hc Hp.
    rewrite (url_handler_after_poll cfg srv _ _ _ _ _ _ _ _ Ho Hu Hc Hp).
    apply try_catch_return.
    erewrite bind_return by apply Hs. apply render_no_faces. exact Hu.
Qed.

Lemma C5_witness :
  handleAnalyzeImage PROOFLY_CONFIG (reporting "no_faces_found")
    (image_request "AAAA" (JStr "json")) []
  = (Return [Stringify (no_faces_result (JStr "abc"))], one_poll [PostUpload sample_file]) /\
  handleAnalyzeImageUrl PROOFLY_CONFIG (reporting "no faces found")
    (url_request (JStr "text")) []
  = (Return (no_faces_text (JStr "abc")),
     one_poll [PostUpload sample_url_file; GetImage sample_url]).
Proof.
  split.
  - destruct (C5_no_faces_result PROOFLY_CONFIG (reporting "no_faces_found") (JStr "abc")
                (stopped_at "no_faces_found") (sample_session _) eq_refl eq_refl eq_refl)
      as (_ & _ & _ & _ & Himg & _).
    apply (Himg (image_request "AAAA" (JStr "json")) sample_file (JStr "json") []).
    + apply (sample_image_call (JStr "json")).
    + vm_compute. reflexivity.
  - destruct (C5_no_faces_result PROOFLY_CONFIG (reporting "no faces found") (JStr "abc")
                (stopped_at "no faces found") (sample_session _) eq_refl eq_refl eq_refl)
      as (_ & _ & _ & _ & _ & Hurl).
    apply (Hurl (url_request (JStr "text")) sample_url sample_url_file (JStr "text") []).
    + apply (sample_url_call _ (JStr "text")).
    + vm_compute. reflexivity.
Defined.

(** ** C7: done without an embedded result *)

Lemma poll_loop_result_fetches
    (cfg : Config) (srv : Remote) (uuid : JsVal) (fuel : nat) (st : PollState)
    (l l' : Log) (o : Outcome PollState) :
  poll_loop cfg srv fuel uuid st l = (o, l') ->
  result_fetches l' = result_fetches l.
Proof.
  intros H. destruct (poll_loop_log cfg srv uuid fuel st l) as (o' & extra & E & P).
  rewrite E in H. injection H as _ <-.
  apply polling_events_counts. exact P.
Qed.

(** C7. When the loop has ended with the status 'done' or 'completed' and
    no embedded result was captured, [settle] makes one query for the full
    result of the session, and what that query answers is the result: the
    analyze handlers go on to render it. Over the whole call the log gains
    exactly one result query. The session identifier is a value that
    converts to text, as a string does: the call would have ended when it
    logged it otherwise. *)
Theorem C7_fetch_when_done
    (cfg : Config) (srv : Remote) (uuid d : JsVal) (st : PollState) :
  session_opened srv uuid ->
  printable uuid = true ->
  is_done (status st) = true ->
  truthy (analysisResult st) = false ->
  result_reply srv = Responds d ->
  (forall l, settle srv uuid st l = (Return d, GetResult uuid :: l)) /\
  (forall params file format l l',
      image_call params file format ->
      poll_loop cfg srv (S (maxRetries cfg)) uuid poll_start (PostUpload file :: l)
      = (Return st, l') ->
      handleAnalyzeImage cfg srv params l
      = try_catch (render_result cfg format d)
          (rethrow_as_server_error "Failed to analyze image: ") (GetResult uuid :: l') /\
      snd (handleAnalyzeImage cfg srv params l) = GetResult uuid :: l' /\
      result_fetches (GetResult uuid :: l') = S (result_fetches l)) /\
  (forall params url file format l l',
      url_call srv params url file format ->
      poll_loop cfg srv (S (maxRetries cfg)) uuid poll_start
        (PostUpload file :: GetImage url :: l)
      = (Return st, l') ->
      handleAnalyzeImageUrl cfg srv params l
      = try_catch (render_result cfg format d)
          (rethrow_as_server_error "Failed to analyze image URL: ") (GetResult uuid :: l') /\
      snd (handleAnalyzeImageUrl cfg srv params l) = GetResult uuid :: l' /\
      result_fetches (GetResult uuid :: l') = S (result_fetches l)).
Proof.
  intros Ho Hu Hd Ht Hr.
  assert (forall l, settle srv uuid st l = (Return d, GetResult uuid :: l)) as Hs.
  { intros l. rewrite settle_fetch by assumption.
    unfold axios_get_result, bind, emit, answer. rewrite Hr. reflexivity. }
  split; [exact Hs |]. split.
  - intros params file format l l' Hc Hp.
    assert (handleAnalyzeImage cfg srv params l
            = try_catch (render_result cfg format d)
                (rethrow_as_server_error "Failed to analyze image: ") (GetResult uuid :: l'))
      as E.
    { rewrite (image_handler_after_poll cfg srv _ _ _ _ _ _ _ Ho Hu Hc Hp).
      unfold try_catch. erewrite bind_return by apply Hs. reflexivity. }
    split; [exact E |]. split; [rewrite E; apply silent_rendering |].
    + apply poll_loop_result_fetches in Hp.
      unfold result_fetches in *. simpl in *. rewrite Hp. reflexivity.
  - intros params url file format l l' Hc Hp.
    assert (handleAnalyzeImageUrl cfg srv params l
            = try_catch (render_result cfg format d)
                (rethrow_as_server_error "Failed to analyze image URL: ")
                (GetResult uuid :: l'))
      as E.
    { rewrite (url_handler_after_poll cfg srv _ _ _ _ _ _ _ _ Ho Hu Hc Hp).
      unfold try_catch. erewrite bind_return by apply Hs. reflexivity. }
    split; [exact E |]. split; [rewrite E; apply silent_rendering |].
    + apply poll_loop_result_fetches in Hp.
      unfold result_fetches in *. simpl in *. rewrite Hp. reflexivity.
Qed.

Lemma C7_witness :
  (handleAnalyzeImage PROOFLY_CONFIG (reporting "done") (image_request "AAAA" (JStr "json")) []
   = (Return [Stringify sample_result],
      GetResult (JStr "abc") :: one_poll [PostUpload sample_file]) /\
   result_fetches (GetResult (JStr "abc") :: one_poll [PostUpload sample_file]) = 1) /\
  (handleAnalyzeImageUrl PROOFLY_CONFIG (reporting "completed") (url_request (JStr "json")) []
   = (Return [Stringify sample_result],
      GetResult (JStr "abc") :: one_poll [PostUpload sample_url_file; GetImage sample_url]) /\
   result_fetches
     (GetResult (JStr "abc") :: one_poll [PostUpload sample_url_file; GetImage sample_url])
   = 1).
Proof.
  split.
  - destruct (C7_fetch_when_done PROOFLY_CONFIG (reporting "done") (JStr "abc") sample_result
                (stopped_at "done") (sample_session _) eq_refl eq_refl eq_refl eq_refl)
      as (_ & Himg & _).
    destruct (Himg (image_request "AAAA" (JStr "json")) sample_file (JStr "json") []
                (one_poll [PostUpload sample_file])) as (E & _ & C).
    + apply (sample_image_call (JStr "json")).
    + vm_compute. reflexivity.
    + split; [exact E | exact C].
  - destruct (C7_fetch_when_done PROOFLY_CONFIG (reporting "completed") (JStr "abc")
                sample_result (stopped_at "completed") (sample_session _)
                eq_refl eq_refl eq_refl eq_refl)
      as (_ & _ & Hurl).
    destruct (Hurl (url_request (JStr "json")) sample_url sample_url_file (JStr "json") []
                (one_poll [PostUpload sample_url_file; GetImage sample_url]))
      as (E & _ & C).
    + apply (sample_url_call _ (JStr "json")).
    + vm_compute. reflexivity.
    + split; [exact E | exact C].
Defined.

(** ** C2: the loop is bounded *)

Lemma settle_fuel (srv : Remote) (uuid : JsVal) (st : PollState) (l : Log) :
  fst (settle srv uuid st l) <> OutOfFuel.
Proof.
  unfold settle, bind, axios_get_result, bind, emit, answer.
  destruct (negb (is_str (status st) "done") && negb (is_str (status st) "completed")
            && negb (truthy (analysisResult st))).
  - destruct (is_str (status st) "no_faces_found" || is_str (status st) "no faces found");
      [simpl; discriminate |].
    unfold interp. destruct (printable (status st)); simpl; discriminate.
  - simpl. destruct (truthy (analysisResult st)); simpl; [discriminate |].
    destruct (result_reply srv); simpl; discriminate.
Qed.

Section Bounded.

Variable cfg : Config.
Variable srv : Remote.
Variable uuid : JsVal.

Lemma poll_loop_times_out (l : Log) :
  (forall i, i < maxRetries cfg -> polls_at srv (status_queries l + i) = true) ->
  poll_loop cfg srv (S (maxRetries cfg)) uuid poll_start l
  = (Throw max_retries_error, polled_log cfg uuid (maxRetries cfg) l).
Proof.
  intros Hp.
  destruct (poll_loop_polls cfg srv uuid (maxRetries cfg) 1 poll_start l)
    as (st & E & K & A); [reflexivity | simpl; lia | exact Hp |].
  replace (S (maxRetries cfg)) with (maxRetries cfg + 1) by lia.
  rewrite E, poll_loop_step, K.
  replace (maxRetries cfg <=? attempts st) with true; [reflexivity |].
  symmetry. apply Nat.leb_le. simpl in A. lia.
Qed.

Lemma poll_loop_reaches (l : Log) (k : nat) (s res : JsVal) :
  k < maxRetries cfg ->
  (forall i, i < k -> polls_at srv (status_queries l + i) = true) ->
  reply_fields (status_reply srv (status_queries l + k)) = Some (s, res) ->
  printable s = true ->
  keeps_polling s = false ->
  exists st,
    poll_loop cfg srv (S (maxRetries cfg)) uuid poll_start l
    = (Return st, polled_log cfg uuid (S k) l) /\
    status st = s /\ attempts st = S k.
Proof.
  intros Hk Hp Hr Hc Hs.
  destruct (poll_loop_polls cfg srv uuid k (S (maxRetries cfg - k)) poll_start l)
    as (st & E & K & A); [reflexivity | simpl; lia | exact Hp |].
  replace (S (maxRetries cfg)) with (k + S (maxRetries cfg - k)) by lia.
  rewrite E, poll_loop_step, K.
  replace (maxRetries cfg <=? attempts st) with false
    by (symmetry; apply Nat.leb_gt; simpl in A; lia).
  rewrite status_queries_polled.
  unfold reply_fields in Hr.
  destruct (status_reply srv (status_queries l + k)) as [data | c m]; [| discriminate].
  destruct (read_prop data "status") as [s' | | |]; try discriminate.
  destruct (read_prop data "result") as [res' | | |]; try discriminate.
  injection Hr as -> ->. rewrite Hc.
  exists (next_state st s res). split; [| split].
  - rewrite poll_loop_exit by exact Hs. reflexivity.
  - reflexivity.
  - simpl. rewrite A. reflexivity.
Qed.

Lemma analyze_times_out (file : FormFile) (format : JsVal) (l : Log) :
  session_opened srv uuid ->
  printable uuid = true ->
  (forall i, i < maxRetries cfg -> polls_at srv (status_queries l + i) = true) ->
  upload_and_analyze cfg srv file format l
  = (Throw max_retries_error, polled_log cfg uuid (maxRetries cfg) (PostUpload file :: l)).
Proof.
  intros Ho Hu Hp. rewrite (upload_and_analyze_runs cfg srv _ _ _ _ Ho Hu).
  unfold poll_and_settle.
  apply bind_throw. apply bind_throw.
  apply poll_loop_times_out. exact Hp.
Qed.

End Bounded.

(** C2 (as amended). For every remote service the loop ends: with fuel
    [maxRetries + 1] the fuel never runs out. If the first [maxRetries]
    status replies all report 'in progress', 'processing' or 'pending', the
    loop throws the max-retries error after exactly [maxRetries] status
    queries and no result query, and so does each analyze handler, behind
    its prefix, for a session identifier that converts to text. If the
    first status outside these three comes with reply number
    [k < maxRetries], and it is a value that converts to text, the loop
    ends there after exactly [k + 1] queries; the session then resolves
    when that status is a no-faces spelling, and when it is 'done' or
    'completed' and the result query, if one is needed, is answered. *)
Theorem C2_poll_bounded (cfg : Config) (srv : Remote) (uuid : JsVal) (l : Log) :
  fst (poll_and_settle cfg srv uuid l) <> OutOfFuel /\
  ((forall i, i < maxRetries cfg -> polls_at srv (status_queries l + i) = true) ->
   let l' := polled_log cfg uuid (maxRetries cfg) l in
   poll_and_settle cfg srv uuid l = (Throw max_retries_error, l') /\
   status_queries l' = status_queries l + maxRetries cfg /\
   result_fetches l' = result_fetches l) /\
  ((forall i, i < maxRetries cfg -> polls_at srv i = true) ->
   session_opened srv uuid ->
   printable uuid = true ->
   (forall params file format,
       image_call params file format ->
       handleAnalyzeImage cfg srv params []
       = (Throw (McpError ServerError
                   [Lit "Failed to analyze image: ";
                    Lit "Maximum retry attempts reached for status check."]),
          polled_log cfg uuid (maxRetries cfg) [PostUpload file])) /\
   (forall params url file format,
       url_call srv params url file format ->
       handleAnalyzeImageUrl cfg srv params []
       = (Throw (McpError ServerError
                   [Lit "Failed to analyze image URL: ";
                    Lit "Maximum retry attempts reached for status check."]),
          polled_log cfg uuid (maxRetries cfg) [PostUpload file; GetImage url]))) /\
  (forall k s res,
      k < maxRetries cfg ->
      (forall i, i < k -> polls_at srv (status_queries l + i) = true) ->
      reply_fields (status_reply srv (status_queries l + k)) = Some (s, res) ->
      printable s = true ->
      keeps_polling s = false ->
      let l' := polled_log cfg uuid (S k) l in
      (exists st,
          poll_loop cfg srv (S (maxRetries cfg)) uuid poll_start l = (Return st, l') /\
          status st = s /\ attempts st = S k) /\
      status_queries l' = status_queries l + S k /\
      (is_no_faces s = true ->
       exists v l'', poll_and_settle cfg srv uuid l = (Return v, l'')) /\
      (is_done s = true ->
       forall d, result_reply srv = Responds d ->
       exists v l'', poll_and_settle cfg srv uuid l = (Return v, l''))).
Proof.
  split; [| split; [| split]].
  - unfold poll_and_settle, bind.
    pose proof (poll_loop_fuel cfg srv uuid (S (maxRetries cfg)) poll_start l) as F.
    destruct (poll_loop cfg srv (S (maxRetries cfg)) uuid poll_start l) as [[st | e | w |] l1];
      simpl in *; try discriminate.
    + apply settle_fuel.
    + exfalso. apply F; [lia | reflexivity].
  - intros Hp l'. split; [| split].
    + unfold poll_and_settle. erewrite bind_throw by (apply poll_loop_times_out; exact Hp).
      reflexivity.
    + apply status_queries_polled.
    + apply result_fetches_polled.
  - intros Hp Ho Hu. split.
    + intros params file format Hc.
      rewrite (handleAnalyzeImage_runs cfg srv _ _ _ _ Hc).
      erewrite try_catch_throw by (apply (analyze_times_out cfg srv uuid); assumption).
      reflexivity.
    + intros params url file format Hc.
      rewrite (handleAnalyzeImageUrl_runs cfg srv _ _ _ _ _ Hc).
      erewrite try_catch_throw by (apply (analyze_times_out cfg srv uuid); assumption).
      reflexivity.
  - intros k s res Hk Hp Hr Hc Hs l'.
    destruct (poll_loop_reaches cfg srv uuid l k s res Hk Hp Hr Hc Hs) as (st & E & S1 & A1).
    split; [exists st; auto |].
    split; [apply status_queries_polled |].
    split.
    + intros Hn. unfold poll_and_settle. erewrite bind_return by exact E.
      destruct (truthy (analysisResult st)) eqn:T.
      * rewrite settle_captured by exact T. eexists; eexists; reflexivity.
      * rewrite settle_no_faces by (rewrite ?S1; assumption). eexists; eexists; reflexivity.
    + intros Hd d Hres. unfold poll_and_settle. erewrite bind_return by exact E.
      destruct (truthy (analysisResult st)) eqn:T.
      * rewrite settle_captured by exact T. eexists; eexists; reflexivity.
      * rewrite settle_fetch by (rewrite ?S1; assumption).
        unfold axios_get_result, bind, emit, answer. rewrite Hres. eexists; eexists; reflexivity.
Qed.

Lemma C2_witness :
  (poll_and_settle PROOFLY_CONFIG (reporting "processing") (JStr "abc") []
   = (Throw max_retries_error, polled_log PROOFLY_CONFIG (JStr "abc") 60 []) /\
   status_queries (polled_log PROOFLY_CONFIG (JStr "abc") 60 []) = 60 /\
   result_fetches (polled_log PROOFLY_CONFIG (JStr "abc") 60 []) = 0) /\
  handleAnalyzeImage PROOFLY_CONFIG (reporting "pending") (image_request "AAAA" (JStr "json")) []
  = (Throw (McpError ServerError
              [Lit "Failed to analyze image: ";
               Lit "Maximum retry attempts reached for status check."]),
     polled_log PROOFLY_CONFIG (JStr "abc") 60 [PostUpload sample_file]) /\
  (exists v l', poll_and_settle PROOFLY_CONFIG (reporting "no faces found") (JStr "abc") []
                = (Return v, l')) /\
  (exists v l', poll_and_settle PROOFLY_CONFIG (reporting "done") (JStr "abc") []
                = (Return v, l')).
Proof.
  split; [| split; [| split]].
  - destruct (C2_poll_bounded PROOFLY_CONFIG (reporting "processing") (JStr "abc") [])
      as (_ & Ht & _).
    apply Ht. intros i _. reflexivity.
  - destruct (C2_poll_bounded PROOFLY_CONFIG (reporting "pending") (JStr "abc") [])
      as (_ & _ & Hh & _).
    destruct Hh as [Himg _].
    + intros i _. reflexivity.
    + apply sample_session.
    + reflexivity.
    + apply (Himg _ _ _ (sample_image_call (JStr "json"))).
  - destruct (C2_poll_bounded PROOFLY_CONFIG (reporting "no faces found") (JStr "abc") [])
      as (_ & _ & _ & Hr).
    destruct (Hr 0 (JStr "no faces found") JUndefined) as (_ & _ & Hn & _).
    + simpl. lia.
    + intros i Hi. lia.
    + reflexivity.
    + reflexivity.
    + reflexivity.
    + apply Hn. reflexivity.
  - destruct (C2_poll_bounded PROOFLY_CONFIG (reporting "done") (JStr "abc") [])
      as (_ & _ & _ & Hr).
    destruct (Hr 0 (JStr "done") JUndefined) as (_ & _ & _ & Hd).
    + simpl. lia.
    + intros i Hi. lia.
    + reflexivity.
    + reflexivity.
    + reflexivity.
    + apply (Hd eq_refl sample_result). reflexivity.
Defined.

(** C2, the claim as stated fails: a service that reports 'failed' on
    every status query. The sequence offers a terminal value at its first
    step, and the session does not resolve; nor does it, the value taken as
    not terminal, fail with the max-retries error after 60 queries: it
    fails after one query, with the last status in the message. *)
Lemma C2_counterexample :
  (forall k, status_reply (reporting "failed") k = Responds (status_only "failed")) /\
  maxRetries PROOFLY_CONFIG = 60 /\
  poll_and_settle PROOFLY_CONFIG (reporting "failed") (JStr "abc") []
  = (Throw (incomplete_error (JStr "failed")), one_poll []) /\
  status_queries (one_poll []) = 1 /\
  handleAnalyzeImage PROOFLY_CONFIG (reporting "failed") (image_request "AAAA" (JStr "json")) []
  = (Throw (McpError ServerError
              [Lit "Failed to analyze image: ";
               Lit "Analysis did not complete successfully. Last status: ";
               Interp (JStr "failed")]),
     one_poll [PostUpload sample_file]).
Proof.
  split; [intros k; reflexivity |].
  repeat split; vm_compute; reflexivity.
Qed.

(** ** C8: processing, processing, done *)

(** C8 (as amended). In the scenario where the upload answers with the
    session "abc" and the status is 'processing', 'processing', then 'done'
    with an embedded result, [handleAnalyzeImage] ends with the rendering of
    that embedded result after exactly three status queries, each after a
    sleep, and without any result query. *)
Theorem C8_scenario_three_queries (embedded format : JsVal) :
  truthy embedded = true ->
  let log := three_polls [PostUpload sample_file] in
  let shown := match format with JUndefined => JStr "text" | _ => format end in
  handleAnalyzeImage PROOFLY_CONFIG (scenario embedded) (image_request "AAAA" format) []
  = try_catch (render_result PROOFLY_CONFIG shown embedded)
      (rethrow_as_server_error "Failed to analyze image: ") log /\
  snd (handleAnalyzeImage PROOFLY_CONFIG (scenario embedded)
         (image_request "AAAA" format) []) = log /\
  (is_str shown "json" = true ->
   handleAnalyzeImage PROOFLY_CONFIG (scenario embedded) (image_request "AAAA" format) []
   = (Return [Stringify embedded], log)) /\
  status_queries log = 3 /\
  result_fetches log = 0.
Proof.
  intros Ht log shown.
  assert (handleAnalyzeImage PROOFLY_CONFIG (scenario embedded)
            (image_request "AAAA" format) []
          = try_catch (render_result PROOFLY_CONFIG shown embedded)
              (rethrow_as_server_error "Failed to analyze image: ") log) as E.
  { rewrite (image_handler_after_poll PROOFLY_CONFIG (scenario embedded)
               (image_request "AAAA" format) sample_file shown (JStr "abc")
               {| status := JStr "done"; attempts := 3; analysisResult := embedded |}
               [] log).
    - unfold try_catch. erewrite bind_return by (apply settle_captured; exact Ht).
      reflexivity.
    - eexists. repeat split.
    - reflexivity.
    - apply sample_image_call.
    - change (S (maxRetries PROOFLY_CONFIG)) with (S (S (S 58))).
      rewrite (poll_loop_next _ _ _ _ _ _ (JStr "processing") JUndefined)
        by (reflexivity || (simpl; lia)).
      rewrite (poll_loop_next _ _ _ _ _ _ (JStr "processing") JUndefined)
        by (reflexivity || (simpl; lia)).
      rewrite (poll_loop_next _ _ _ _ _ _ (JStr "done") embedded)
        by (reflexivity || (simpl; lia)).
      rewrite poll_loop_exit by reflexivity.
      unfold next_state. simpl analysisResult. rewrite Ht. reflexivity. }
  split; [exact E |]. split; [rewrite E; apply silent_rendering |].
  split; [| split; reflexivity].
  intros Hj. rewrite E. unfold try_catch, render_result. rewrite Hj. reflexivity.
Qed.

Lemma C8_witness :
  handleAnalyzeImage PROOFLY_CONFIG (scenario sample_result)
    (image_request "AAAA" (JStr "json")) []
  = (Return [Stringify sample_result], three_polls [PostUpload sample_file]) /\
  status_queries (three_polls [PostUpload sample_file]) = 3.
Proof.
  destruct (C8_scenario_three_queries sample_result (JStr "json") eq_refl)
    as (_ & _ & Hj & Hq & _).
  split; [apply Hj; reflexivity | exact Hq].
Defined.

(** C8, the claim as stated fails: in the scenario the handler has made
    three status queries when it returns the embedded result, not two. *)
Lemma C8_counterexample :
  handleAnalyzeImage PROOFLY_CONFIG (scenario sample_result)
    (image_request "AAAA" (JStr "json")) []
  = (Return [Stringify sample_result],
     [GetStatus (JStr "abc"); Sleep 2000; GetStatus (JStr "abc"); Sleep 2000;
      GetStatus (JStr "abc"); Sleep 2000; PostUpload sample_file]) /\
  status_queries
    (snd (handleAnalyzeImage PROOFLY_CONFIG (scenario sample_result)
            (image_request "AAAA" (JStr "json")) [])) = 3 /\
  status_queries
    (snd (handleAnalyzeImage PROOFLY_CONFIG (scenario sample_result)
            (image_request "AAAA" (JStr "json")) [])) <> 2.
Proof.
  split; [vm_compute; reflexivity |].
  split; [vm_compute; reflexivity |].
  vm_compute. discriminate.
Qed.

(** ** C9: the data-URI header *)

Lemma prefix_app (a h t : string) :
  prefix a h = true -> prefix a (h ++ t)%string = true.
Proof.
  revert h. induction a as [| c a IH]; intros h H.
  - destruct (h ++ t)%string; reflexivity.
  - destruct h as [| b h]; [discriminate |].
    simpl in *. destruct (ascii_dec c b); [apply IH; exact H | discriminate].
Qed.

Lemma split_on_comma_free (s : string) :
  comma_free s = true -> split_on ","%char s = [s].
Proof.
  unfold comma_free. induction s as [| c s IH]; simpl; [reflexivity |].
  intros H. apply andb_true_iff in H as [Hc Hs].
  apply negb_true_iff in Hc. rewrite Hc, (IH Hs). reflexivity.
Qed.

Lemma split_on_header (h p : string) :
  comma_free h = true ->
  split_on ","%char (h ++ String ","%char p)%string = h :: split_on ","%char p.
Proof.
  unfold comma_free. induction h as [| c h IH]; simpl.
  - reflexivity.
  - intros H. apply andb_true_iff in H as [Hc Hs].
    apply negb_true_iff in Hc. rewrite Hc, (IH Hs). reflexivity.
Qed.

Lemma base64_char_not_comma (c : ascii) :
  base64_char c = true -> Ascii.eqb c ","%char = false.
Proof.
  intros H. destruct (Ascii.eqb_spec c ","%char) as [-> |]; [| reflexivity].
  vm_compute in H. discriminate.
Qed.

Lemma base64_comma_free (p : string) : base64_text p = true -> comma_free p = true.
Proof.
  unfold base64_text, comma_free. induction p as [| c p IH]; simpl; [reflexivity |].
  intros H. apply andb_true_iff in H as [Hc Hp].
  rewrite (base64_char_not_comma c Hc), (IH Hp). reflexivity.
Qed.

Lemma prefix_cons (c b : ascii) (a s : string) :
  prefix (String c a) (String b s) = if Ascii.eqb c b then prefix a s else false.
Proof.
  cbn [prefix]. destruct (ascii_dec c b) as [E | E], (Ascii.eqb_spec c b);
    congruence.
Qed.

(** Base64 text has no colon, so it does not start with 'data:image'. *)
Lemma base64_no_header (p : string) :
  base64_text p = true -> prefix "data:image" p = false.
Proof.
  unfold base64_text. intros H.
  do 5 (destruct p as [| ? p]; [reflexivity |];
        rewrite prefix_cons;
        match goal with
        | |- context [Ascii.eqb ?a ?b] => destruct (Ascii.eqb_spec a b) as [<- |]
        end; [| reflexivity]).
  vm_compute in H. discriminate.
Qed.

Lemma strip_header (header payload : string) :
  prefix "data:image" header = true ->
  comma_free header = true ->
  comma_free payload = true ->
  strip_data_uri (header ++ String ","%char payload) = JStr payload.
Proof.
  intros Hp Hh Hc. unfold strip_data_uri.
  rewrite (prefix_app _ _ _ Hp), (split_on_header _ _ Hh), (split_on_comma_free _ Hc).
  reflexivity.
Qed.

Lemma strip_plain (payload : string) :
  base64_text payload = true -> strip_data_uri payload = JStr payload.
Proof.
  intros H. unfold strip_data_uri. rewrite (base64_no_header _ H). reflexivity.
Qed.

Lemma handleAnalyzeImage_string
    (cfg : Config) (srv : Remote) (s : string) (others : list (string * JsVal)) (l : Log) :
  s <> "" ->
  handleAnalyzeImage cfg srv (JObj (("imageBase64", JStr s) :: others)) l
  = if negb (truthy (lookup "filename" others))
    then (Throw (McpError InvalidParams [Lit "Missing imageBase64 or filename parameter"]), l)
    else
      try_catch
        (bind (buffer_from_base64 (strip_data_uri s))
           (fun imageBuffer =>
              match lookup "filename" others with
              | JStr f =>
                  upload_and_analyze cfg srv
                    {| file_bytes := imageBuffer; file_name := f;
                       file_type := ByExtension f |}
                    (format_of others)
              | _ => throw (TypeError "filename.split is not a function")
              end))
        (rethrow_as_server_error "Failed to analyze image: ") l.
Proof.
  intros Hs. unfold handleAnalyzeImage.
  erewrite bind_return by apply get_prop_obj.
  erewrite bind_return by apply get_prop_obj.
  erewrite bind_return by apply get_prop_default_obj.
  change (lookup "imageBase64" (("imageBase64", JStr s) :: others)) with (JStr s).
  change (lookup "filename" (("imageBase64", JStr s) :: others))
    with (lookup "filename" others).
  change (format_of (("imageBase64", JStr s) :: others)) with (format_of others).
  rewrite (truthy_str _ Hs).
  change (negb true) with false. rewrite orb_false_l.
  destruct (negb (truthy (lookup "filename" others))); [reflexivity |].
  unfold try_catch.
  erewrite bind_return by reflexivity.
  reflexivity.
Qed.

(** Whatever the service answers, the upload is the first request of
    [upload_and_analyze], and it carries the file. *)
Lemma settle_log (srv : Remote) (uuid : JsVal) (st : PollState) (l : Log) :
  exists o tail, settle srv uuid st l = (o, (tail ++ l)%list).
Proof.
  unfold settle, bind.
  destruct (negb (is_str (status st) "done") && negb (is_str (status st) "completed")
            && negb (truthy (analysisResult st))).
  - destruct (is_str (status st) "no_faces_found" || is_str (status st) "no faces found").
    + eexists. exists []. reflexivity.
    + unfold interp. destruct (printable (status st)); eexists; exists []; reflexivity.
  - unfold ret at 1. cbv beta iota.
    destruct (negb (truthy (analysisResult st))).
    + unfold axios_get_result, bind, emit, answer.
      destruct (result_reply srv); eexists; exists [GetResult uuid]; reflexivity.
    + eexists. exists []. reflexivity.
Qed.

Lemma silent_outcome {A} (m : M A) (l : Log) : silent m -> m l = (fst (m l), l).
Proof.
  intros H. rewrite <- (H l) at 3. apply surjective_pairing.
Qed.

Lemma upload_and_analyze_uploads
    (cfg : Config) (srv : Remote) (file : FormFile) (format : JsVal) (l : Log) :
  exists o rest,
    upload_and_analyze cfg srv file format l = (o, (rest ++ PostUpload file :: l)%list).
Proof.
  unfold upload_and_analyze, axios_post_upload.
  unfold bind at 1 3. unfold emit.
  destruct (upload_reply srv) as [data | c m]; [| eexists; exists []; reflexivity].
  unfold answer, ret. unfold bind at 1. unfold get_prop, lift.
  destruct (read_prop data "uuid") as [uuid | e | w |];
    try (eexists; exists []; reflexivity).
  destruct (negb (truthy uuid)); [eexists; exists []; reflexivity |].
  unfold bind at 1. unfold logInfo, interp, bind at 1.
  destruct (printable uuid); [| eexists; exists []; reflexivity].
  cbv beta iota delta [ret].
  unfold poll_and_settle.
  destruct (poll_loop_log cfg srv uuid (S (maxRetries cfg)) poll_start (PostUpload file :: l))
    as (o & extra & E & _).
  unfold bind at 1 2. rewrite E.
  destruct o as [st | e | w |]; try (eexists; exists extra; reflexivity).
  destruct (settle_log srv uuid st (extra ++ PostUpload file :: l)%list) as (o & tail & E').
  rewrite E'.
  destruct o as [r | e | w |];
    try (eexists; exists (tail ++ extra)%list; rewrite <- app_assoc; reflexivity).
  rewrite (silent_outcome _ _ (silent_render_result cfg format r)).
  eexists. exists (tail ++ extra)%list. rewrite <- app_assoc. reflexivity.
Qed.

(** C9. Let [header] start with 'data:image' and hold no comma, as the
    header 'data:image/...;base64' of a data URI does, and let [payload] be
    non-empty base64 text. Then the header and the comma are stripped
    before decoding: the buffer decoded from the prefixed input is the one
    decoded from the payload alone, and [handleAnalyzeImage] behaves on the
    prefixed input exactly as on the payload. With a file name, it goes on
    to upload the bytes decoded from the payload under that name: this
    upload is the first request of the call, whatever the service
    answers. *)
Theorem C9_data_uri_prefix
    (cfg : Config) (srv : Remote) (header payload : string)
    (others : list (string * JsVal)) (l : Log) :
  prefix "data:image" header = true ->
  comma_free header = true ->
  base64_text payload = true ->
  payload <> "" ->
  let prefixed := (header ++ String ","%char payload)%string in
  strip_data_uri prefixed = JStr payload /\
  strip_data_uri payload = JStr payload /\
  buffer_from_base64 (strip_data_uri prefixed) l = (Return (FromBase64 payload), l) /\
  buffer_from_base64 (strip_data_uri payload) l = (Return (FromBase64 payload), l) /\
  handleAnalyzeImage cfg srv (JObj (("imageBase64", JStr prefixed) :: others)) l
  = handleAnalyzeImage cfg srv (JObj (("imageBase64", JStr payload) :: others)) l /\
  (forall f,
      lookup "filename" others = JStr f ->
      f <> "" ->
      let file := {| file_bytes := FromBase64 payload; file_name := f;
                     file_type := ByExtension f |} in
      handleAnalyzeImage cfg srv (JObj (("imageBase64", JStr prefixed) :: others)) l
      = try_catch (upload_and_analyze cfg srv file (format_of others))
          (rethrow_as_server_error "Failed to analyze image: ") l /\
      exists o rest,
        handleAnalyzeImage cfg srv (JObj (("imageBase64", JStr prefixed) :: others)) l
        = (o, (rest ++ PostUpload file :: l)%list)).
Proof.
  intros Hp Hh Hb Hn prefixed.
  pose proof (strip_header header payload Hp Hh (base64_comma_free _ Hb)) as E1.
  pose proof (strip_plain payload Hb) as E2.
  fold prefixed in E1.
  assert (prefixed <> ""%string) as Hne by (unfold prefixed; destruct header; discriminate).
  split; [exact E1 |]. split; [exact E2 |].
  split; [rewrite E1; reflexivity |]. split; [rewrite E2; reflexivity |].
  split.
  - rewrite !handleAnalyzeImage_string; [| exact Hn | exact Hne].
    rewrite E1, E2. reflexivity.
  - intros f Hf Hf0 file.
    assert (handleAnalyzeImage cfg srv (JObj (("imageBase64", JStr prefixed) :: others)) l
            = try_catch (upload_and_analyze cfg srv file (format_of others))
                (rethrow_as_server_error "Failed to analyze image: ") l) as E.
    { rewrite handleAnalyzeImage_string by exact Hne.
      rewrite Hf, (truthy_str _ Hf0), E1.
      change (negb true) with false. cbv iota.
      unfold try_catch. erewrite bind_return by reflexivity. reflexivity. }
    split; [exact E |].
    rewrite E.
    destruct (upload_and_analyze_uploads cfg srv file (format_of others) l)
      as (o & rest & U).
    unfold try_catch. rewrite U.
    destruct o; eexists; exists rest; reflexivity.
Qed.

Lemma C9_witness :
  strip_data_uri "data:image/png;base64,AAAA" = JStr "AAAA" /\
  handleAnalyzeImage PROOFLY_CONFIG (scenario sample_result)
    (image_request "data:image/png;base64,AAAA" (JStr "json")) []
  = handleAnalyzeImage PROOFLY_CONFIG (scenario sample_result)
      (image_request "AAAA" (JStr "json")) [] /\
  exists o rest,
    handleAnalyzeImage PROOFLY_CONFIG (scenario sample_result)
      (image_request "data:image/png;base64,AAAA" (JStr "json")) []
    = (o, (rest ++ [PostUpload sample_file])%list).
Proof.
  destruct (C9_data_uri_prefix PROOFLY_CONFIG (scenario sample_result)
              "data:image/png;base64" "AAAA"
              [("filename", JStr "a.png"); ("format", JStr "json")] []
              eq_refl eq_refl eq_refl ltac:(discriminate))
    as (E & _ & _ & _ & H & U).
  split; [exact E |]. split; [exact H |].
  destruct (U "a.png"%string eq_refl ltac:(discriminate)) as (_ & V).
  exact V.
Defined.

(** ** C10: validation of the face-detail call *)

Lemma face_details_rejected
    (cfg : Config) (srv : Remote) (props : list (string * JsVal)) (l : Log) :
  truthy (lookup "sessionUuid" props) = false
  \/ is_number (lookup "faceIndex" props) = false
  \/ below_zero (lookup "faceIndex" props) = true ->
  handleGetFaceDetails cfg srv (JObj props) l = (Throw invalid_face_params, l).
Proof.
  intros H. unfold handleGetFaceDetails.
  erewrite bind_return by apply get_prop_obj.
  erewrite bind_return by apply get_prop_obj.
  erewrite bind_return by apply get_prop_default_obj.
  assert (negb (truthy (lookup "sessionUuid" props))
          || negb (is_number (lookup "faceIndex" props))
          || below_zero (lookup "faceIndex" props) = true) as ->.
  { destruct H as [-> | [-> | ->]];
      rewrite ?orb_true_r; reflexivity. }
  reflexivity.
Qed.

(** C10 (as amended). A face-detail call with an arguments object whose
    [sessionUuid] is missing (falsy), whose [faceIndex] is not of type
    number, or whose [faceIndex] is a negative number, throws the
    invalid-parameters error, which is not the not-found error, and leaves
    the log as it was: no network call is made. The dispatcher passes this
    error on unchanged. *)
Theorem C10_invalid_face_params
    (cfg : Config) (srv : Remote) (props : list (string * JsVal)) (l : Log) :
  truthy (lookup "sessionUuid" props) = false
  \/ is_number (lookup "faceIndex" props) = false
  \/ below_zero (lookup "faceIndex" props) = true ->
  handleGetFaceDetails cfg srv (JObj props) l
  = (Throw (McpError InvalidParams
              [Lit "Missing or invalid sessionUuid or faceIndex parameter"]), l) /\
  callTool cfg srv (JStr "get-face-details") (JObj props) l
  = (Throw (McpError InvalidParams
              [Lit "Missing or invalid sessionUuid or faceIndex parameter"]), l) /\
  network_calls (snd (handleGetFaceDetails cfg srv (JObj props) l)) = network_calls l /\
  InvalidParams <> NotFound.
Proof.
  intros H. pose proof (face_details_rejected cfg srv props l H) as E.
  split; [exact E |]. split; [| split; [rewrite E; reflexivity | discriminate]].
  unfold callTool.
  erewrite bind_return by (apply logInfo_printable; reflexivity).
  change (is_str (JStr "get-face-details") "analyze-image") with false.
  change (is_str (JStr "get-face-details") "analyze") with false.
  change (is_str (JStr "get-face-details") "check-session-status") with false.
  change (is_str (JStr "get-face-details") "get-face-details") with true.
  cbv iota. erewrite try_catch_throw by exact E. reflexivity.
Qed.

Lemma C10_witness :
  handleGetFaceDetails PROOFLY_CONFIG sample_store
    (face_request (JNum (Finite (-1))) (JStr "json")) []
  = (Throw invalid_face_params, []) /\
  handleGetFaceDetails PROOFLY_CONFIG sample_store
    (face_request (JStr "0") (JStr "json")) []
  = (Throw invalid_face_params, []) /\
  callTool PROOFLY_CONFIG sample_store (JStr "get-face-details")
    (JObj [("faceIndex", JNum (Finite 0))]) []
  = (Throw invalid_face_params, []).
Proof.
  split; [| split].
  - apply (C10_invalid_face_params PROOFLY_CONFIG sample_store
             [("sessionUuid", JStr "abc"); ("faceIndex", JNum (Finite (-1)));
              ("format", JStr "json")] []).
    right. right. reflexivity.
  - apply (C10_invalid_face_params PROOFLY_CONFIG sample_store
             [("sessionUuid", JStr "abc"); ("faceIndex", JStr "0");
              ("format", JStr "json")] []).
    right. left. reflexivity.
  - apply (C10_invalid_face_params PROOFLY_CONFIG sample_store
             [("faceIndex", JNum (Finite 0))] []).
    left. reflexivity.
Defined.

(** C10, the claim as stated fails: a face-detail call that comes without
    an arguments object has no [sessionUuid] and no [faceIndex], and it does
    not fail with the invalid-parameters error. Taking the parameters apart
    (line 502) throws a TypeError before the guard is reached, and the
    dispatcher turns it into its own error (line 257). *)
Lemma C10_counterexample :
  handleGetFaceDetails PROOFLY_CONFIG sample_store JUndefined []
  = (Throw (TypeError "Cannot read property sessionUuid"), []) /\
  callTool PROOFLY_CONFIG sample_store (JStr "get-face-details") JUndefined []
  = (Throw (McpError INTERNAL_ERROR
              [Lit "Failed to execute tool "; Interp (JStr "get-face-details"); Lit ": ";
               RuntimeText "Cannot read property sessionUuid"]), []) /\
  McpError INTERNAL_ERROR
    [Lit "Failed to execute tool "; Interp (JStr "get-face-details"); Lit ": ";
     RuntimeText "Cannot read property sessionUuid"]
  <> invalid_face_params.
Proof.
  split; [reflexivity |]. split; [reflexivity | discriminate].
Qed.

(** ** C6: one face of a stored result *)

Lemma num_ge_nat (i n : nat) : num_ge (num_of_nat i) (num_of_nat n) = (n <=? i).
Proof.
  unfold num_ge, num_lt, num_eq, num_of_nat.
  destruct (Nat.leb_spec n i) as [H | H].
  - apply orb_true_iff.
    destruct (Nat.eq_dec n i) as [-> | Hne].
    + right. apply Qeq_bool_iff. reflexivity.
    + left. apply Qltb_lt. rewrite <- Zlt_Qlt. lia.
  - apply orb_false_iff. split.
    + destruct (Qltb (inject_Z (Z.of_nat n)) (inject_Z (Z.of_nat i))) eqn:E;
        [| reflexivity].
      apply Qltb_lt in E. rewrite <- Zlt_Qlt in E. lia.
    + destruct (Qeq_bool (inject_Z (Z.of_nat i)) (inject_Z (Z.of_nat n))) eqn:E;
        [| reflexivity].
      apply Qeq_bool_iff in E. unfold Qeq in E. simpl in E. lia.
Qed.

Lemma array_index_nat (i : nat) : array_index (num_of_nat i) = Some i.
Proof.
  unfold array_index, num_of_nat. simpl.
  replace (0 <=? Z.of_nat i)%Z with true by (symmetry; apply Z.leb_le; lia).
  rewrite Z.mod_1_r, Z.div_1_r, Nat2Z.id. reflexivity.
Qed.

Lemma below_zero_nat (i : nat) : below_zero (JNum (num_of_nat i)) = false.
Proof.
  unfold below_zero, num_lt, num_of_nat, Qltb. simpl.
  apply Z.ltb_ge. lia.
Qed.

Section FaceDetails.

Variable cfg : Config.
Variable srv : Remote.
Variable props : list (string * JsVal).
Variable sessionUuid res : JsVal.
Variable n : JsNumber.
Variable l : Log.

Hypothesis Hs : lookup "sessionUuid" props = sessionUuid.
Hypothesis Hu : truthy sessionUuid = true.
Hypothesis Hi : lookup "faceIndex" props = JNum n.
Hypothesis Hres : result_reply srv = Responds res.
Hypothesis Hpr : printable sessionUuid = true.

Lemma handleGetFaceDetails_runs :
  num_lt n (Finite 0) = false ->
  handleGetFaceDetails cfg srv (JObj props) l
  = try_catch (face_details cfg srv sessionUuid (JNum n) (format_of props))
      (face_details_catch sessionUuid) l.
Proof.
  intros Hn. unfold handleGetFaceDetails.
  erewrite bind_return by apply get_prop_obj.
  erewrite bind_return by apply get_prop_obj.
  erewrite bind_return by apply get_prop_default_obj.
  rewrite Hs, Hu, Hi. unfold below_zero, is_number. rewrite Hn.
  reflexivity.
Qed.

Lemma face_details_found (faces : list JsVal) (i : nat) (format : JsVal) :
  read_prop res "faces" = Return (JArr faces) ->
  i < List.length faces ->
  face_details cfg srv sessionUuid (JNum (num_of_nat i)) format l
  = (if is_str format "json" then ret [Stringify (nth i faces JUndefined)]
     else bind (face_lines cfg (nth i faces JUndefined))
            (fun body =>
               ret (face_details_header (JNum (num_of_nat i)) sessionUuid ++ body)))
      (GetResult sessionUuid :: l).
Proof.
  intros Hf Hlt. unfold face_details.
  erewrite bind_return by (apply logInfo_printable; exact Hpr).
  erewrite bind_return
    by (unfold axios_get_result, bind, emit, answer; rewrite Hres; reflexivity).
  erewrite bind_return by (unfold get_prop, lift; rewrite Hf; reflexivity).
  erewrite bind_return.
  2: { change (negb (truthy (JArr faces))) with false. cbv iota.
       erewrite bind_return by reflexivity.
       erewrite bind_return by reflexivity.
       erewrite bind_return by reflexivity.
       rewrite num_ge_nat.
       replace (List.length faces <=? i) with false
         by (symmetry; apply Nat.leb_gt; exact Hlt).
       reflexivity. }
  erewrite bind_return
    by (unfold element_at; erewrite bind_return by reflexivity;
        rewrite array_index_nat; reflexivity).
  reflexivity.
Qed.

Lemma face_details_beyond (faces : list JsVal) (format : JsVal) :
  read_prop res "faces" = Return (JArr faces) ->
  num_ge n (num_of_nat (List.length faces)) = true ->
  face_details cfg srv sessionUuid (JNum n) format l
  = (Throw (McpError NotFound
              (face_not_found (JNum n) sessionUuid
                 (JNum (num_of_nat (List.length faces))))),
     GetResult sessionUuid :: l).
Proof.
  intros Hf Hge. unfold face_details.
  erewrite bind_return by (apply logInfo_printable; exact Hpr).
  erewrite bind_return
    by (unfold axios_get_result, bind, emit, answer; rewrite Hres; reflexivity).
  erewrite bind_return by (unfold get_prop, lift; rewrite Hf; reflexivity).
  apply bind_throw.
  change (negb (truthy (JArr faces))) with false. cbv iota.
  erewrite bind_return by reflexivity.
  erewrite bind_return by reflexivity.
  erewrite bind_return by reflexivity.
  rewrite Hge. reflexivity.
Qed.

Lemma face_details_absent (faces : JsVal) (format : JsVal) :
  read_prop res "faces" = Return faces ->
  truthy faces = false ->
  face_details cfg srv sessionUuid (JNum n) format l
  = (Throw (McpError NotFound
              (face_not_found (JNum n) sessionUuid (JNum (Finite 0)))),
     GetResult sessionUuid :: l).
Proof.
  intros Hf Ht. unfold face_details.
  erewrite bind_return by (apply logInfo_printable; exact Hpr).
  erewrite bind_return
    by (unfold axios_get_result, bind, emit, answer; rewrite Hres; reflexivity).
  erewrite bind_return by (unfold get_prop, lift; rewrite Hf; reflexivity).
  apply bind_throw. rewrite Ht. reflexivity.
Qed.

End FaceDetails.

(** C6 (the code departs from the claim). Take a face-detail call with a
    session identifier, one that converts to text, and a freshly fetched
    result. For an integer index [i] with [0 <= i < faces.length] the
    handler works on [faces[i]] unchanged: in JSON format it returns that
    face serialised as it is, in text format the lines written for that
    face. A negative index does not pass the validation. For an index at
    or beyond [faces.length], and when [faces] is absent (or otherwise
    falsy), the lookup raises the not-found error that reports the total
    number of faces, 0 when absent; but it raises it inside the [try]
    block, so the handler's own [catch] takes it and what reaches the
    caller is another error, the one that says 'Failed to get face
    details: ' before the message of the first. *)
Theorem C6_face_lookup
    (cfg : Config) (srv : Remote) (props : list (string * JsVal))
    (sessionUuid res : JsVal) (l : Log) :
  lookup "sessionUuid" props = sessionUuid ->
  truthy sessionUuid = true ->
  printable sessionUuid = true ->
  result_reply srv = Responds res ->
  (forall faces i,
      lookup "faceIndex" props = JNum (num_of_nat i) ->
      read_prop res "faces" = Return (JArr faces) ->
      i < List.length faces ->
      handleGetFaceDetails cfg srv (JObj props) l
      = try_catch
          (if is_str (format_of props) "json"
           then ret [Stringify (nth i faces JUndefined)]
           else bind (face_lines cfg (nth i faces JUndefined))
                  (fun body =>
                     ret (face_details_header (JNum (num_of_nat i)) sessionUuid ++ body)))
          (face_details_catch sessionUuid) (GetResult sessionUuid :: l) /\
      (is_str (format_of props) "json" = true ->
       handleGetFaceDetails cfg srv (JObj props) l
       = (Return [Stringify (nth i faces JUndefined)], GetResult sessionUuid :: l))) /\
  (forall n,
      lookup "faceIndex" props = JNum n ->
      num_lt n (Finite 0) = true ->
      handleGetFaceDetails cfg srv (JObj props) l
      = (Throw (McpError InvalidParams
                  [Lit "Missing or invalid sessionUuid or faceIndex parameter"]), l)) /\
  (forall n faces,
      lookup "faceIndex" props = JNum n ->
      num_lt n (Finite 0) = false ->
      read_prop res "faces" = Return (JArr faces) ->
      num_ge n (num_of_nat (List.length faces)) = true ->
      let not_found :=
        McpError NotFound
          (face_not_found (JNum n) sessionUuid (JNum (num_of_nat (List.length faces)))) in
      face_details cfg srv sessionUuid (JNum n) (format_of props) l
      = (Throw not_found, GetResult sessionUuid :: l) /\
      handleGetFaceDetails cfg srv (JObj props) l
      = (Throw (McpError ServerError
                  (Lit "Failed to get face details: " :: error_message not_found)),
         GetResult sessionUuid :: l) /\
      McpError ServerError (Lit "Failed to get face details: " :: error_message not_found)
      <> not_found) /\
  (forall n faces,
      lookup "faceIndex" props = JNum n ->
      num_lt n (Finite 0) = false ->
      read_prop res "faces" = Return faces ->
      truthy faces = false ->
      let not_found :=
        McpError NotFound (face_not_found (JNum n) sessionUuid (JNum (Finite 0))) in
      face_details cfg srv sessionUuid (JNum n) (format_of props) l
      = (Throw not_found, GetResult sessionUuid :: l) /\
      handleGetFaceDetails cfg srv (JObj props) l
      = (Throw (McpError ServerError
                  (Lit "Failed to get face details: " :: error_message not_found)),
         GetResult sessionUuid :: l) /\
      McpError ServerError (Lit "Failed to get face details: " :: error_message not_found)
      <> not_found).
Proof.
  intros Hs Hu Hpr Hres. split; [| split; [| split]].
  - intros faces i Hi Hf Hlt.
    pose proof (below_zero_nat i) as Hz. unfold below_zero in Hz.
    pose proof (handleGetFaceDetails_runs cfg srv props sessionUuid (num_of_nat i) l
                  Hs Hu Hi Hz) as E.
    pose proof (face_details_found cfg srv sessionUuid res l Hres Hpr
                  faces i (format_of props) Hf Hlt) as F.
    assert (handleGetFaceDetails cfg srv (JObj props) l
            = try_catch
                (if is_str (format_of props) "json"
                 then ret [Stringify (nth i faces JUndefined)]
                 else bind (face_lines cfg (nth i faces JUndefined))
                        (fun body =>
                           ret (face_details_header (JNum (num_of_nat i)) sessionUuid
                                ++ body)))
                (face_details_catch sessionUuid) (GetResult sessionUuid :: l)) as G.
    { rewrite E. unfold try_catch. rewrite F. reflexivity. }
    split; [exact G |].
    intros Hj. rewrite G, Hj. reflexivity.
  - intros n Hi Hn. apply face_details_rejected.
    right. right. rewrite Hi. exact Hn.
  - intros n faces Hi Hn Hf Hge not_found.
    pose proof (face_details_beyond cfg srv sessionUuid res n l Hres Hpr faces
                  (format_of props) Hf Hge) as F.
    split; [exact F |]. split; [| discriminate].
    rewrite (handleGetFaceDetails_runs cfg srv props sessionUuid n l Hs Hu Hi Hn).
    erewrite try_catch_throw by exact F.
    reflexivity.
  - intros n faces Hi Hn Hf Ht not_found.
    pose proof (face_details_absent cfg srv sessionUuid res n l Hres Hpr faces
                  (format_of props) Hf Ht) as F.
    split; [exact F |]. split; [| discriminate].
    rewrite (handleGetFaceDetails_runs cfg srv props sessionUuid n l Hs Hu Hi Hn).
    erewrite try_catch_throw by exact F.
    reflexivity.
Qed.

Lemma C6_witness :
  handleGetFaceDetails PROOFLY_CONFIG sample_store
    (face_request (JNum (num_of_nat 0)) (JStr "json")) []
  = (Return [Stringify sample_face], [GetResult (JStr "abc")]) /\
  handleGetFaceDetails PROOFLY_CONFIG sample_store
    (face_request (JNum (num_of_nat 1)) (JStr "json")) []
  = (Throw (McpError ServerError
              [Lit "Failed to get face details: ";
               McpMessage NotFound
                 (face_not_found (JNum (num_of_nat 1)) (JStr "abc") (JNum (num_of_nat 1)))]),
     [GetResult (JStr "abc")]) /\
  handleGetFaceDetails PROOFLY_CONFIG (serving_result sample_store (JObj []))
    (face_request (JNum (num_of_nat 0)) (JStr "json")) []
  = (Throw (McpError ServerError
              [Lit "Failed to get face details: ";
               McpMessage NotFound
                 (face_not_found (JNum (num_of_nat 0)) (JStr "abc") (JNum (Finite 0)))]),
     [GetResult (JStr "abc")]).
Proof.
  split; [| split].
  - destruct (C6_face_lookup PROOFLY_CONFIG sample_store
                [("sessionUuid", JStr "abc"); ("faceIndex", JNum (num_of_nat 0));
                 ("format", JStr "json")]
                (JStr "abc") sample_result [] eq_refl eq_refl eq_refl eq_refl) as (Hin & _).
    destruct (Hin [sample_face] 0 eq_refl eq_refl) as (_ & Hj).
    + simpl. lia.
    + apply Hj. reflexivity.
  - destruct (C6_face_lookup PROOFLY_CONFIG sample_store
                [("sessionUuid", JStr "abc"); ("faceIndex", JNum (num_of_nat 1));
                 ("format", JStr "json")]
                (JStr "abc") sample_result [] eq_refl eq_refl eq_refl eq_refl)
      as (_ & _ & Hout & _).
    destruct (Hout (num_of_nat 1) [sample_face] eq_refl eq_refl eq_refl eq_refl)
      as (_ & He & _).
    exact He.
  - destruct (C6_face_lookup PROOFLY_CONFIG (serving_result sample_store (JObj []))
                [("sessionUuid", JStr "abc"); ("faceIndex", JNum (num_of_nat 0));
                 ("format", JStr "json")]
                (JStr "abc") (JObj []) [] eq_refl eq_refl eq_refl eq_refl)
      as (_ & _ & _ & Habs).
    destruct (Habs (num_of_nat 0) JUndefined eq_refl eq_refl eq_refl eq_refl)
      as (_ & He & _).
    exact He.
Defined.

(** What becomes of the not-found error of the lookup: raised inside the
    [try] block, it reaches the handler's own [catch], which has no
    [response] to look at and throws a server error around its message. *)
Lemma face_not_found_is_rewrapped :
  handleGetFaceDetails PROOFLY_CONFIG sample_store
    (face_request (JNum (num_of_nat 1)) (JStr "json")) []
  = (Throw (McpError ServerError
              [Lit "Failed to get face details: ";
               McpMessage NotFound
                 (face_not_found (JNum (num_of_nat 1)) (JStr "abc") (JNum (num_of_nat 1)))]),
     [GetResult (JStr "abc")]).
Proof. vm_compute. reflexivity. Qed.

(** * Further properties of the code *)

(** ** Splitting *)

Lemma split_on_nonempty (c : ascii) (s : string) : split_on c s <> [].
Proof.
  destruct s as [| a s]; simpl; [discriminate |].
  destruct (Ascii.eqb a c); [discriminate |].
  destruct (split_on c s); discriminate.
Qed.

Lemma split_on_app (c : ascii) (s s' : string) :
  split_on c (s ++ String c s')%string = split_on c s ++ split_on c s'.
Proof.
  induction s as [| a s IH]; simpl.
  - rewrite Ascii.eqb_refl. reflexivity.
  - destruct (Ascii.eqb a c); [rewrite IH; reflexivity |].
    rewrite IH. pose proof (split_on_nonempty c s) as N.
    destruct (split_on c s); [contradiction | reflexivity].
Qed.

Lemma split_on_free (c : ascii) (s : string) :
  free_of c s = true -> split_on c s = [s].
Proof.
  unfold free_of. induction s as [| a s IH]; simpl; [reflexivity |].
  intros H. apply andb_true_iff in H as [Ha Hs].
  apply negb_true_iff in Ha. rewrite Ha, (IH Hs). reflexivity.
Qed.

Lemma free_of_app (c : ascii) (s t : string) :
  free_of c (s ++ t)%string = free_of c s && free_of c t.
Proof.
  unfold free_of. induction s as [| a s IH]; simpl; [reflexivity |].
  rewrite IH, andb_assoc. reflexivity.
Qed.

Lemma last_app_r {A} (l l' : list A) (d : A) : l' <> [] -> last (l ++ l') d = last l' d.
Proof.
  intros N. induction l as [| x l IH]; [reflexivity |].
  simpl. destruct (l ++ l') eqn:E; [| exact IH].
  apply app_eq_nil in E. destruct E. contradiction.
Qed.

(** The text after the last separator. *)
Lemma last_split (c : ascii) (stem tail : string) :
  free_of c tail = true ->
  last (split_on c (stem ++ String c tail)%string) "" = tail.
Proof.
  intros H. rewrite split_on_app, last_app_r by apply split_on_nonempty.
  rewrite (split_on_free _ _ H). reflexivity.
Qed.

Lemma last_in {A} (l : list A) (d : A) : l <> [] -> In (last l d) l.
Proof.
  induction l as [| x l IH]; [contradiction |].
  intros _. destruct l as [| y l]; [left; reflexivity |].
  right. apply IH. discriminate.
Qed.

Lemma hd_in {A} (l : list A) (d : A) : l <> [] -> In (hd d l) l.
Proof. destruct l; [contradiction | left; reflexivity]. Qed.

(** No piece holds the separator, and a piece holds no character the whole
    did not hold. *)
Lemma split_on_pieces (c d : ascii) (s : string) :
  forall p, In p (split_on c s) ->
    free_of c p = true /\ (free_of d s = true -> free_of d p = true).
Proof.
  induction s as [| a s IH]; simpl.
  - intros p [<- | []]. split; reflexivity.
  - destruct (Ascii.eqb a c) eqn:E.
    + intros p [<- | Hp].
      * split; reflexivity.
      * destruct (IH p Hp) as [F G]. split; [exact F |].
        unfold free_of in *. simpl. intros H.
        apply andb_true_iff in H as [_ H]. auto.
    + pose proof (split_on_nonempty c s) as N.
      destruct (split_on c s) as [| h t]; [contradiction |].
      intros p [<- | Hp].
      * destruct (IH h (or_introl eq_refl)) as [F G]. split.
        -- unfold free_of in *. simpl. rewrite E, F. reflexivity.
        -- unfold free_of in *. simpl. intros H.
           apply andb_true_iff in H as [Ha H]. rewrite Ha. auto.
      * destruct (IH p (or_intror Hp)) as [F G]. split; [exact F |].
        unfold free_of in *. simpl. intros H.
        apply andb_true_iff in H as [_ H]. auto.
Qed.

(** ** [getContentTypeFromFilename] *)

Lemma lower_ascii_idem (c : ascii) : lower_ascii (lower_ascii c) = lower_ascii c.
Proof.
  destruct c as [[] [] [] [] [] [] [] []]; vm_compute; reflexivity.
Qed.

Lemma lower_ascii_dot (c : ascii) :
  Ascii.eqb (lower_ascii c) "."%char = Ascii.eqb c "."%char.
Proof.
  destruct c as [[] [] [] [] [] [] [] []]; vm_compute; reflexivity.
Qed.

Lemma toLowerCase_idem (s : string) : toLowerCase (toLowerCase s) = toLowerCase s.
Proof.
  induction s as [| c s IH]; simpl; [reflexivity |].
  rewrite lower_ascii_idem, IH. reflexivity.
Qed.

Lemma toLowerCase_free_of_dot (s : string) :
  free_of "."%char (toLowerCase s) = free_of "."%char s.
Proof.
  unfold free_of. induction s as [| c s IH]; simpl; [reflexivity |].
  rewrite lower_ascii_dot, IH. reflexivity.
Qed.

(** X1. The content type depends on the file name only through the text
    after its last dot, letter case set aside: a stem before the dot
    changes nothing, and a name without any dot is taken whole as the
    extension (the file named [png] is a PNG). *)
Theorem content_type_by_last_extension (stem ext : string) :
  free_of "."%char ext = true ->
  getContentTypeFromFilename (stem ++ String "."%char ext)
  = getContentTypeFromFilename ext /\
  getContentTypeFromFilename (stem ++ String "."%char (toLowerCase ext))
  = getContentTypeFromFilename (stem ++ String "."%char ext).
Proof.
  intros H. unfold getContentTypeFromFilename.
  rewrite !last_split by (rewrite ?toLowerCase_free_of_dot; exact H).
  rewrite (split_on_free _ _ H), toLowerCase_idem. split; reflexivity.
Qed.

Lemma content_type_by_last_extension_witness :
  free_of "."%char "JPG" = true /\
  getContentTypeFromFilename ("holiday.photo" ++ String "."%char "JPG")
  = getContentTypeFromFilename "JPG" /\
  getContentTypeFromFilename ("holiday.photo" ++ String "."%char (toLowerCase "JPG"))
  = getContentTypeFromFilename ("holiday.photo" ++ String "."%char "JPG").
Proof.
  split; [reflexivity |].
  exact (content_type_by_last_extension "holiday.photo" "JPG" eq_refl).
Defined.

(** X2. Whatever the file name, the content type is one of the six image
    types of the table, or 'application/octet-stream', or, for the
    extensions [constructor] and [__proto__], a member every object
    inherits: the fallback leaves no file without a content type. *)
Theorem content_type_range (filename : string) :
  In (getContentTypeFromFilename filename) content_types.
Proof.
  unfold getContentTypeFromFilename, content_types.
  generalize (toLowerCase (last (split_on "."%char filename) "")) as extension.
  intros extension. simpl own_property.
  repeat match goal with
    | |- context [if String.eqb extension ?k then _ else _] =>
        destruct (String.eqb_spec extension k) as [E | ?]; [simpl; tauto |]
    end.
  destruct (String.eqb_spec extension "constructor") as [-> | ?]; [simpl; tauto |].
  destruct (String.eqb_spec extension "__proto__") as [-> | ?]; simpl; tauto.
Qed.

(** ** [originalFilename] *)

(** X3. The file name taken from a URL is never empty and holds neither a
    slash nor a question mark. *)
Theorem originalFilename_clean (imageUrl : string) :
  originalFilename imageUrl <> ""%string /\
  free_of "/"%char (originalFilename imageUrl) = true /\
  free_of "?"%char (originalFilename imageUrl) = true.
Proof.
  unfold originalFilename.
  set (segment := last (split_on "/"%char imageUrl) ""%string).
  set (name := hd ""%string (split_on "?"%char segment)).
  assert (free_of "/"%char segment = true) as Hseg.
  { destruct (split_on_pieces "/"%char "/"%char imageUrl segment) as [F _];
      [apply last_in, split_on_nonempty | exact F]. }
  assert (In name (split_on "?"%char segment)) as Hin
    by apply hd_in, split_on_nonempty.
  destruct (split_on_pieces "?"%char "/"%char segment name Hin) as [Hq Hs].
  destruct (String.eqb_spec name ""%string) as [E | N].
  - split; [discriminate |]. split; reflexivity.
  - split; [exact N |]. split; [apply Hs; exact Hseg | exact Hq].
Qed.

(** X4. The file name is the text between the last slash of the whole
    URL and the first question mark after it, and 'image.jpg' when that
    text is empty; nothing before the last slash matters. (The last slash
    is sought in the query string too, which is why [query] is taken
    without one.) *)
Theorem originalFilename_last_segment (base name query : string) :
  free_of "/"%char name = true ->
  free_of "?"%char name = true ->
  free_of "/"%char query = true ->
  let expected := if String.eqb name "" then "image.jpg"%string else name in
  originalFilename (base ++ String "/"%char (name ++ String "?"%char query)) = expected /\
  originalFilename (base ++ String "/"%char name) = expected.
Proof.
  intros Hn Hq Hy expected. unfold originalFilename. split.
  - rewrite last_split
      by (rewrite free_of_app, Hn; unfold free_of in *; simpl; exact Hy).
    rewrite split_on_app, (split_on_free _ _ Hq). reflexivity.
  - rewrite last_split by exact Hn.
    rewrite (split_on_free _ _ Hq). reflexivity.
Qed.

Lemma originalFilename_last_segment_witness :
  originalFilename ("https://example.com/pics" ++ String "/"%char
                      ("a.png" ++ String "?"%char "x=1")) = "a.png"%string /\
  originalFilename ("https://example.com/pics" ++ String "/"%char "") = "image.jpg"%string.
Proof.
  split.
  - apply (originalFilename_last_segment "https://example.com/pics" "a.png" "x=1");
      reflexivity.
  - apply (originalFilename_last_segment "https://example.com/pics" "" "");
      reflexivity.
Defined.

(** ** The address of a face image *)

Lemma starts_with_app (pat rest : string) : starts_with pat (pat ++ rest) = true.
Proof.
  induction pat as [| p pat IH]; simpl; [reflexivity |].
  rewrite Ascii.eqb_refl. exact IH.
Qed.

Lemma skip_app (pat rest : string) : skip (String.length pat) (pat ++ rest) = rest.
Proof. induction pat as [| p pat IH]; simpl; [destruct rest; reflexivity | exact IH]. Qed.

Lemma includes_here (pat s : string) : starts_with pat s = true -> includes pat s = true.
Proof. intros H. destruct s; simpl; rewrite H; reflexivity. Qed.

Lemma includes_app (pat s rest : string) : includes pat (s ++ pat ++ rest) = true.
Proof.
  induction s as [| a s IH].
  - change (("" ++ pat ++ rest)%string) with ((pat ++ rest)%string).
    apply includes_here, starts_with_app.
  - change ((String a s ++ pat ++ rest)%string) with (String a (s ++ pat ++ rest)).
    cbn [includes]. rewrite IH. apply orb_true_r.
Qed.

(** Before the first occurrence nothing is replaced. *)
Lemma replace_first_at (stem rest : string) :
  includes "ai./" (stem ++ "ai")%string = false ->
  replace_first "ai./" "ai/" (stem ++ "ai./" ++ rest)%string
  = (stem ++ "ai/" ++ rest)%string.
Proof.
  induction stem as [| a stem IH]; intros H.
  - reflexivity.
  - change ((String a stem ++ "ai")%string) with (String a (stem ++ "ai")) in H.
    change ((String a stem ++ "ai./" ++ rest)%string)
      with (String a (stem ++ "ai./" ++ rest)).
    cbn [includes] in H. apply orb_false_iff in H as [Hs Hi].
    cbn [replace_first].
    replace (starts_with "ai./" (String a (stem ++ "ai./" ++ rest))) with false.
    + rewrite (IH Hi). reflexivity.
    + symmetry.
      destruct stem as [| b [| c [| d stem]]]; simpl in *;
        repeat match goal with
          | |- context [Ascii.eqb ?x ?y] =>
              destruct (Ascii.eqb_spec x y); try subst; simpl in *; try discriminate
          end; try reflexivity; try congruence.
Qed.

(** X5. The slip of the service, a face path that starts with './', is
    mended: joined to a base address that ends in 'ai' and holds no 'ai./'
    of its own (as 'https://api.proofly.ai' does), the path './rest' gives
    the base, one slash, and the rest. Only this first occurrence is
    touched, whatever [rest] holds. *)
Theorem faceImageUrl_mends_dot_slash (stem rest : string) :
  includes "ai./" (stem ++ "ai")%string = false ->
  faceImageUrl (stem ++ "ai") ("./" ++ rest) = (stem ++ "ai/" ++ rest)%string.
Proof.
  intros H. unfold faceImageUrl.
  assert (((stem ++ "ai") ++ "./" ++ rest)%string = (stem ++ "ai./" ++ rest)%string) as ->.
  { clear H. induction stem as [| a stem IH]; [reflexivity |].
    change (String a ((stem ++ "ai") ++ "./" ++ rest)%string
            = String a (stem ++ "ai./" ++ rest)%string).
    rewrite IH. reflexivity. }
  rewrite includes_app. apply replace_first_at. exact H.
Qed.

Lemma faceImageUrl_mends_dot_slash_witness :
  faceImageUrl (baseUrl PROOFLY_CONFIG) "./faces/abc/0.jpg"
  = "https://api.proofly.ai/faces/abc/0.jpg"%string.
Proof.
  apply (faceImageUrl_mends_dot_slash "https://api.proofly." "faces/abc/0.jpg").
  reflexivity.
Defined.

(** ** [getPackageVersion] *)

(** X6. Whatever reading and parsing [package.json] gives, also when
    either throws and when the file holds no [version] or a falsy one, the
    version is a truthy value: the one of the file, or 'unknown'. *)
Theorem getPackageVersion_never_empty (package_json : option JsVal) :
  truthy (getPackageVersion package_json) = true /\
  (getPackageVersion package_json = JStr "unknown" \/
   exists packageJson,
     package_json = Some packageJson /\
     read_prop packageJson "version" = Return (getPackageVersion package_json)).
Proof.
  unfold getPackageVersion.
  destruct package_json as [packageJson |]; [| split; [reflexivity | left; reflexivity]].
  destruct (read_prop packageJson "version") as [version | | |] eqn:E;
    try (split; [reflexivity | left; reflexivity]).
  unfold js_or. destruct (truthy version) eqn:T.
  - split; [exact T | right]. exists packageJson. split; [reflexivity | exact E].
  - split; [reflexivity | left; reflexivity].
Qed.

(** ** The dispatcher and the errors of the handlers *)

Lemma bind_throws {A B} (m : M A) (k : A -> M B) (l l' : Log) (e : JsError) :
  bind m k l = (Throw e, l') ->
  m l = (Throw e, l') \/ exists a l1, m l = (Return a, l1) /\ k a l1 = (Throw e, l').
Proof.
  unfold bind. destruct (m l) as [[a | e0 | w |] l1]; intros H.
  - right. eauto.
  - left. injection H as -> ->. reflexivity.
  - discriminate.
  - discriminate.
Qed.

Lemma try_catch_throws {A} (m : M A) (h : JsError -> M A) (l l' : Log) (e : JsError) :
  try_catch m h l = (Throw e, l') ->
  exists e0 l0, m l = (Throw e0, l0) /\ h e0 l0 = (Throw e, l').
Proof.
  unfold try_catch. destruct (m l) as [[a | e0 | w |] l1]; intros H;
    try discriminate.
  eauto.
Qed.

Lemma get_prop_throws (v : JsVal) (k : string) (l l' : Log) (e : JsError) :
  is_nullish v = false -> get_prop v k l <> (Throw e, l').
Proof.
  unfold get_prop, lift, read_prop.
  destruct v; try discriminate; intros _;
    try (destruct (String.eqb k "length")); discriminate.
Qed.

Lemma get_prop_default_throws (v dflt : JsVal) (k : string) (l l' : Log) (e : JsError) :
  is_nullish v = false -> get_prop_default v k dflt l <> (Throw e, l').
Proof.
  intros N H. unfold get_prop_default in H.
  apply bind_throws in H as [H | (a & l1 & _ & H)].
  - exact (get_prop_throws _ _ _ _ _ N H).
  - discriminate.
Qed.

Lemma get_prop_nullish (v : JsVal) (k : string) (l : Log) :
  is_nullish v = true ->
  get_prop v k l = (Throw (TypeError ("Cannot read property " ++ k)), l).
Proof. destruct v; try discriminate; reflexivity. Qed.

Ltac skip_props H N :=
  repeat (apply bind_throws in H as [H | (? & ? & _ & H)];
          [exfalso;
           first [exact (get_prop_throws _ _ _ _ _ N H)
                 | exact (get_prop_default_throws _ _ _ _ _ _ N H)] |]).

Section HandlerErrors.

Variable cfg : Config.
Variable srv : Remote.
Variable params : JsVal.
Variable l l' : Log.
Variable e : JsError.

Hypothesis N : is_nullish params = false.

Ltac by_handler :=
  eexists; eexists; eexists; split; [reflexivity | simpl; tauto].

Lemma handleAnalyzeImage_errors :
  handleAnalyzeImage cfg srv params l = (Throw e, l') -> from_handler e.
Proof.
  intros H. unfold handleAnalyzeImage in H. skip_props H N.
  match type of H with (if ?c then _ else _) _ = _ => destruct c end.
  - injection H as <- _. by_handler.
  - apply try_catch_throws in H as (e0 & l0 & _ & H).
    injection H as <- _. by_handler.
Qed.

Lemma handleAnalyzeImageUrl_errors :
  handleAnalyzeImageUrl cfg srv params l = (Throw e, l') -> from_handler e.
Proof.
  intros H. unfold handleAnalyzeImageUrl in H. skip_props H N.
  match type of H with (if ?c then _ else _) _ = _ => destruct c end.
  - injection H as <- _. by_handler.
  - apply try_catch_throws in H as (e0 & l0 & _ & H).
    injection H as <- _. by_handler.
Qed.

Lemma handleCheckSessionStatus_errors :
  handleCheckSessionStatus srv params l = (Throw e, l') -> from_handler e.
Proof.
  intros H. unfold handleCheckSessionStatus in H. skip_props H N.
  match type of H with (if ?c then _ else _) _ = _ => destruct c end.
  - injection H as <- _. by_handler.
  - apply try_catch_throws in H as (e0 & l0 & _ & H).
    destruct (is_http_404 e0); injection H as <- _; by_handler.
Qed.

Lemma handleGetFaceDetails_errors :
  handleGetFaceDetails cfg srv params l = (Throw e, l') -> from_handler e.
Proof.
  intros H. unfold handleGetFaceDetails in H. skip_props H N.
  match type of H with (if ?c then _ else _) _ = _ => destruct c end.
  - injection H as <- _. by_handler.
  - apply try_catch_throws in H as (e0 & l0 & _ & H).
    unfold face_details_catch in H.
    destruct (is_http_404 e0); injection H as <- _; by_handler.
Qed.

End HandlerErrors.

Lemma handlers_on_nullish (cfg : Config) (srv : Remote) (args : JsVal) (l : Log) :
  is_nullish args = true ->
  (exists what, handleAnalyzeImage cfg srv args l = (Throw (TypeError what), l)) /\
  (exists what, handleAnalyzeImageUrl cfg srv args l = (Throw (TypeError what), l)) /\
  (exists what, handleCheckSessionStatus srv args l = (Throw (TypeError what), l)) /\
  (exists what, handleGetFaceDetails cfg srv args l = (Throw (TypeError what), l)).
Proof.
  intros N. destruct args; try discriminate; repeat split; eexists; reflexivity.
Qed.

Lemma not_a_tool (name : JsVal) :
  ~ In name tool_names ->
  is_str name "analyze-image" = false /\ is_str name "analyze" = false /\
  is_str name "check-session-status" = false /\ is_str name "get-face-details" = false.
Proof.
  intros H. repeat split;
    match goal with
    | |- is_str name ?k = false =>
        destruct (is_str name k) eqn:E; [| reflexivity];
        apply is_str_eq in E; subst; exfalso; apply H; simpl; tauto
    end.
Qed.

(** X7. The errors that leave the dispatcher. For a tool name that
    converts to text, as the string of a request does, every one of them
    is an [McpError]: it is the dispatcher's own, the one that starts
    'Failed to execute tool ', only when a listed tool was called with
    [undefined] or [null] in place of its arguments, and it is the one that
    starts 'Unknown tool: ' only when the name is not a listed tool, in
    which case no network call was made. A name that does not convert
    makes line 239 throw, before the [try]: that TypeError leaves the
    dispatcher as it is. *)
Theorem callTool_errors
    (cfg : Config) (srv : Remote) (name args : JsVal) (l l' : Log) (e : JsError) :
  callTool cfg srv name args l = (Throw e, l') ->
  (printable name = false /\ e = cannot_convert /\ l' = l) \/
  (printable name = true /\
   exists code msg,
     e = McpError code msg /\
     (starts_as msg "Failed to execute tool " ->
      is_nullish args = true /\ In name tool_names) /\
     (starts_as msg "Unknown tool: " -> ~ In name tool_names /\ l' = l)).
Proof.
  intros H. unfold callTool in H.
  destruct (printable name) eqn:Hn.
  2: { left. rewrite (bind_throw _ _ _ _ _ (logInfo_unprintable name l Hn)) in H.
       injection H as <- <-. auto. }
  right. split; [reflexivity |].
  rewrite (bind_return _ _ _ _ _ (logInfo_printable name l Hn)) in H.
  apply try_catch_throws in H as (e0 & l0 & Hin & Hout).
  assert ((is_nullish args = true /\ In name tool_names /\ is_mcp_error e0 = false)
          \/ from_handler e0
          \/ (e0 = McpError InvalidTool [Lit "Unknown tool: "; Interp name]
              /\ ~ In name tool_names /\ l0 = l)) as Cases.
  { destruct (is_nullish args) eqn:N.
    - destruct (handlers_on_nullish cfg srv args l N)
        as ((w1 & H1) & (w2 & H2) & (w3 & H3) & (w4 & H4)).
      repeat match type of Hin with
        | (if is_str name ?k then _ else _) _ = _ =>
            destruct (is_str name k) eqn:?E
        end;
        try (rewrite ?H1, ?H2, ?H3, ?H4 in Hin; injection Hin as <- <-;
             left; repeat split; try reflexivity;
             match goal with
             | E : is_str name _ = true |- _ =>
                 apply is_str_eq in E; subst; simpl; tauto
             end).
      right. right. injection Hin as <- <-. repeat split.
      intros [<- | [<- | [<- | [<- | []]]]]; discriminate.
    - repeat match type of Hin with
        | (if is_str name ?k then _ else _) _ = _ =>
            destruct (is_str name k) eqn:?E
        end.
      + right. left. exact (handleAnalyzeImage_errors cfg srv args l l0 e0 N Hin).
      + right. left. exact (handleAnalyzeImageUrl_errors cfg srv args l l0 e0 N Hin).
      + right. left. exact (handleCheckSessionStatus_errors srv args l l0 e0 N Hin).
      + right. left. exact (handleGetFaceDetails_errors cfg srv args l l0 e0 N Hin).
      + right. right. injection Hin as <- <-. repeat split.
        intros [<- | [<- | [<- | [<- | []]]]]; discriminate. }
  destruct Cases as [(N & T & Hm) | [(c & m & rest & -> & Hc) | (-> & T & ->)]].
  - rewrite Hm in Hout. injection Hout as <- _.
    eexists. eexists. split; [reflexivity |].
    split; [auto |]. intros [rest Hr]. discriminate.
  - simpl in Hout. injection Hout as <- _.
    exists c, (Lit m :: rest). split; [reflexivity |].
    split; intros [rest' Hr]; injection Hr as -> _; exfalso; simpl in Hc;
      repeat (destruct Hc as [Hc | Hc]; [discriminate |]); exact Hc.
  - simpl in Hout. injection Hout as <- <-.
    eexists. eexists. split; [reflexivity |].
    split; [| auto]. intros [rest Hr]. discriminate.
Qed.

Lemma callTool_errors_witness :
  callTool PROOFLY_CONFIG sample_store (JStr "analyse") JUndefined []
  = (Throw (McpError InvalidTool [Lit "Unknown tool: "; Interp (JStr "analyse")]), []) /\
  ~ In (JStr "analyse") tool_names.
Proof.
  split; [reflexivity |].
  destruct (callTool_errors PROOFLY_CONFIG sample_store (JStr "analyse") JUndefined [] []
              (McpError InvalidTool [Lit "Unknown tool: "; Interp (JStr "analyse")])
              eq_refl)
    as [(H & _) | (_ & code & msg & E & _ & H)]; [discriminate |].
  injection E as _ <-.
  apply H. eexists. reflexivity.
Defined.

(** X8. A name that is not one of the listed tools, and that converts to
    text, is answered with the error that quotes it, 'Unknown tool: ',
    without any network call; this covers a name that is a number or a
    boolean, not the object that fails to convert. *)
Theorem callTool_unknown_tool
    (cfg : Config) (srv : Remote) (name args : JsVal) (l : Log) :
  printable name = true ->
  ~ In name tool_names ->
  callTool cfg srv name args l
  = (Throw (McpError InvalidTool [Lit "Unknown tool: "; Interp name]), l).
Proof.
  intros Hn H. destruct (not_a_tool name H) as (E1 & E2 & E3 & E4).
  unfold callTool.
  erewrite bind_return by (apply logInfo_printable; exact Hn).
  rewrite E1, E2, E3, E4. reflexivity.
Qed.

Lemma callTool_unknown_tool_witness :
  callTool PROOFLY_CONFIG sample_store (JStr "Analyze") (JObj []) []
  = (Throw (McpError InvalidTool [Lit "Unknown tool: "; Interp (JStr "Analyze")]), []).
Proof.
  apply callTool_unknown_tool; [reflexivity |].
  intros [H | [H | [H | [H | []]]]]; discriminate.
Defined.

Section MissingParameter.

Variable cfg : Config.
Variable srv : Remote.
Variable props : list (string * JsVal).
Variable l : Log.

Lemma analyze_image_needs_image :
  lookup "imageBase64" props = JUndefined ->
  handleAnalyzeImage cfg srv (JObj props) l
  = (Throw (McpError InvalidParams [Lit "Missing imageBase64 or filename parameter"]), l).
Proof.
  intros Hm. unfold handleAnalyzeImage.
  erewrite bind_return by apply get_prop_obj.
  erewrite bind_return by apply get_prop_obj.
  erewrite bind_return by apply get_prop_default_obj.
  rewrite Hm. reflexivity.
Qed.

Lemma analyze_image_needs_filename :
  lookup "filename" props = JUndefined ->
  handleAnalyzeImage cfg srv (JObj props) l
  = (Throw (McpError InvalidParams [Lit "Missing imageBase64 or filename parameter"]), l).
Proof.
  intros Hm. unfold handleAnalyzeImage.
  erewrite bind_return by apply get_prop_obj.
  erewrite bind_return by apply get_prop_obj.
  erewrite bind_return by apply get_prop_default_obj.
  rewrite Hm. change (negb (truthy JUndefined)) with true.
  rewrite orb_true_r. reflexivity.
Qed.

Lemma analyze_needs_url :
  lookup "imageUrl" props = JUndefined ->
  handleAnalyzeImageUrl cfg srv (JObj props) l
  = (Throw (McpError InvalidParams [Lit "Missing imageUrl parameter"]), l).
Proof.
  intros Hm. unfold handleAnalyzeImageUrl.
  erewrite bind_return by apply get_prop_obj.
  erewrite bind_return by apply get_prop_default_obj.
  rewrite Hm. reflexivity.
Qed.

Lemma status_needs_session :
  lookup "sessionUuid" props = JUndefined ->
  handleCheckSessionStatus srv (JObj props) l
  = (Throw (McpError InvalidParams [Lit "Missing sessionUuid parameter"]), l).
Proof.
  intros Hm. unfold handleCheckSessionStatus.
  erewrite bind_return by apply get_prop_obj.
  erewrite bind_return by apply get_prop_default_obj.
  rewrite Hm. reflexivity.
Qed.

End MissingParameter.

(** X9. The handlers enforce the [required] lists of the tool schemas:
    for every listed tool and every parameter it requires, a call whose
    arguments object lacks that parameter fails with an [InvalidParams]
    error through the dispatcher, and no network call is made. *)
Theorem required_parameters_enforced
    (cfg : Config) (srv : Remote) (t : Tool) (k : string)
    (props : list (string * JsVal)) (l : Log) :
  In t tools ->
  In k (tool_required t) ->
  lookup k props = JUndefined ->
  exists msg,
    callTool cfg srv (JStr (tool_name t)) (JObj props) l
    = (Throw (McpError InvalidParams msg), l).
Proof.
  intros Ht Hk Hm. unfold callTool.
  destruct Ht as [<- | [<- | [<- | [<- | []]]]]; simpl in Hk;
    repeat match type of Hk with
      | _ \/ _ => destruct Hk as [<- | Hk]
      | False => contradiction
      end;
    eexists;
    (erewrite bind_return by (apply logInfo_printable; reflexivity)).
  - erewrite try_catch_throw by exact (analyze_image_needs_image cfg srv props l Hm).
    reflexivity.
  - erewrite try_catch_throw by exact (analyze_image_needs_filename cfg srv props l Hm).
    reflexivity.
  - erewrite try_catch_throw by exact (analyze_needs_url cfg srv props l Hm).
    reflexivity.
  - erewrite try_catch_throw by exact (status_needs_session srv props l Hm).
    reflexivity.
  - erewrite try_catch_throw
      by exact (face_details_rejected cfg srv props l
                  (or_introl (f_equal truthy Hm))).
    reflexivity.
  - erewrite try_catch_throw
      by exact (face_details_rejected cfg srv props l
                  (or_intror (or_introl (f_equal is_number Hm)))).
    reflexivity.
Qed.

Lemma required_parameters_enforced_witness :
  exists msg,
    callTool PROOFLY_CONFIG sample_store (JStr "get-face-details")
      (JObj [("sessionUuid", JStr "abc")]) []
    = (Throw (McpError InvalidParams msg), []).
Proof.
  apply (required_parameters_enforced PROOFLY_CONFIG sample_store
           {| tool_name := "get-face-details";
              tool_properties := [("sessionUuid", "string"); ("faceIndex", "number");
                                  ("format", "string")];
              tool_required := ["sessionUuid"; "faceIndex"] |}
           "faceIndex" [("sessionUuid", JStr "abc")] []).
  - simpl. tauto.
  - simpl. tauto.
  - reflexivity.
Defined.

(** ** [handleCheckSessionStatus] *)

Lemma settles_ret {A} (a : A) : settles (ret a).
Proof. intros l. eexists. repeat split; discriminate. Qed.

Lemma settles_throw {A} (e : JsError) : settles (@throw A e).
Proof. intros l. eexists. repeat split; discriminate. Qed.

Lemma settles_bind {A B} (m : M A) (k : A -> M B) :
  settles m -> (forall a, settles (k a)) -> settles (bind m k).
Proof.
  intros Hm Hk l. unfold bind.
  destruct (Hm l) as (o & E & Hs & Hf). rewrite E.
  destruct o as [a | e | why |].
  - apply Hk.
  - eexists. repeat split; discriminate.
  - exfalso. exact (Hs why eq_refl).
  - exfalso. exact (Hf eq_refl).
Qed.

Lemma settles_interp (v : JsVal) : settles (interp v).
Proof.
  intros l. unfold interp. destruct (printable v); eexists; repeat split; discriminate.
Qed.

(** Reading a property other than [length] ends. *)
Lemma settles_get_prop (v : JsVal) (k : string) :
  String.eqb k "length" = false -> settles (get_prop v k).
Proof.
  intros Hk l. unfold get_prop, lift, read_prop. rewrite Hk.
  destruct v; eexists; repeat split; discriminate.
Qed.

Ltac settles_steps :=
  repeat first
    [ apply settles_bind; [| intros ?]
    | apply settles_ret
    | apply settles_throw
    | apply settles_interp
    | apply settles_get_prop; reflexivity
    | match goal with
      | |- settles (if ?c then _ else _) => destruct c
      end ].

Lemma handleCheckSessionStatus_runs
    (srv : Remote) (props : list (string * JsVal)) (l : Log) :
  truthy (lookup "sessionUuid" props) = true ->
  printable (lookup "sessionUuid" props) = true ->
  handleCheckSessionStatus srv (JObj props) l
  = match status_reply srv (status_queries l) with
    | Rejects c m =>
        (Throw (if is_http_404 (AxiosError c m)
                then session_not_found (lookup "sessionUuid" props)
                else McpError ServerError (Lit "Failed to check session status: " :: m)),
         GetStatus (lookup "sessionUuid" props) :: l)
    | Responds statusData =>
        try_catch
          (if is_str (format_of props) "json" then ret [Stringify statusData]
           else
             st <- get_prop statusData "status" ;;
             state <- interp (js_or st (JStr "N/A")) ;;
             message <- get_prop statusData "message" ;;
             note <- (if truthy message
                      then m <- interp message ;; ret [Lit "* Message: "; m; NL]
                      else ret []) ;;
             result <- get_prop statusData "result" ;;
             ret ([Lit "**Session Status for "; Interp (lookup "sessionUuid" props);
                   Lit ":**"; NL;
                   Lit "* Status: "; state; NL]
                  ++ note
                  ++ (if truthy result then [Lit "* Result available: Yes"; NL] else []))%list)
          (fun error =>
             if is_http_404 error
             then throw (session_not_found (lookup "sessionUuid" props))
             else throw (McpError ServerError
                           (Lit "Failed to check session status: " :: error_message error)))
          (GetStatus (lookup "sessionUuid" props) :: l)
    end.
Proof.
  intros Hu Hn. unfold handleCheckSessionStatus.
  erewrite bind_return by apply get_prop_obj.
  erewrite bind_return by apply get_prop_default_obj.
  rewrite Hu. change (negb true) with false. cbv iota.
  unfold try_catch.
  rewrite (bind_return _ _ _ _ _ (logInfo_printable _ l Hn)).
  unfold axios_get_status. unfold bind at 1 3. unfold bind at 1 2.
  unfold emit, answer.
  destruct (status_reply srv (status_queries l)) as [data | c m].
  - reflexivity.
  - unfold throw. destruct (is_http_404 (AxiosError c m)); reflexivity.
Qed.

(** An identifier that cannot be converted stops the call at line 467,
    inside the [try] and before the request. *)
Lemma handleCheckSessionStatus_unnamed
    (srv : Remote) (props : list (string * JsVal)) (l : Log) :
  truthy (lookup "sessionUuid" props) = true ->
  printable (lookup "sessionUuid" props) = false ->
  handleCheckSessionStatus srv (JObj props) l
  = (Throw (McpError ServerError
              (Lit "Failed to check session status: " :: error_message cannot_convert)),
     l).
Proof.
  intros Hu Hn. unfold handleCheckSessionStatus.
  erewrite bind_return by apply get_prop_obj.
  erewrite bind_return by apply get_prop_default_obj.
  rewrite Hu. change (negb true) with false. cbv iota.
  erewrite try_catch_throw by (apply bind_throw; apply logInfo_unprintable; exact Hn).
  reflexivity.
Qed.

(** X10. A status call with a session identifier that converts to text,
    as a string does, makes exactly one request, the status query for that
    identifier: it never sleeps, polls or fetches the result, whatever
    status comes back. The call always ends, with a text or with an
    [McpError] under the code the names [NotFound] and [ServerError] stand
    for. With an identifier that does not convert, the call makes no
    request at all and ends with that error. *)
Theorem check_session_status_single_query
    (srv : Remote) (props : list (string * JsVal)) (l : Log) :
  truthy (lookup "sessionUuid" props) = true ->
  exists o,
    handleCheckSessionStatus srv (JObj props) l
    = (o, if printable (lookup "sessionUuid" props)
          then GetStatus (lookup "sessionUuid" props) :: l else l) /\
    ((exists t, o = Return t /\ printable (lookup "sessionUuid" props) = true) \/
     (exists code msg, o = Throw (McpError code msg) /\ In code [NotFound; ServerError])).
Proof.
  intros Hu. destruct (printable (lookup "sessionUuid" props)) eqn:Hn.
  2: { rewrite handleCheckSessionStatus_unnamed by assumption.
       eexists. split; [reflexivity |]. right.
       eexists. eexists. split; [reflexivity | simpl; auto]. }
  rewrite handleCheckSessionStatus_runs by assumption.
  destruct (status_reply srv (status_queries l)) as [data | c m].
  - unfold try_catch.
    match goal with
    | |- context [?body (GetStatus ?u :: l)] =>
        assert (settles body) as Hb
    end.
    { settles_steps. }
    destruct (Hb (GetStatus (lookup "sessionUuid" props) :: l)) as (o & E & Hs & Hf).
    rewrite E. destruct o as [t | e | why |].
    + eexists. split; [reflexivity |]. left. eexists. split; reflexivity.
    + destruct (is_http_404 e); eexists; (split; [reflexivity |]); right;
        eexists; eexists; (split; [reflexivity | simpl; auto]).
    + exfalso. exact (Hs why eq_refl).
    + exfalso. exact (Hf eq_refl).
  - eexists. split; [reflexivity |]. right.
    destruct (is_http_404 (AxiosError c m));
      eexists; eexists; (split; [reflexivity | simpl; auto]).
Qed.

Lemma check_session_status_single_query_witness :
  exists o,
    handleCheckSessionStatus (reporting "processing") (status_request (JStr "text")) []
    = (o, [GetStatus (JStr "abc")]) /\
    ((exists t, o = Return t /\ printable (JStr "abc") = true) \/
     (exists code msg, o = Throw (McpError code msg) /\ In code [NotFound; ServerError])).
Proof.
  apply (check_session_status_single_query (reporting "processing")
           [("sessionUuid", JStr "abc"); ("format", JStr "text")] []).
  reflexivity.
Defined.

(** X11. How a status call fails, for a session identifier that converts
    to text. A rejected query with the HTTP status 404 gives the error
    that names the session and says it was not found; any other
    rejection, one without a response included, gives the error that
    starts 'Failed to check session status: ' and carries the message of
    the rejection. An answer whose body is [null] or [undefined] is
    returned as it is in JSON format and fails in text format: the
    TypeError of reading its [status] is caught by the handler's own catch
    block and becomes that second error. An identifier that does not
    convert ends the call in the same way, before any request. *)
Theorem check_session_status_failures
    (srv : Remote) (props : list (string * JsVal)) (l : Log) :
  truthy (lookup "sessionUuid" props) = true ->
  (printable (lookup "sessionUuid" props) = true ->
   forall c m,
      status_reply srv (status_queries l) = Rejects c m ->
      handleCheckSessionStatus srv (JObj props) l
      = (Throw (if is_http_404 (AxiosError c m)
                then session_not_found (lookup "sessionUuid" props)
                else McpError ServerError (Lit "Failed to check session status: " :: m)),
         GetStatus (lookup "sessionUuid" props) :: l)) /\
  (printable (lookup "sessionUuid" props) = true ->
   forall data,
      status_reply srv (status_queries l) = Responds data ->
      is_nullish data = true ->
      handleCheckSessionStatus srv (JObj props) l
      = (if is_str (format_of props) "json" then Return [Stringify data]
         else Throw (McpError ServerError
                       [Lit "Failed to check session status: ";
                        RuntimeText "Cannot read property status"]),
         GetStatus (lookup "sessionUuid" props) :: l)) /\
  (printable (lookup "sessionUuid" props) = false ->
   handleCheckSessionStatus srv (JObj props) l
   = (Throw (McpError ServerError
               [Lit "Failed to check session status: ";
                RuntimeText "Cannot convert object to primitive value"]),
      l)).
Proof.
  intros Hu. split; [| split].
  - intros Hn c m Hr. rewrite handleCheckSessionStatus_runs by assumption.
    rewrite Hr. reflexivity.
  - intros Hn data Hr Hd. rewrite handleCheckSessionStatus_runs by assumption.
    rewrite Hr. unfold try_catch.
    destruct (is_str (format_of props) "json"); [reflexivity |].
    destruct data; try discriminate; reflexivity.
  - intros Hn. apply handleCheckSessionStatus_unnamed; assumption.
Qed.

Lemma check_session_status_failures_witness :
  handleCheckSessionStatus unknown_session (status_request (JStr "json")) []
  = (Throw (session_not_found (JStr "abc")), [GetStatus (JStr "abc")]) /\
  handleCheckSessionStatus sample_store (status_request (JStr "json")) []
  = (Throw (McpError ServerError
              [Lit "Failed to check session status: "; Lit "Network Error"]),
     [GetStatus (JStr "abc")]).
Proof.
  split.
  - destruct (check_session_status_failures unknown_session
                [("sessionUuid", JStr "abc"); ("format", JStr "json")] [] eq_refl)
      as [H _].
    exact (H eq_refl (Some 404) [Lit "Request failed with status code 404"] eq_refl).
  - destruct (check_session_status_failures sample_store
                [("sessionUuid", JStr "abc"); ("format", JStr "json")] [] eq_refl)
      as [H _].
    exact (H eq_refl None [Lit "Network Error"] eq_refl).
Defined.

(** ** Where the errors of [handleGetFaceDetails] come from *)

(** What the code after a request throws by itself is never an HTTP 404. *)
Lemma get_prop_local (v : JsVal) (k : string) (l l' : Log) (e : JsError) :
  get_prop v k l = (Throw e, l') -> is_http_404 e = false.
Proof.
  unfold get_prop, lift, read_prop.
  destruct v; try destruct (String.eqb k "length"); intros H;
    try discriminate; injection H as <- _; reflexivity.
Qed.

Lemma interp_local (v : JsVal) (l l' : Log) (e : JsError) :
  interp v l = (Throw e, l') -> is_http_404 e = false.
Proof.
  unfold interp. destruct (printable v); intros H; [discriminate |].
  injection H as <- _. reflexivity.
Qed.

Lemma percent_local (v : JsVal) (l l' : Log) (e : JsError) :
  percent v l = (Throw e, l') -> is_http_404 e = false.
Proof.
  unfold percent. destruct (printable v); intros H; [discriminate |].
  injection H as <- _. reflexivity.
Qed.

Lemma percent_rest_local (v : JsVal) (l l' : Log) (e : JsError) :
  percent_rest v l = (Throw e, l') -> is_http_404 e = false.
Proof.
  unfold percent_rest. destruct (printable v); intros H; [discriminate |].
  injection H as <- _. reflexivity.
Qed.

Lemma face_image_url_local (base : string) (v : JsVal) (l l' : Log) (e : JsError) :
  face_image_url base v l = (Throw e, l') -> is_http_404 e = false.
Proof.
  unfold face_image_url. destruct (printable v); intros H; [discriminate |].
  injection H as <- _. reflexivity.
Qed.

Lemma logInfo_local (v : JsVal) (l l' : Log) (e : JsError) :
  logInfo v l = (Throw e, l') -> is_http_404 e = false.
Proof.
  unfold logInfo. intros H.
  apply bind_throws in H as [H | (c & l1 & _ & H)];
    [exact (interp_local _ _ _ _ H) | discriminate].
Qed.

Lemma number_of_throws (v : JsVal) (l l' : Log) (e : JsError) :
  number_of v l <> (Throw e, l').
Proof. unfold number_of. destruct (to_number v); discriminate. Qed.

Lemma getVerdict_throws (v : JsVal) (e : JsError) : getVerdict v <> Throw e.
Proof.
  unfold getVerdict, to_number.
  destruct v; try discriminate;
    match goal with
    | |- (if ?c then _ else _) <> _ => destruct c; [discriminate |]
    end;
    match goal with
    | |- (if ?c then _ else _) <> _ => destruct c; discriminate
    end.
Qed.

Lemma model_lines_local (face : JsVal) (numbers : list string) :
  forall l l' e, model_lines face numbers l = (Throw e, l') -> is_http_404 e = false.
Proof.
  induction numbers as [| i rest IH]; intros l l' e H; simpl in H; [discriminate |].
  apply bind_throws in H as [H | (v & l1 & _ & H)];
    [exact (get_prop_local _ _ _ _ _ H) |].
  apply bind_throws in H as [H | (line & l2 & _ & H)].
  { destruct (is_undefined v); [discriminate |].
    apply bind_throws in H as [H | (p & l3 & _ & H)];
      [exact (percent_local _ _ _ _ H) | discriminate]. }
  apply bind_throws in H as [H | (more & l3 & _ & H)];
    [exact (IH _ _ _ H) | discriminate].
Qed.

Lemma face_lines_local (cfg : Config) (face : JsVal) (l l' : Log) (e : JsError) :
  face_lines cfg face l = (Throw e, l') -> is_http_404 e = false.
Proof.
  intros H. unfold face_lines in H.
  apply bind_throws in H as [H | (ansamble & l1 & _ & H)];
    [exact (get_prop_local _ _ _ _ _ H) |].
  apply bind_throws in H as [H | (faceVerdict & l2 & _ & H)].
  { unfold lift in H. injection H as H _. exfalso. exact (getVerdict_throws _ _ H). }
  apply bind_throws in H as [H | (probability & l3 & _ & H)].
  { destruct (is_undefined ansamble || is_null ansamble); [discriminate |].
    apply bind_throws in H as [H | (real & l4 & _ & H)];
      [exact (percent_local _ _ _ _ H) |].
    apply bind_throws in H as [H | (fake & l5 & _ & H)];
      [exact (percent_rest_local _ _ _ _ H) | discriminate]. }
  apply bind_throws in H as [H | (model1 & l4 & _ & H)];
    [exact (get_prop_local _ _ _ _ _ H) |].
  apply bind_throws in H as [H | (models & l5 & _ & H)].
  { destruct (is_undefined model1); [discriminate |].
    apply bind_throws in H as [H | (ms & l6 & _ & H)];
      [exact (model_lines_local _ _ _ _ _ H) | discriminate]. }
  apply bind_throws in H as [H | (face_path & l6 & _ & H)];
    [exact (get_prop_local _ _ _ _ _ H) |].
  apply bind_throws in H as [H | (address & l7 & _ & H)]; [| discriminate].
  destruct (truthy face_path); [| discriminate].
  apply bind_throws in H as [H | (url & l8 & _ & H)];
    [exact (face_image_url_local _ _ _ _ _ H) | discriminate].
Qed.

Lemma element_at_local (faces faceIndex : JsVal) (l l' : Log) (e : JsError) :
  element_at faces faceIndex l = (Throw e, l') -> is_http_404 e = false.
Proof.
  unfold element_at. destruct faces; intros H; try discriminate;
    try (injection H as <- _; reflexivity).
  apply bind_throws in H as [H | (n & l1 & _ & H)];
    [exfalso; exact (number_of_throws _ _ _ _ H) | discriminate].
Qed.

(** A 404 that leaves the [try] block of the face-detail call is the
    rejection of its result query. *)
Lemma face_details_404
    (cfg : Config) (srv : Remote) (sessionUuid faceIndex format : JsVal)
    (l l' : Log) (e : JsError) :
  face_details cfg srv sessionUuid faceIndex format l = (Throw e, l') ->
  is_http_404 e = true ->
  (exists m, result_reply srv = Rejects (Some 404) m) /\
  l' = GetResult sessionUuid :: l.
Proof.
  intros H H404. unfold face_details in H.
  apply bind_throws in H as [H | (u0 & l0 & Hlog & H)].
  { exfalso. rewrite (logInfo_local _ _ _ _ H) in H404. discriminate. }
  pose proof (silent_logInfo sessionUuid l) as Hl0. rewrite Hlog in Hl0.
  simpl in Hl0. subst l0.
  apply bind_throws in H as [H | (analysisResult & l1 & _ & H)].
  { unfold axios_get_result, bind, emit, answer in H.
    destruct (result_reply srv) as [d | c m]; [discriminate |].
    injection H as <- <-. destruct c as [st |]; [| discriminate].
    simpl in H404. apply Nat.eqb_eq in H404. subst st.
    split; [eexists; reflexivity | reflexivity]. }
  exfalso. assert (is_http_404 e = false) as F; [| congruence].
  apply bind_throws in H as [H | (faces & l2 & _ & H)];
    [exact (get_prop_local _ _ _ _ _ H) |].
  apply bind_throws in H as [H | (u & l3 & _ & H)].
  { destruct (negb (truthy faces)); [injection H as <- _; reflexivity |].
    apply bind_throws in H as [H | (len & l4 & _ & H)];
      [exact (get_prop_local _ _ _ _ _ H) |].
    apply bind_throws in H as [H | (i & l5 & _ & H)];
      [exfalso; exact (number_of_throws _ _ _ _ H) |].
    apply bind_throws in H as [H | (n & l6 & _ & H)];
      [exfalso; exact (number_of_throws _ _ _ _ H) |].
    destruct (num_ge i n); [injection H as <- _; reflexivity | discriminate]. }
  apply bind_throws in H as [H | (specificFace & l4 & _ & H)];
    [exact (element_at_local _ _ _ _ _ H) |].
  destruct (is_str format "json"); [discriminate |].
  apply bind_throws in H as [H | (body & l5 & _ & H)];
    [exact (face_lines_local _ _ _ _ _ H) | discriminate].
Qed.

Lemma bind_emits {A B} (m : M A) (k : A -> M B) (ev : Event) :
  (forall l, snd (m l) = ev :: l) ->
  (forall a, silent (k a)) ->
  forall l, snd (bind m k l) = ev :: l.
Proof.
  intros Hm Hk l. unfold bind. specialize (Hm l).
  destruct (m l) as [[a | e | w |] l1]; simpl in Hm; subst; try reflexivity.
  apply Hk.
Qed.

Lemma silent_element_at (faces faceIndex : JsVal) : silent (element_at faces faceIndex).
Proof.
  unfold element_at. destruct faces; silent_steps; intros l; reflexivity.
Qed.

(** X12. Of the errors of a face-detail call, the one that says the
    session was not found leaves the handler only when the result query was
    rejected with the HTTP status 404. The other not-found error, the one
    the handler raises for an index beyond the faces (line 515), is thrown
    inside the [try] block, so the handler's own [catch] takes it: it never
    reaches the caller as it was thrown, only behind the words 'Failed to
    get face details: '. *)
Theorem face_details_not_found_only_on_404
    (cfg : Config) (srv : Remote) (props : list (string * JsVal))
    (l l' : Log) (e : JsError) :
  handleGetFaceDetails cfg srv (JObj props) l = (Throw e, l') ->
  ((e = invalid_face_params /\ l' = l) \/
   (e = session_not_found_for_face (lookup "sessionUuid" props) /\
    (exists m, result_reply srv = Rejects (Some 404) m) /\
    l' = GetResult (lookup "sessionUuid" props) :: l) \/
   (exists msg, e = McpError ServerError (Lit "Failed to get face details: " :: msg))) /\
  (forall faceIndex total,
      e <> McpError NotFound
             (face_not_found faceIndex (lookup "sessionUuid" props) total)).
Proof.
  intros H.
  assert ((e = invalid_face_params /\ l' = l) \/
          (e = session_not_found_for_face (lookup "sessionUuid" props) /\
           (exists m, result_reply srv = Rejects (Some 404) m) /\
           l' = GetResult (lookup "sessionUuid" props) :: l) \/
          (exists msg, e = McpError ServerError (Lit "Failed to get face details: " :: msg)))
    as Cases.
  { unfold handleGetFaceDetails in H.
    erewrite bind_return in H by apply get_prop_obj.
    erewrite bind_return in H by apply get_prop_obj.
    erewrite bind_return in H by apply get_prop_default_obj.
    match type of H with (if ?c then _ else _) _ = _ => destruct c end.
    - injection H as <- <-. left. split; reflexivity.
    - apply try_catch_throws in H as (e0 & l0 & Hin & Hout).
      unfold face_details_catch in Hout.
      destruct (is_http_404 e0) eqn:E.
      + destruct (face_details_404 _ _ _ _ _ _ _ _ Hin E) as [H404 ->].
        injection Hout as <- <-. right. left. auto.
      + injection Hout as <- _. right. right. eexists. reflexivity. }
  split; [exact Cases |].
  intros faceIndex total.
  destruct Cases as [[-> _] | [[-> _] | [msg ->]]]; discriminate.
Qed.

Lemma face_details_not_found_only_on_404_witness :
  handleGetFaceDetails PROOFLY_CONFIG sample_store
    (face_request (JNum (num_of_nat 1)) (JStr "json")) []
  = (Throw (McpError ServerError
              [Lit "Failed to get face details: ";
               McpMessage NotFound
                 (face_not_found (JNum (num_of_nat 1)) (JStr "abc") (JNum (num_of_nat 1)))]),
     [GetResult (JStr "abc")]) /\
  McpError ServerError
    [Lit "Failed to get face details: ";
     McpMessage NotFound
       (face_not_found (JNum (num_of_nat 1)) (JStr "abc") (JNum (num_of_nat 1)))]
  <> McpError NotFound
       (face_not_found (JNum (num_of_nat 1)) (JStr "abc") (JNum (num_of_nat 1))).
Proof.
  split; [reflexivity |].
  destruct (face_details_not_found_only_on_404 PROOFLY_CONFIG sample_store
              [("sessionUuid", JStr "abc"); ("faceIndex", JNum (num_of_nat 1));
               ("format", JStr "json")] [] [GetResult (JStr "abc")]
              (McpError ServerError
                 [Lit "Failed to get face details: ";
                  McpMessage NotFound
                    (face_not_found (JNum (num_of_nat 1)) (JStr "abc")
                       (JNum (num_of_nat 1)))])
              eq_refl) as [_ H].
  exact (H (JNum (num_of_nat 1)) (JNum (num_of_nat 1))).
Defined.

(** X13. How a face-detail call that passed validation fails, for a
    session identifier that converts to text. A rejected result query
    gives, when its HTTP status is 404, the error that names the session
    and says it was not found, and otherwise the error that starts 'Failed
    to get face details: ' and carries the message of the rejection. One
    result query is made in each case. An identifier that does not
    convert ends the call with that second error before any request
    (line 509). *)
Theorem face_details_failures
    (cfg : Config) (srv : Remote) (props : list (string * JsVal))
    (n : JsNumber) (l : Log) :
  truthy (lookup "sessionUuid" props) = true ->
  lookup "faceIndex" props = JNum n ->
  num_lt n (Finite 0) = false ->
  let sessionUuid := lookup "sessionUuid" props in
  (printable sessionUuid = true ->
   forall c m,
      result_reply srv = Rejects c m ->
      handleGetFaceDetails cfg srv (JObj props) l
      = (Throw (if is_http_404 (AxiosError c m)
                then session_not_found_for_face sessionUuid
                else McpError ServerError (Lit "Failed to get face details: " :: m)),
         GetResult sessionUuid :: l)) /\
  (printable sessionUuid = false ->
   handleGetFaceDetails cfg srv (JObj props) l
   = (Throw (McpError ServerError
               [Lit "Failed to get face details: ";
                RuntimeText "Cannot convert object to primitive value"]),
      l)).
Proof.
  intros Hu Hi Hn sessionUuid.
  pose proof (handleGetFaceDetails_runs cfg srv props sessionUuid n l eq_refl Hu Hi Hn) as E.
  split.
  - intros Hp c m Hr. rewrite E.
    erewrite try_catch_throw.
    2: { unfold face_details.
         erewrite bind_return by (apply logInfo_printable; exact Hp).
         apply bind_throw.
         unfold axios_get_result, bind, emit, answer. rewrite Hr. reflexivity. }
    unfold face_details_catch, throw.
    destruct (is_http_404 (AxiosError c m)); reflexivity.
  - intros Hp. rewrite E.
    erewrite try_catch_throw
      by (unfold face_details; apply bind_throw; apply logInfo_unprintable; exact Hp).
    reflexivity.
Qed.

Lemma face_details_failures_witness :
  handleGetFaceDetails PROOFLY_CONFIG unknown_session
    (face_request (JNum (num_of_nat 0)) (JStr "text")) []
  = (Throw (session_not_found_for_face (JStr "abc")), [GetResult (JStr "abc")]).
Proof.
  destruct (face_details_failures PROOFLY_CONFIG unknown_session
              [("sessionUuid", JStr "abc"); ("faceIndex", JNum (num_of_nat 0));
               ("format", JStr "text")]
              (num_of_nat 0) [] eq_refl eq_refl eq_refl) as [H _].
  exact (H eq_refl (Some 404) [Lit "Request failed with status code 404"] eq_refl).
Defined.

(** ** Failures of the analyze handlers before and during the polling *)

(** X14. When the upload opens no session (it is rejected, its answer
    has no body, or the body has no [uuid] or a falsy one), either analyze
    handler fails with a [ServerError] behind its own prefix, and the upload
    is the last request it made: no status is queried, nothing is slept. *)
Theorem no_session_no_polling
    (cfg : Config) (srv : Remote) (file : FormFile) (format : JsVal) :
  (forall uuid, ~ session_opened srv uuid) ->
  (forall params l,
      image_call params file format ->
      exists msg,
        handleAnalyzeImage cfg srv params l
        = (Throw (McpError ServerError (Lit "Failed to analyze image: " :: msg)),
           PostUpload file :: l)) /\
  (forall params url l,
      url_call srv params url file format ->
      exists msg,
        handleAnalyzeImageUrl cfg srv params l
        = (Throw (McpError ServerError (Lit "Failed to analyze image URL: " :: msg)),
           PostUpload file :: GetImage url :: l)).
Proof.
  intros Hno.
  assert (forall l, exists e,
             upload_and_analyze cfg srv file format l = (Throw e, PostUpload file :: l))
    as Hup.
  { intros l. unfold upload_and_analyze, axios_post_upload.
    unfold bind at 1 3. unfold emit.
    destruct (upload_reply srv) as [data | c m] eqn:Hr;
      [| eexists; reflexivity].
    unfold answer, ret. unfold bind at 1. unfold get_prop, lift.
    destruct (read_prop data "uuid") as [uuid | e | w |] eqn:Hp.
    - destruct (truthy uuid) eqn:Ht.
      + exfalso. apply (Hno uuid). exists data. auto.
      + eexists. reflexivity.
    - eexists. reflexivity.
    - exfalso. destruct data; simpl in Hp; discriminate.
    - exfalso. exact (read_prop_fuel _ _ Hp). }
  split.
  - intros params l Hc. rewrite (handleAnalyzeImage_runs cfg srv _ _ _ _ Hc).
    destruct (Hup l) as [e He].
    erewrite try_catch_throw by exact He.
    eexists. reflexivity.
  - intros params url l Hc. rewrite (handleAnalyzeImageUrl_runs cfg srv _ _ _ _ _ Hc).
    destruct (Hup (GetImage url :: l)) as [e He].
    erewrite try_catch_throw by exact He.
    eexists. reflexivity.
Qed.

Lemma no_session_no_polling_witness :
  exists msg,
    handleAnalyzeImage PROOFLY_CONFIG sample_store (image_request "AAAA" (JStr "json")) []
    = (Throw (McpError ServerError (Lit "Failed to analyze image: " :: msg)),
       [PostUpload sample_file]).
Proof.
  destruct (no_session_no_polling PROOFLY_CONFIG sample_store sample_file (JStr "json"))
    as [H _].
  - intros uuid (data & Hr & _). discriminate.
  - apply (H (image_request "AAAA" (JStr "json")) []).
    apply (sample_image_call (JStr "json")).
Defined.

(** X15. When the download of the image fails, the analyze-by-URL call
    fails with a [ServerError] that carries the message of the rejection,
    whatever its HTTP status, and nothing is uploaded: the download is the
    only request. *)
Theorem download_failure_uploads_nothing
    (cfg : Config) (srv : Remote) (props : list (string * JsVal)) (url : string)
    (c : option nat) (m : Text) (l : Log) :
  lookup "imageUrl" props = JStr url ->
  url <> "" ->
  image_reply srv = Rejects c m ->
  handleAnalyzeImageUrl cfg srv (JObj props) l
  = (Throw (McpError ServerError (Lit "Failed to analyze image URL: " :: m)),
     GetImage url :: l).
Proof.
  intros Hu Hu0 Hr. unfold handleAnalyzeImageUrl.
  erewrite bind_return by apply get_prop_obj.
  erewrite bind_return by apply get_prop_default_obj.
  rewrite Hu, truthy_str by assumption.
  change (negb true) with false. cbv iota.
  erewrite try_catch_throw.
  2: { apply bind_throw. unfold axios_get_image, bind, emit, answer.
       rewrite Hr. reflexivity. }
  reflexivity.
Qed.

Lemma download_failure_uploads_nothing_witness :
  handleAnalyzeImageUrl PROOFLY_CONFIG unknown_session (url_request (JStr "text")) []
  = (Throw (McpError ServerError
              [Lit "Failed to analyze image URL: ";
               Lit "Request failed with status code 404"]),
     [GetImage sample_url]).
Proof.
  apply (download_failure_uploads_nothing PROOFLY_CONFIG unknown_session
           [("imageUrl", JStr sample_url); ("format", JStr "text")] sample_url
           (Some 404) [Lit "Request failed with status code 404"] []).
  - reflexivity.
  - discriminate.
  - reflexivity.
Defined.

Lemma poll_loop_rejected
    (cfg : Config) (srv : Remote) (uuid : JsVal) (l : Log) (k : nat)
    (c : option nat) (m : Text) :
  k < maxRetries cfg ->
  (forall i, i < k -> polls_at srv (status_queries l + i) = true) ->
  status_reply srv (status_queries l + k) = Rejects c m ->
  poll_loop cfg srv (S (maxRetries cfg)) uuid poll_start l
  = (Throw (AxiosError c m), polled_log cfg uuid (S k) l).
Proof.
  intros Hk Hp Hr.
  destruct (poll_loop_polls cfg srv uuid k (S (maxRetries cfg - k)) poll_start l)
    as (st & E & K & A); [reflexivity | simpl; lia | exact Hp |].
  replace (S (maxRetries cfg)) with (k + S (maxRetries cfg - k)) by lia.
  rewrite E, poll_loop_step, K.
  replace (maxRetries cfg <=? attempts st) with false
    by (symmetry; apply Nat.leb_gt; simpl in A; lia).
  rewrite status_queries_polled, Hr. reflexivity.
Qed.

(** X16. A status query that is rejected during the polling ends the
    call at once: after [k] replies that keep the loop going, the rejection
    of query number [k + 1] makes either analyze handler fail with a
    [ServerError] that carries its message, behind the handler's prefix. The
    HTTP status plays no part: a 404 gets the same text as any other
    rejection, not the words of the status tool. No further status is
    queried and no result is fetched. The session identifier is one that
    converts to text, as a string does. *)
Theorem status_rejection_ends_polling
    (cfg : Config) (srv : Remote) (uuid : JsVal) (k : nat)
    (c : option nat) (m : Text) (l : Log) :
  session_opened srv uuid ->
  printable uuid = true ->
  k < maxRetries cfg ->
  (forall i, i < k -> polls_at srv (status_queries l + i) = true) ->
  status_reply srv (status_queries l + k) = Rejects c m ->
  (forall params file format,
      image_call params file format ->
      handleAnalyzeImage cfg srv params l
      = (Throw (McpError ServerError (Lit "Failed to analyze image: " :: m)),
         polled_log cfg uuid (S k) (PostUpload file :: l))) /\
  (forall params url file format,
      url_call srv params url file format ->
      handleAnalyzeImageUrl cfg srv params l
      = (Throw (McpError ServerError (Lit "Failed to analyze image URL: " :: m)),
         polled_log cfg uuid (S k) (PostUpload file :: GetImage url :: l))) /\
  (forall before,
      status_queries (polled_log cfg uuid (S k) before) = status_queries before + S k /\
      result_fetches (polled_log cfg uuid (S k) before) = result_fetches before).
Proof.
  intros Ho Hn Hk Hp Hr.
  assert (forall file format before,
             status_queries before = status_queries l ->
             upload_and_analyze cfg srv file format before
             = (Throw (AxiosError c m),
                polled_log cfg uuid (S k) (PostUpload file :: before))) as Hup.
  { intros file format before Hb.
    rewrite (upload_and_analyze_runs cfg srv _ _ _ _ Ho Hn).
    unfold poll_and_settle. apply bind_throw. apply bind_throw.
    apply poll_loop_rejected; [exact Hk | |].
    - intros i Hi. change (status_queries (PostUpload file :: before))
                     with (status_queries before).
      rewrite Hb. apply Hp. exact Hi.
    - change (status_queries (PostUpload file :: before)) with (status_queries before).
      rewrite Hb. exact Hr. }
  split; [| split].
  - intros params file format Hc.
    rewrite (handleAnalyzeImage_runs cfg srv _ _ _ _ Hc).
    erewrite try_catch_throw by (apply Hup; reflexivity).
    reflexivity.
  - intros params url file format Hc.
    rewrite (handleAnalyzeImageUrl_runs cfg srv _ _ _ _ _ Hc).
    erewrite try_catch_throw by (apply Hup; reflexivity).
    reflexivity.
  - intros before. split.
    + apply status_queries_polled.
    + apply result_fetches_polled.
Qed.

Lemma status_rejection_ends_polling_witness :
  handleAnalyzeImage PROOFLY_CONFIG dropping (image_request "AAAA" (JStr "json")) []
  = (Throw (McpError ServerError
              [Lit "Failed to analyze image: "; Lit "Request failed with status code 404"]),
     one_poll (one_poll [PostUpload sample_file])).
Proof.
  destruct (status_rejection_ends_polling PROOFLY_CONFIG dropping (JStr "abc") 1
              (Some 404) [Lit "Request failed with status code 404"] [])
    as (H & _ & _).
  - eexists. repeat split.
  - reflexivity.
  - simpl. lia.
  - intros i Hi. assert (i = 0) as -> by lia. reflexivity.
  - reflexivity.
  - exact (H _ _ _ (sample_image_call (JStr "json"))).
Defined.

(** ** The requests of an analyze call *)

Section Requests.

Variable cfg : Config.
Variable srv : Remote.
Variable uuid : JsVal.

(** From any state, the loop adds whole rounds of sleeping and asking to
    the log, no more of them than there are attempts left, and counts
    them in [attempts]. *)
Lemma poll_loop_rounds (fuel : nat) :
  forall st l, exists o n,
    poll_loop cfg srv fuel uuid st l = (o, polled_log cfg uuid n l) /\
    n <= maxRetries cfg - attempts st /\
    (forall st', o = Return st' -> attempts st' = attempts st + n).
Proof.
  induction fuel as [| fuel IH]; intros st l.
  - simpl. destruct (keeps_polling (status st)).
    + exists OutOfFuel, 0. repeat split; [lia | discriminate].
    + exists (Return st), 0. repeat split; [lia |].
      intros st' H. injection H as <-. lia.
  - rewrite poll_loop_step.
    destruct (keeps_polling (status st)).
    2: { exists (Return st), 0. repeat split; [lia |].
         intros st' H. injection H as <-. lia. }
    destruct (maxRetries cfg <=? attempts st) eqn:E.
    { exists (Throw max_retries_error), 0. repeat split; [lia | discriminate]. }
    apply Nat.leb_gt in E.
    assert (forall o : Outcome PollState, (forall st', o <> Return st') ->
               exists o' n,
                 (o, after_query cfg uuid l) = (o', polled_log cfg uuid n l) /\
                 n <= maxRetries cfg - attempts st /\
                 (forall st', o' = Return st' -> attempts st' = attempts st + n)) as Stop.
    { intros o Ho. exists o, 1. repeat split; [lia |].
      intros st' H. exfalso. exact (Ho st' H). }
    destruct (status_reply srv (status_queries l)) as [data | c m];
      [| apply Stop; discriminate].
    destruct (read_prop data "status") as [s | | |]; try (apply Stop; discriminate).
    destruct (printable s); [| apply Stop; discriminate].
    destruct (read_prop data "result") as [res | | |]; try (apply Stop; discriminate).
    destruct (IH (next_state st s res) (after_query cfg uuid l)) as (o & n & E' & Hn & Ha).
    exists o, (S n). split; [| split].
    + rewrite E', polled_log_shift. reflexivity.
    + simpl in Hn. lia.
    + intros st' H. rewrite (Ha st' H). simpl. lia.
Qed.

Lemma settle_requests (st : PollState) (l : Log) :
  exists o tail,
    settle srv uuid st l = (o, (tail ++ l)%list) /\
    (tail = [] \/ tail = [GetResult uuid]).
Proof.
  unfold settle, bind.
  destruct (negb (is_str (status st) "done") && negb (is_str (status st) "completed")
            && negb (truthy (analysisResult st))).
  - destruct (is_str (status st) "no_faces_found" || is_str (status st) "no faces found").
    + exists (Return (no_faces_result uuid)), []. split; [reflexivity | auto].
    + unfold interp. destruct (printable (status st));
        eexists; exists []; (split; [reflexivity | auto]).
  - unfold ret at 1. cbv beta iota.
    destruct (negb (truthy (analysisResult st))).
    + unfold axios_get_result, bind, emit, answer.
      destruct (result_reply srv); eexists; exists [GetResult uuid];
        (split; [reflexivity | auto]).
    + eexists. exists []. split; [reflexivity | auto].
Qed.

Lemma upload_and_analyze_requests (file : FormFile) (format : JsVal) (l : Log) :
  session_opened srv uuid ->
  exists o n tail,
    upload_and_analyze cfg srv file format l = (o, session_log cfg uuid file n tail l) /\
    n <= maxRetries cfg /\
    (tail = [] \/ tail = [GetResult uuid]).
Proof.
  intros Ho. destruct (printable uuid) eqn:Hu.
  2: { rewrite (upload_and_analyze_unnamed cfg srv _ _ _ _ Ho Hu).
       eexists. exists 0, []. split; [reflexivity | split; [lia | auto]]. }
  rewrite (upload_and_analyze_runs cfg srv _ _ _ _ Ho Hu).
  unfold poll_and_settle, session_log.
  destruct (poll_loop_rounds (S (maxRetries cfg)) poll_start (PostUpload file :: l))
    as (o & n & E & Hn & _).
  simpl in Hn. rewrite Nat.sub_0_r in Hn.
  unfold bind at 1 2. rewrite E.
  destruct o as [st | e | w |];
    try (eexists; exists n, []; split; [reflexivity | split; [exact Hn | auto]]).
  destruct (settle_requests st (polled_log cfg uuid n (PostUpload file :: l)))
    as (o & tail & E' & Ht).
  rewrite E'.
  destruct o as [r | e | w |];
    try (eexists; exists n, tail; split; [reflexivity | split; [exact Hn | exact Ht]]).
  exists (fst (render_result cfg format r
                 (tail ++ polled_log cfg uuid n (PostUpload file :: l))%list)), n, tail.
  split; [| split; [exact Hn | exact Ht]].
  rewrite <- (silent_render_result cfg format r
                (tail ++ polled_log cfg uuid n (PostUpload file :: l))%list) at 3.
  apply surjective_pairing.
Qed.

End Requests.

Lemma rethrow_keeps_log {A} (m : M A) (prefix : string) (l l' : Log) (o : Outcome A) :
  m l = (o, l') ->
  exists o', try_catch m (rethrow_as_server_error prefix) l = (o', l').
Proof.
  intros H. unfold try_catch. rewrite H.
  destruct o; eexists; reflexivity.
Qed.

Lemma network_calls_polled (cfg : Config) (uuid : JsVal) (n : nat) (l : Log) :
  network_calls (polled_log cfg uuid n l) = network_calls l + n.
Proof.
  induction n as [| n IH]; simpl.
  - lia.
  - unfold network_calls in *. simpl. rewrite IH. lia.
Qed.

(** X17. The requests of an analyze call, for every remote service that
    opens a session: after the upload come [n] rounds of one sleep and one
    status query, with [n] at most [maxRetries], and then at most one
    result query, nothing else and in this order, however the call ends.
    So a call makes at most [maxRetries + 2] requests past the image
    download, and [n] status queries. *)
Theorem analyze_request_pattern
    (cfg : Config) (srv : Remote) (uuid : JsVal) (file : FormFile) (format : JsVal) :
  session_opened srv uuid ->
  (forall params l,
      image_call params file format ->
      exists o n tail,
        handleAnalyzeImage cfg srv params l = (o, session_log cfg uuid file n tail l) /\
        n <= maxRetries cfg /\
        (tail = [] \/ tail = [GetResult uuid])) /\
  (forall params url l,
      url_call srv params url file format ->
      exists o n tail,
        handleAnalyzeImageUrl cfg srv params l
        = (o, session_log cfg uuid file n tail (GetImage url :: l)) /\
        n <= maxRetries cfg /\
        (tail = [] \/ tail = [GetResult uuid])) /\
  (forall n tail before,
      n <= maxRetries cfg ->
      tail = [] \/ tail = [GetResult uuid] ->
      status_queries (session_log cfg uuid file n tail before) = status_queries before + n /\
      result_fetches (session_log cfg uuid file n tail before) <= S (result_fetches before) /\
      network_calls (session_log cfg uuid file n tail before)
      <= network_calls before + maxRetries cfg + 2).
Proof.
  intros Ho. split; [| split].
  - intros params l Hc. rewrite (handleAnalyzeImage_runs cfg srv _ _ _ _ Hc).
    destruct (upload_and_analyze_requests cfg srv uuid file format l Ho)
      as (o & n & tail & E & Hn & Ht).
    destruct (rethrow_keeps_log _ "Failed to analyze image: " _ _ _ E) as [o' E'].
    exists o', n, tail. auto.
  - intros params url l Hc. rewrite (handleAnalyzeImageUrl_runs cfg srv _ _ _ _ _ Hc).
    destruct (upload_and_analyze_requests cfg srv uuid file format (GetImage url :: l) Ho)
      as (o & n & tail & E & Hn & Ht).
    destruct (rethrow_keeps_log _ "Failed to analyze image URL: " _ _ _ E) as [o' E'].
    exists o', n, tail. auto.
  - intros n tail before Hn Ht. unfold session_log.
    pose proof (status_queries_polled cfg uuid n (PostUpload file :: before)) as S1.
    pose proof (result_fetches_polled cfg uuid n (PostUpload file :: before)) as R1.
    pose proof (network_calls_polled cfg uuid n (PostUpload file :: before)) as N1.
    change (status_queries (PostUpload file :: before)) with (status_queries before) in S1.
    change (result_fetches (PostUpload file :: before)) with (result_fetches before) in R1.
    change (network_calls (PostUpload file :: before)) with (S (network_calls before)) in N1.
    destruct Ht as [-> | ->].
    + simpl app. lia.
    + change ([GetResult uuid] ++ polled_log cfg uuid n (PostUpload file :: before))%list
        with (GetResult uuid :: polled_log cfg uuid n (PostUpload file :: before)).
      change (status_queries (GetResult uuid :: polled_log cfg uuid n (PostUpload file :: before)))
        with (status_queries (polled_log cfg uuid n (PostUpload file :: before))).
      change (result_fetches (GetResult uuid :: polled_log cfg uuid n (PostUpload file :: before)))
        with (S (result_fetches (polled_log cfg uuid n (PostUpload file :: before)))).
      change (network_calls (GetResult uuid :: polled_log cfg uuid n (PostUpload file :: before)))
        with (S (network_calls (polled_log cfg uuid n (PostUpload file :: before)))).
      lia.
Qed.

Lemma analyze_request_pattern_witness :
  exists o n tail,
    handleAnalyzeImage PROOFLY_CONFIG (reporting "done") (image_request "AAAA" (JStr "json")) []
    = (o, session_log PROOFLY_CONFIG (JStr "abc") sample_file n tail []) /\
    n <= 60 /\
    (tail = [] \/ tail = [GetResult (JStr "abc")]).
Proof.
  destruct (analyze_request_pattern PROOFLY_CONFIG (reporting "done") (JStr "abc")
              sample_file (JStr "json") (sample_session "done")) as (H & _ & _).
  exact (H _ [] (sample_image_call (JStr "json"))).
Defined.

(** ** The embedded result *)

Section Held.

Variable cfg : Config.
Variable srv : Remote.
Variable uuid : JsVal.

Lemma poll_loop_holds (n : nat) :
  forall fuel st l,
    keeps_polling (status st) = true ->
    attempts st + n <= maxRetries cfg ->
    (forall i, i < n -> polls_at srv (status_queries l + i) = true) ->
    exists st',
      poll_loop cfg srv (n + fuel) uuid st l
      = poll_loop cfg srv fuel uuid st' (polled_log cfg uuid n l) /\
      keeps_polling (status st') = true /\
      attempts st' = attempts st + n /\
      analysisResult st' = held_result srv (status_queries l) n (analysisResult st).
Proof.
  induction n as [| n IH]; intros fuel st l Hk Ha Hp.
  - exists st. simpl. repeat split; auto.
  - destruct (IH (S fuel) st l Hk) as (st' & E & K & A & R); [lia | |].
    { intros i Hi. apply Hp. lia. }
    replace (S n + fuel) with (n + S fuel) by lia. rewrite E.
    pose proof (Hp n ltac:(lia)) as Hn. unfold polls_at in Hn.
    destruct (reply_fields (status_reply srv (status_queries l + n)))
      as [[s res] |] eqn:F; [| discriminate].
    exists (next_state st' s res). split; [| split; [| split]].
    + apply poll_loop_next; [exact K | lia | | exact (keeps_polling_printable s Hn)].
      rewrite status_queries_polled. exact F.
    + exact Hn.
    + simpl. lia.
    + simpl. rewrite F, R. reflexivity.
Qed.

Lemma poll_loop_ends_holding (l : Log) (k : nat) (s res : JsVal) :
  k < maxRetries cfg ->
  (forall i, i < k -> polls_at srv (status_queries l + i) = true) ->
  reply_fields (status_reply srv (status_queries l + k)) = Some (s, res) ->
  printable s = true ->
  keeps_polling s = false ->
  poll_loop cfg srv (S (maxRetries cfg)) uuid poll_start l
  = (Return {| status := s; attempts := S k;
               analysisResult := held_result srv (status_queries l) (S k) JUndefined |},
     polled_log cfg uuid (S k) l).
Proof.
  intros Hk Hp Hr Hc Hs.
  destruct (poll_loop_holds k (S (maxRetries cfg - k)) poll_start l)
    as (st & E & K & A & R); [reflexivity | simpl; lia | exact Hp |].
  replace (S (maxRetries cfg)) with (k + S (maxRetries cfg - k)) by lia.
  rewrite E.
  erewrite poll_loop_next;
    [| exact K | simpl in A; lia | rewrite status_queries_polled; exact Hr | exact Hc].
  rewrite poll_loop_exit by exact Hs.
  unfold next_state. simpl in A, R. simpl held_result. rewrite Hr, A, R.
  reflexivity.
Qed.

End Held.

(** X18. The result an analyze call ends with is the embedded result of
    the latest status reply that carried one. When some reply did, the
    last status plays no part in what follows the loop: whatever it says,
    'failed' for one, so long as it is a value that converts to text (the
    loop logs it), the call goes on with the result held, and no result
    query is made. *)
Theorem held_result_decides
    (cfg : Config) (srv : Remote) (uuid : JsVal) (l : Log) (k : nat) (s res : JsVal) :
  k < maxRetries cfg ->
  (forall i, i < k -> polls_at srv (status_queries l + i) = true) ->
  reply_fields (status_reply srv (status_queries l + k)) = Some (s, res) ->
  printable s = true ->
  keeps_polling s = false ->
  truthy (held_result srv (status_queries l) (S k) JUndefined) = true ->
  poll_and_settle cfg srv uuid l
  = (Return (held_result srv (status_queries l) (S k) JUndefined),
     polled_log cfg uuid (S k) l) /\
  result_fetches (polled_log cfg uuid (S k) l) = result_fetches l.
Proof.
  intros Hk Hp Hr Hc Hs Ht. split; [| apply result_fetches_polled].
  unfold poll_and_settle.
  erewrite bind_return by (eapply poll_loop_ends_holding; eassumption).
  apply settle_captured. exact Ht.
Qed.

Lemma held_result_decides_witness :
  poll_and_settle PROOFLY_CONFIG early_result (JStr "abc") []
  = (Return sample_result, one_poll (one_poll [])) /\
  result_fetches (one_poll (one_poll [])) = 0.
Proof.
  apply (held_result_decides PROOFLY_CONFIG early_result (JStr "abc") [] 1
           (JStr "failed") JUndefined).
  - simpl. lia.
  - intros i Hi. assert (i = 0) as -> by lia. reflexivity.
  - reflexivity.
  - reflexivity.
  - reflexivity.
  - reflexivity.
Defined.

(** ** A result that is not there *)

(** X19. When the session is 'done' or 'completed', no result was
    embedded, and the result query is answered with a falsy body ([null],
    an empty string), the analyze call does not fail: in text format it
    returns the line of the renderer's guard (line 74) as its answer, in
    JSON format the serialised body. The session identifier is one that
    converts to text, as a string does. *)
Theorem falsy_result_is_answered
    (cfg : Config) (srv : Remote) (uuid d : JsVal) (st : PollState)
    (params : JsVal) (file : FormFile) (format : JsVal) (l l' : Log) :
  session_opened srv uuid ->
  printable uuid = true ->
  image_call params file format ->
  poll_loop cfg srv (S (maxRetries cfg)) uuid poll_start (PostUpload file :: l)
  = (Return st, l') ->
  is_done (status st) = true ->
  truthy (analysisResult st) = false ->
  result_reply srv = Responds d ->
  truthy d = false ->
  handleAnalyzeImage cfg srv params l
  = (Return (if is_str format "json" then [Stringify d]
             else [Lit "Error: No result to format."]),
     GetResult uuid :: l').
Proof.
  intros Ho Hu Hc Hp Hd Ht Hr Hf.
  rewrite (image_handler_after_poll cfg srv _ _ _ _ _ _ _ Ho Hu Hc Hp).
  apply try_catch_return.
  erewrite bind_return.
  2: { rewrite settle_fetch by assumption.
       unfold axios_get_result, bind, emit, answer. rewrite Hr. reflexivity. }
  unfold render_result, formatResultsToHumanReadable. rewrite Hf.
  destruct (is_str format "json"); reflexivity.
Qed.

Lemma falsy_result_is_answered_witness :
  handleAnalyzeImage PROOFLY_CONFIG (serving_result (reporting "done") JNull)
    (image_request "AAAA" (JStr "text")) []
  = (Return [Lit "Error: No result to format."],
     GetResult (JStr "abc") :: one_poll [PostUpload sample_file]).
Proof.
  apply (falsy_result_is_answered PROOFLY_CONFIG (serving_result (reporting "done") JNull)
           (JStr "abc") JNull (stopped_at "done")
           (image_request "AAAA" (JStr "text")) sample_file (JStr "text") []
           (one_poll [PostUpload sample_file])).
  - eexists. repeat split.
  - reflexivity.
  - apply (sample_image_call (JStr "text")).
  - vm_compute. reflexivity.
  - reflexivity.
  - reflexivity.
  - reflexivity.
  - reflexivity.
Defined.

(** ** Data URIs that are not header, comma, payload *)

(** X20. A text that starts with 'data:image' is cut at its commas and
    the second piece is decoded. With no comma there is no second piece:
    the decoding fails on [undefined], and the call ends in a
    [ServerError] before any request is made. With more than one comma
    only the piece between the first two is kept; what follows the second
    comma is dropped. *)
Theorem data_uri_pieces
    (cfg : Config) (srv : Remote) (header : string) :
  prefix "data:image" header = true ->
  comma_free header = true ->
  (forall others l,
      truthy (lookup "filename" others) = true ->
      handleAnalyzeImage cfg srv (JObj (("imageBase64", JStr header) :: others)) l
      = (Throw (McpError ServerError
                  [Lit "Failed to analyze image: ";
                   RuntimeText "Buffer.from: the first argument is not a string"]),
         l)) /\
  (forall payload rest,
      comma_free payload = true ->
      strip_data_uri (header ++ String ","%char (payload ++ String ","%char rest))
      = JStr payload).
Proof.
  intros Hp Hc. split.
  - intros others l Hf.
    assert (header <> "") as Hne by (intros ->; discriminate).
    rewrite (handleAnalyzeImage_string cfg srv header others l Hne), Hf.
    change (negb true) with false. cbv iota.
    unfold strip_data_uri. rewrite Hp, (split_on_comma_free _ Hc).
    reflexivity.
  - intros payload rest Hpay. unfold strip_data_uri.
    rewrite (prefix_app _ _ _ Hp), (split_on_header _ _ Hc), (split_on_header _ _ Hpay).
    reflexivity.
Qed.

Lemma data_uri_pieces_witness :
  handleAnalyzeImage PROOFLY_CONFIG sample_store
    (JObj [("imageBase64", JStr "data:image/png;base64"); ("filename", JStr "a.png")]) []
  = (Throw (McpError ServerError
              [Lit "Failed to analyze image: ";
               RuntimeText "Buffer.from: the first argument is not a string"]),
     []) /\
  strip_data_uri "data:image/png;base64,AAAA,BBBB" = JStr "AAAA".
Proof.
  destruct (data_uri_pieces PROOFLY_CONFIG sample_store "data:image/png;base64"
              eq_refl eq_refl) as [H1 H2].
  split.
  - exact (H1 [("filename", JStr "a.png")] [] eq_refl).
  - exact (H2 "AAAA"%string "BBBB"%string eq_refl).
Defined.

(** ** What the text of a face shows *)

Lemma model_lines_shows (props : list (string * JsVal)) (numbers : list string) :
  forallb (fun i => printable (lookup ("is_real_model_" ++ i) props)) numbers = true ->
  exists t,
    (forall l, model_lines (JObj props) numbers l = (Return t, l)) /\
    percents t = model_scores props numbers /\
    plus_ones t = [].
Proof.
  induction numbers as [| i rest IH]; intros Hc.
  - exists []. repeat split.
  - cbn [forallb] in Hc. apply andb_true_iff in Hc as [Hi Hr].
    destruct (IH Hr) as (more & Hm & Hp & Ho).
    exists ((if is_undefined (lookup ("is_real_model_" ++ i) props) then []
             else [Lit "  - Model "; Lit i; Lit ": ";
                   Percent (lookup ("is_real_model_" ++ i) props); Lit "%"; NL])
            ++ more)%list.
    split; [| split].
    + intros l. cbn [model_lines].
      erewrite bind_return by apply get_prop_obj.
      destruct (is_undefined (lookup ("is_real_model_" ++ i) props)).
      * erewrite bind_return by reflexivity.
        erewrite bind_return by apply Hm.
        reflexivity.
      * erewrite bind_return
          by (erewrite bind_return by (apply percent_printable; exact Hi); reflexivity).
        erewrite bind_return by apply Hm.
        reflexivity.
    + unfold percents, model_scores in *. rewrite flat_map_app. cbn [map filter].
      rewrite Hp.
      destruct (is_undefined (lookup ("is_real_model_" ++ i) props)); reflexivity.
    + unfold plus_ones in *. rewrite flat_map_app, Ho.
      destruct (is_undefined (lookup ("is_real_model_" ++ i) props)); reflexivity.
Qed.

Lemma face_lines_shows (cfg : Config) (props : list (string * JsVal)) :
  writable (JObj props) = true ->
  exists t,
    (forall l, face_lines cfg (JObj props) l = (Return t, l)) /\
    percents t
    = ((if is_undefined (lookup "ansamble" props) || is_null (lookup "ansamble" props)
        then [] else [lookup "ansamble" props])
       ++ (if is_undefined (lookup "is_real_model_1" props) then []
           else model_scores props model_numbers))%list /\
    plus_ones t = [].
Proof.
  unfold writable, scorable. intros Hw. apply andb_true_iff in Hw as [Hs Hc].
  destruct (getVerdict (lookup "ansamble" props)) as [v | | |] eqn:Hv; try discriminate.
  pose proof (getVerdict_printable _ _ Hv) as Ha.
  unfold face_converts in Hc. apply andb_true_iff in Hc as [Hm Hf].
  set (probability :=
         if is_undefined (lookup "ansamble" props) || is_null (lookup "ansamble" props)
         then []
         else [Lit ("* Probability " ++ dquote ++ "real" ++ dquote ++ ": ");
               Percent (lookup "ansamble" props);
               Lit ("%, " ++ dquote ++ "fake" ++ dquote ++ ": ");
               PercentRest (lookup "ansamble" props); Lit "%"; NL]).
  set (address :=
         if truthy (lookup "face_path" props)
         then [Lit "* Face image URL: ";
               FaceImageUrl (baseUrl cfg) (lookup "face_path" props); NL]
         else []).
  assert (exists models,
             (forall l,
                 (if is_undefined (lookup "is_real_model_1" props) then ret []
                  else ms <- model_lines (JObj props) model_numbers ;;
                       ret ([Lit "* Individual model results:"; NL] ++ ms)%list) l
                 = (Return models, l)) /\
             percents models
             = (if is_undefined (lookup "is_real_model_1" props) then []
                else model_scores props model_numbers) /\
             plus_ones models = []) as (models & Hmo & Hmp & Hmq).
  { destruct (is_undefined (lookup "is_real_model_1" props)).
    - exists []. repeat split.
    - simpl orb in Hm.
      destruct (model_lines_shows props model_numbers Hm) as (ms & Hms & Hp & Ho).
      exists ([Lit "* Individual model results:"; NL] ++ ms)%list.
      split; [| split].
      + intros l. erewrite bind_return by apply Hms. reflexivity.
      + exact Hp.
      + exact Ho. }
  assert (forall l,
             (if is_undefined (lookup "ansamble" props) || is_null (lookup "ansamble" props)
              then ret []
              else real <- percent (lookup "ansamble" props) ;;
                   fake <- percent_rest (lookup "ansamble" props) ;;
                   ret [Lit ("* Probability " ++ dquote ++ "real" ++ dquote ++ ": ");
                        real;
                        Lit ("%, " ++ dquote ++ "fake" ++ dquote ++ ": ");
                        fake; Lit "%"; NL]) l = (Return probability, l)) as Hpr.
  { intros l. unfold probability.
    destruct (is_undefined (lookup "ansamble" props)
              || is_null (lookup "ansamble" props)); [reflexivity |].
    erewrite bind_return by (apply percent_printable; exact Ha).
    erewrite bind_return by (apply percent_rest_printable; exact Ha).
    reflexivity. }
  assert (forall l,
             (if truthy (lookup "face_path" props)
              then url <- face_image_url (baseUrl cfg) (lookup "face_path" props) ;;
                   ret [Lit "* Face image URL: "; url; NL]
              else ret []) l = (Return address, l)) as Had.
  { intros l. unfold address.
    destruct (truthy (lookup "face_path" props)); [| reflexivity].
    simpl in Hf.
    erewrite bind_return by (apply face_image_url_printable; exact Hf).
    reflexivity. }
  exists ([Lit "* Verdict: **"; Lit v; Lit "**"; NL]
          ++ probability ++ models ++ address)%list.
  split; [| split].
  - intros l. unfold face_lines.
    erewrite bind_return by apply get_prop_obj.
    erewrite bind_return by (unfold lift; rewrite Hv; reflexivity).
    erewrite bind_return by apply Hpr.
    erewrite bind_return by apply get_prop_obj.
    erewrite bind_return by apply Hmo.
    erewrite bind_return by apply get_prop_obj.
    erewrite bind_return by apply Had.
    reflexivity.
  - unfold percents in *. rewrite !flat_map_app, Hmp. unfold probability, address.
    destruct (is_undefined (lookup "ansamble" props) || is_null (lookup "ansamble" props));
      destruct (truthy (lookup "face_path" props)); simpl;
      rewrite ?app_nil_r; reflexivity.
  - unfold plus_ones in *. rewrite !flat_map_app, Hmq. unfold probability, address.
    destruct (is_undefined (lookup "ansamble" props) || is_null (lookup "ansamble" props));
      destruct (truthy (lookup "face_path" props)); reflexivity.
Qed.

(** X21. The percentages in the text of a face that the renderer can
    write: an object whose score [ansamble] is a number, a boolean,
    [undefined] or [null] (a string score is outside this embedding) and
    whose model scores and image path convert to text. The score
    [ansamble] comes first, unless it is [undefined] or [null]. The model
    scores follow only when [is_real_model_1] is there: then every score
    present among the models 1 to 10 is shown, in that order; without the
    first model none is shown, whatever the other nine hold. *)
Theorem face_percentages
    (cfg : Config) (props : list (string * JsVal)) (l : Log) :
  writable (JObj props) = true ->
  exists t,
    face_lines cfg (JObj props) l = (Return t, l) /\
    percents t
    = ((if is_undefined (lookup "ansamble" props) || is_null (lookup "ansamble" props)
        then [] else [lookup "ansamble" props])
       ++ (if is_undefined (lookup "is_real_model_1" props) then []
           else model_scores props model_numbers))%list.
Proof.
  intros Hs. destruct (face_lines_shows cfg props Hs) as (t & Ht & Hp & _).
  exists t. split; [apply Ht | exact Hp].
Qed.

Lemma face_percentages_witness :
  exists t,
    face_lines PROOFLY_CONFIG
      (JObj [("ansamble", JNum (Finite (7 # 8)));
             ("is_real_model_2", JNum (Finite (1 # 2)))]) []
    = (Return t, []) /\
    percents t = [JNum (Finite (7 # 8))].
Proof.
  apply (face_percentages PROOFLY_CONFIG
           [("ansamble", JNum (Finite (7 # 8)));
            ("is_real_model_2", JNum (Finite (1 # 2)))] []).
  reflexivity.
Defined.

(** ** The faces of a result, one block each *)

Lemma face_blocks_numbered (cfg : Config) (faces : list JsVal) :
  forallb writable faces = true ->
  forall index, exists t,
    (forall l, face_blocks cfg faces index l = (Return t, l)) /\
    plus_ones t = map (fun i => JNum (num_of_nat i)) (seq index (List.length faces)).
Proof.
  induction faces as [| face rest IH]; intros Hw index.
  - exists []. split; reflexivity.
  - simpl in Hw. apply andb_true_iff in Hw as [Hf Hr].
    destruct face as [| | | | | | props]; try discriminate.
    destruct (face_lines_shows cfg props Hf) as (body & Hb & _ & Ho).
    destruct (IH Hr (S index)) as (more & Hm & Hn).
    exists ([Lit "**Face "; PlusOne (JNum (num_of_nat index)); Lit ":**"; NL]
            ++ body ++ [NL] ++ more)%list.
    split.
    + intros l. simpl.
      erewrite bind_return by apply Hb.
      erewrite bind_return by apply Hm.
      reflexivity.
    + unfold plus_ones in *.
      rewrite !flat_map_app, Ho, Hn. reflexivity.
Qed.

Lemma num_gt_length {A} (items : list A) :
  items <> [] -> num_gt (num_of_nat (List.length items)) (Finite 0) = true.
Proof.
  intros H. destruct items as [| a items]; [contradiction |].
  unfold num_gt, num_lt, num_of_nat. apply Qltb_lt.
  unfold Qlt. simpl. lia.
Qed.

Lemma hash_line (v : JsVal) (l : Log) :
  printable v = true ->
  (if truthy v then h <- interp v ;; ret [Lit "* SHA256 hash: "; h; NL] else ret []) l
  = (Return (if truthy v then [Lit "* SHA256 hash: "; Interp v; NL] else []), l).
Proof.
  intros Hp. destruct (truthy v); [| reflexivity].
  erewrite bind_return by (apply interp_printable; exact Hp).
  reflexivity.
Qed.

(** X22. A result with faces, rendered as text, when its fields and its
    faces are values the renderer can write (the fields convert to text,
    each face is an object with a score that is not a string) and the
    no-faces message does not take over: the renderer writes one block for
    each element of [faces], numbered 1, 2, ... in the order of the array,
    and ends without an error. The count it announces is [total_faces]
    when that is truthy and the length of the array otherwise, so it need
    not be the number of blocks. *)
Theorem format_lists_every_face
    (cfg : Config) (props : list (string * JsVal)) (items : list JsVal) (l : Log) :
  lookup "faces" props = JArr items ->
  items <> [] ->
  forallb writable items = true ->
  result_converts props = true ->
  truthy (lookup "message" props) && is_no_faces (lookup "status" props) = false ->
  exists t,
    formatResultsToHumanReadable cfg (JObj props) l = (Return t, l) /\
    plus_ones t = map (fun i => JNum (num_of_nat i)) (seq 0 (List.length items)) /\
    In (Interp (js_or (lookup "total_faces" props)
                  (JNum (num_of_nat (List.length items))))) t.
Proof.
  intros Hf Hne Hw Hc Hm.
  destruct (face_blocks_numbered cfg items Hw 0) as (blocks & Hb & Hp).
  unfold is_no_faces in Hm.
  unfold result_converts in Hc.
  apply andb_true_iff in Hc as [Hc Htot].
  apply andb_true_iff in Hc as [Hc Hmsg].
  apply andb_true_iff in Hc as [Hc Hst].
  apply andb_true_iff in Hc as [Hid Hsha].
  exists ([Lit "**Image Analysis Results:**"; NL;
           Lit "* Session UUID: "; Interp (js_or (lookup "uuid" props) (JStr "N/A")); NL]
          ++ (if truthy (lookup "sha256" props)
              then [Lit "* SHA256 hash: "; Interp (lookup "sha256" props); NL] else [])
          ++ [Lit "* Status: "; Interp (js_or (lookup "status" props) (JStr "N/A")); NL]
          ++ ([Lit "* Faces detected: ";
               Interp (js_or (lookup "total_faces" props)
                         (JNum (num_of_nat (List.length items)))); NL; NL] ++ blocks)
          ++ [Lit "For unlimited speed access and additional features, register at check.proofly.ai";
              NL])%list.
  split; [| split].
  - unfold formatResultsToHumanReadable.
    change (negb (truthy (JObj props))) with false. cbv iota.
    erewrite bind_return by apply get_prop_obj.
    erewrite bind_return
      by (apply interp_printable; apply js_or_printable; [exact Hid | reflexivity]).
    erewrite bind_return by apply get_prop_obj.
    erewrite bind_return by (apply hash_line; exact Hsha).
    erewrite bind_return by apply get_prop_obj.
    erewrite bind_return
      by (apply interp_printable; apply js_or_printable; [exact Hst | reflexivity]).
    erewrite bind_return by apply get_prop_obj.
    erewrite bind_return by apply get_prop_obj.
    rewrite Hf, Hm.
    erewrite bind_return.
    2: { erewrite bind_return.
         2: { change (truthy (JArr items)) with true. cbv iota.
              erewrite bind_return by reflexivity.
              erewrite bind_return by reflexivity.
              reflexivity. }
         rewrite (num_gt_length items Hne).
         erewrite bind_return by apply get_prop_obj.
         erewrite bind_return by reflexivity.
         erewrite bind_return
           by (apply interp_printable; apply js_or_printable; [exact Htot | reflexivity]).
         erewrite bind_return by apply Hb.
         reflexivity. }
    reflexivity.
  - unfold plus_ones in *.
    destruct (truthy (lookup "sha256" props)); simpl;
      rewrite flat_map_app, Hp; simpl; rewrite app_nil_r; reflexivity.
  - destruct (truthy (lookup "sha256" props)); simpl; tauto.
Qed.

Lemma format_lists_every_face_witness :
  exists t,
    formatResultsToHumanReadable PROOFLY_CONFIG
      (JObj [("status", JStr "done"); ("total_faces", JNum (Finite 5));
             ("faces", JArr [sample_face; sample_face])]) []
    = (Return t, []) /\
    plus_ones t = [JNum (num_of_nat 0); JNum (num_of_nat 1)] /\
    In (Interp (JNum (Finite 5))) t.
Proof.
  apply (format_lists_every_face PROOFLY_CONFIG
           [("status", JStr "done"); ("total_faces", JNum (Finite 5));
            ("faces", JArr [sample_face; sample_face])]
           [sample_face; sample_face] []).
  - reflexivity.
  - discriminate.
  - reflexivity.
  - reflexivity.
  - reflexivity.
Defined.

(** X23. A face that is [null] or [undefined] in the stored result can
    be had in JSON format only: the face-detail call, made with a session
    identifier that converts to text, returns it serialised, while in text
    format reading its score raises a TypeError, which the handler's catch
    turns into the error that starts 'Failed to get face details: '. *)
Theorem nullish_face_json_only
    (cfg : Config) (srv : Remote) (props : list (string * JsVal))
    (res : JsVal) (faces : list JsVal) (i : nat) (l : Log) :
  truthy (lookup "sessionUuid" props) = true ->
  printable (lookup "sessionUuid" props) = true ->
  lookup "faceIndex" props = JNum (num_of_nat i) ->
  result_reply srv = Responds res ->
  read_prop res "faces" = Return (JArr faces) ->
  i < List.length faces ->
  is_nullish (nth i faces JUndefined) = true ->
  handleGetFaceDetails cfg srv (JObj props) l
  = (if is_str (format_of props) "json"
     then Return [Stringify (nth i faces JUndefined)]
     else Throw (McpError ServerError
                   [Lit "Failed to get face details: ";
                    RuntimeText "Cannot read property ansamble"]),
     GetResult (lookup "sessionUuid" props) :: l).
Proof.
  intros Hu Hp Hi Hr Hf Hlt Hn.
  pose proof (below_zero_nat i) as Hz. unfold below_zero in Hz.
  rewrite (handleGetFaceDetails_runs cfg srv props _ (num_of_nat i) l eq_refl Hu Hi Hz).
  unfold try_catch.
  rewrite (face_details_found cfg srv _ res l Hr Hp faces i (format_of props) Hf Hlt).
  destruct (is_str (format_of props) "json"); [reflexivity |].
  erewrite bind_throw.
  2: { unfold face_lines. apply bind_throw. apply get_prop_nullish. exact Hn. }
  reflexivity.
Qed.

Lemma nullish_face_json_only_witness :
  handleGetFaceDetails PROOFLY_CONFIG null_face_store
    (face_request (JNum (num_of_nat 0)) (JStr "text")) []
  = (Throw (McpError ServerError
              [Lit "Failed to get face details: ";
               RuntimeText "Cannot read property ansamble"]),
     [GetResult (JStr "abc")]).
Proof.
  apply (nullish_face_json_only PROOFLY_CONFIG null_face_store
           [("sessionUuid", JStr "abc"); ("faceIndex", JNum (num_of_nat 0));
            ("format", JStr "text")]
           (JObj [("faces", JArr [JNull])]) [JNull] 0 []).
  - reflexivity.
  - reflexivity.
  - reflexivity.
  - reflexivity.
  - reflexivity.
  - simpl. lia.
  - reflexivity.
Defined.

(** X24. The no-faces message comes first: for a result with a truthy
    [message] whose status is one of the two no-faces spellings, and whose
    [uuid], [sha256] and [message] convert to text, the renderer writes the
    message and no face block, and it does not look at [faces] at all, so
    it ends without an error whatever [faces] holds. *)
Theorem no_faces_message_takes_over
    (cfg : Config) (props : list (string * JsVal)) (l : Log) :
  truthy (lookup "message" props) = true ->
  is_no_faces (lookup "status" props) = true ->
  printable (lookup "uuid" props) = true ->
  printable (lookup "sha256" props) = true ->
  printable (lookup "message" props) = true ->
  exists t,
    formatResultsToHumanReadable cfg (JObj props) l = (Return t, l) /\
    In (Interp (lookup "message" props)) t /\
    plus_ones t = [] /\
    percents t = [].
Proof.
  intros Hm Hs Hid Hsha Hmsg.
  assert (printable (lookup "status" props) = true) as Hst.
  { unfold is_no_faces in Hs. destruct (lookup "status" props); try reflexivity;
      discriminate. }
  unfold is_no_faces in Hs.
  exists ([Lit "**Image Analysis Results:**"; NL;
           Lit "* Session UUID: "; Interp (js_or (lookup "uuid" props) (JStr "N/A")); NL]
          ++ (if truthy (lookup "sha256" props)
              then [Lit "* SHA256 hash: "; Interp (lookup "sha256" props); NL] else [])
          ++ [Lit "* Status: "; Interp (js_or (lookup "status" props) (JStr "N/A")); NL]
          ++ [Lit "* Message: "; Interp (lookup "message" props); NL]
          ++ [Lit "For unlimited speed access and additional features, register at check.proofly.ai";
              NL])%list.
  split; [| split; [| split]].
  - unfold formatResultsToHumanReadable.
    change (negb (truthy (JObj props))) with false. cbv iota.
    erewrite bind_return by apply get_prop_obj.
    erewrite bind_return
      by (apply interp_printable; apply js_or_printable; [exact Hid | reflexivity]).
    erewrite bind_return by apply get_prop_obj.
    erewrite bind_return by (apply hash_line; exact Hsha).
    erewrite bind_return by apply get_prop_obj.
    erewrite bind_return
      by (apply interp_printable; apply js_or_printable; [exact Hst | reflexivity]).
    erewrite bind_return by apply get_prop_obj.
    erewrite bind_return by apply get_prop_obj.
    rewrite Hm, Hs. change (true && true) with true. cbv iota.
    erewrite bind_return
      by (erewrite bind_return by (apply interp_printable; exact Hmsg); reflexivity).
    reflexivity.
  - destruct (truthy (lookup "sha256" props)); simpl; tauto.
  - destruct (truthy (lookup "sha256" props)); reflexivity.
  - destruct (truthy (lookup "sha256" props)); reflexivity.
Qed.

Lemma no_faces_message_takes_over_witness :
  exists t,
    formatResultsToHumanReadable PROOFLY_CONFIG
      (JObj [("status", JStr "no faces found"); ("message", JStr "Nothing to see");
             ("faces", JArr [sample_face])]) []
    = (Return t, []) /\
    In (Interp (JStr "Nothing to see")) t /\
    plus_ones t = [] /\
    percents t = [].
Proof.
  apply (no_faces_message_takes_over PROOFLY_CONFIG
           [("status", JStr "no faces found"); ("message", JStr "Nothing to see");
            ("faces", JArr [sample_face])] []).
  - reflexivity.
  - reflexivity.
  - reflexivity.
  - reflexivity.
  - reflexivity.
Defined.
